(** * fivetran-operator: reconciliation engine

    A shallow embedding of the parts of the operator that decide what is
    sent to the provider, how failures are classified, how drift is
    repaired and how secrets are resolved:

    - [pkg/fivetran/errors.go]                 module [FivetranErrors]
    - [api/v1alpha1] types and their JSON form    module [V1alpha1]
    - [pkg/fivetran] schema comparator          module [SchemaCompare]
    - [pkg/fivetran/schema_builder.go]          module [Builder]
    - [pkg/fivetran/vault] secret resolver      module [VaultOps]
    - [pkg/fivetran] connector and schema services  modules [Provider], [Services]
    - [internal/controller/fivetranconnector]   modules [Fingerprint], [Controller]
    - deletion and finalizer of [Reconcile]     module [Lifecycle]
    - [pkg/vault] client configuration          module [VaultClient]
    - [internal/kubeutils]                      module [Kubeutils]

    with models of the library functions they rest on ([strings], [errors],
    [encoding/json], [crypto/md5]).

    Go values are modelled as follows.  An [int] is a [Z] (only compared
    and printed here).  A pointer that may be nil is an [option].  A Go map
    that is only indexed is a [gmap]; a Go map that is ranged over is the
    list of its entries in the order the loop visits them (Go leaves that
    order unspecified, so statements quantify over every such list).  An
    [error] is a value of [GoError.error]; [nil] is [None].  Calls that
    leave the process (provider, API server, secret store) are answered by
    an environment and logged, see [Provider.Env]. *)

From Stdlib Require Import ZArith List Permutation Sorted Bool Ascii String Lia OrdersEx.
From stdpp Require Import base strings gmap sorting.
Import ListNotations.

Set Warnings "-register-all".
Local Open Scope Z_scope.

(* ===================================================================== *)
(** * Go strings *)
(* ===================================================================== *)

Module GoStrings.

(** strings.HasPrefix *)
Fixpoint HasPrefix (s prefix : string) {struct prefix} : bool :=
  match prefix with
  | EmptyString => true
  | String c p =>
      match s with
      | EmptyString => false
      | String d s' => if Ascii.eqb c d then HasPrefix s' p else false
      end
  end.

(** s[n:] *)
Fixpoint drop (n : nat) (s : string) : string :=
  match n, s with
  | O, _ => s
  | S n', String _ s' => drop n' s'
  | S _, EmptyString => EmptyString
  end.

(** strings.TrimPrefix *)
Definition TrimPrefix (s prefix : string) : string :=
  if HasPrefix s prefix then drop (String.length prefix) s else s.

(** strings.Contains *)
Fixpoint Contains (s substr : string) : bool :=
  if HasPrefix s substr then true
  else match s with
       | EmptyString => false
       | String _ s' => Contains s' substr
       end.

(** strings.Join *)
Fixpoint Join (elems : list string) (sep : string) : string :=
  match elems with
  | [] => EmptyString
  | [x] => x
  | x :: rest => x +:+ sep +:+ Join rest sep
  end.

(** strings.SplitN(s, sep, 2) for a one-byte separator: the text before
    the first separator and the text after it, or [s] alone. *)
Fixpoint cut (sep : ascii) (s : string) : option (string * string) :=
  match s with
  | EmptyString => None
  | String c s' =>
      if Ascii.eqb c sep then Some (EmptyString, s')
      else match cut sep s' with
           | Some (a, b) => Some (String c a, b)
           | None => None
           end
  end.

Definition SplitN2 (s : string) (sep : ascii) : list string :=
  match cut sep s with
  | Some (a, b) => [a; b]
  | None => [s]
  end.

(** fmt's %v / %t of a bool *)
Definition fmt_bool (b : bool) : string := if b then "true" else "false".

(** Decimal rendering of an int (fmt's %d). *)
Definition digit (n : Z) : ascii := ascii_of_nat (48 + Z.to_nat n).

Fixpoint digits (fuel : nat) (n : Z) (acc : string) : string :=
  match fuel with
  | O => acc
  | S f =>
      let acc' := String (digit (n mod 10)) acc in
      if n / 10 =? 0 then acc' else digits f (n / 10) acc'
  end.

Definition fmt_int (n : Z) : string :=
  if n <? 0 then String "-" (digits (S (Z.to_nat (Z.log2 (- n)))) (- n) EmptyString)
  else digits (S (Z.to_nat (Z.log2 n))) n EmptyString.

End GoStrings.

(* ===================================================================== *)
(** * pkg/fivetran/errors.go *)
(* ===================================================================== *)

Module FivetranErrors.

(** type APIError struct *)
Record APIError := {
  StatusCode : Z;
  Code : string;
  Message : string;
  RawError : string
}.

(** func (e *APIError) Error() string *)
Definition APIError_Error (e : APIError) : string :=
  "fivetran api error (status " +:+ GoStrings.fmt_int (StatusCode e) +:+ "): "
    +:+ Code e +:+ " - " +:+ Message e.

(** func (e *APIError) IsRetryable() bool *)
Definition IsRetryable (e : APIError) : bool :=
  if StatusCode e =? 429 then true
  else if (StatusCode e =? 500) || (StatusCode e =? 502)
          || (StatusCode e =? 503) || (StatusCode e =? 504) then true
  else (StatusCode e <? 400) || (StatusCode e >=? 500).

End FivetranErrors.

(* ===================================================================== *)
(** * Go errors *)
(* ===================================================================== *)

Module GoError.

(** The package-level error variables of the controller and of the vault
    resolver; [errors.Is] compares them by identity. *)
Inductive Sentinel :=
| ErrFivetranClientNotInitialized
| ErrVaultClientInitializationFailed
| ErrSchemaMismatchAfterRetry
| ErrSetupTestsFailed
| ErrConnectorValidationFailed
| ErrInvalidVaultReference
| ErrSecretDataNil
| ErrSecretNotFound
| ErrKeyNotFound.

Definition Sentinel_eqb (a b : Sentinel) : bool :=
  match a, b with
  | ErrFivetranClientNotInitialized, ErrFivetranClientNotInitialized
  | ErrVaultClientInitializationFailed, ErrVaultClientInitializationFailed
  | ErrSchemaMismatchAfterRetry, ErrSchemaMismatchAfterRetry
  | ErrSetupTestsFailed, ErrSetupTestsFailed
  | ErrConnectorValidationFailed, ErrConnectorValidationFailed
  | ErrInvalidVaultReference, ErrInvalidVaultReference
  | ErrSecretDataNil, ErrSecretDataNil
  | ErrSecretNotFound, ErrSecretNotFound
  | ErrKeyNotFound, ErrKeyNotFound => true
  | _, _ => false
  end.

(** The message of [ErrConnectorValidationFailed] is declared outside the
    files at hand; only its identity matters below. *)
Definition Sentinel_text (s : Sentinel) : string :=
  match s with
  | ErrFivetranClientNotInitialized => "fivetran client is not initialized"
  | ErrVaultClientInitializationFailed => "failed to initialize vault client"
  | ErrSchemaMismatchAfterRetry =>
      "schema still mismatches CR after retry; possible schema config issue"
  | ErrSetupTestsFailed => "setup tests failed"
  | ErrConnectorValidationFailed => "connector validation failed"
  | ErrInvalidVaultReference =>
      "invalid vault reference format (expected format: vault:path#key)"
  | ErrSecretDataNil => "secret data is nil"
  | ErrSecretNotFound => "secret not found at path"
  | ErrKeyNotFound => "key not found in vault secret"
  end.

(** A Go [error] value.
    - [New msg]: [errors.New] or [fmt.Errorf] without [%w], and any error
      of another library;
    - [Var s]: one of the package-level variables;
    - [Wrap pre inner post]: [fmt.Errorf("pre%wpost", inner)];
    - [Joined es]: [errors.Join];
    - [API e]: a [*fivetran.APIError];
    - [Vault err retryable keyPath vaultRef]: a [*vault.VaultError]
      (it has no [Unwrap] method). *)
Inductive error :=
| New (msg : string)
| Var (s : Sentinel)
| Wrap (pre : string) (inner : error) (post : string)
| Joined (errs : list error)
| API (e : FivetranErrors.APIError)
| Vault (err : error) (retryable : bool) (keyPath vaultRef : string).

Definition newline : string := String (ascii_of_nat 10) EmptyString.

(** err.Error() *)
Fixpoint Error (e : error) : string :=
  match e with
  | New msg => msg
  | Var s => Sentinel_text s
  | Wrap pre inner post => pre +:+ Error inner +:+ post
  | Joined errs => GoStrings.Join (map Error errs) newline
  | API a => FivetranErrors.APIError_Error a
  | Vault err _ keyPath vaultRef =>
      if negb (String.eqb keyPath "") && negb (String.eqb vaultRef "")
      then keyPath +:+ ": vault reference '" +:+ vaultRef +:+ "': " +:+ Error err
      else Error err
  end.

(** errors.Is(err, target) for a package-level target *)
Fixpoint Is (e : error) (target : Sentinel) : bool :=
  match e with
  | Var s => Sentinel_eqb s target
  | Wrap _ inner _ => Is inner target
  | Joined errs => existsb (fun x => Is x target) errs
  | New _ | API _ | Vault _ _ _ _ => false
  end.

(** errors.As(err, &apiErr) with apiErr of type *fivetran.APIError *)
Fixpoint AsAPIError (e : error) : option FivetranErrors.APIError :=
  match e with
  | API a => Some a
  | Wrap _ inner _ => AsAPIError inner
  | Joined errs =>
      (fix first (l : list error) : option FivetranErrors.APIError :=
         match l with
         | [] => None
         | x :: rest =>
             match AsAPIError x with
             | Some a => Some a
             | None => first rest
             end
         end) errs
  | New _ | Var _ | Vault _ _ _ _ => None
  end.

(** errors.As(err, &vaultErr) with vaultErr of type *vault.VaultError;
    the result is the error's retryable flag. *)
Fixpoint AsVaultError (e : error) : option bool :=
  match e with
  | Vault _ retryable _ _ => Some retryable
  | Wrap _ inner _ => AsVaultError inner
  | Joined errs =>
      (fix first (l : list error) : option bool :=
         match l with
         | [] => None
         | x :: rest =>
             match AsVaultError x with
             | Some a => Some a
             | None => first rest
             end
         end) errs
  | New _ | Var _ | API _ => None
  end.

End GoError.

(* ===================================================================== *)
(** * encoding/json *)
(* ===================================================================== *)

Module GoJSON.

(** A JSON text as its syntax tree, the members of an object in the order
    they are written.  A number keeps its literal.  The same type holds
    the value [json.Unmarshal] stores into an [any]: there the member list
    of an object is the entry list of a [map[string]any]. *)
Inductive json :=
| JNull
| JBool (b : bool)
| JNumber (lit : string)
| JString (s : string)
| JArray (items : list json)
| JObject (members : list (string * json)).

Definition dq : ascii := ascii_of_nat 34.
Definition backslash : ascii := ascii_of_nat 92.

Definition hex_digit (n : nat) : ascii :=
  if Nat.ltb n 10 then ascii_of_nat (48 + n) else ascii_of_nat (87 + n).

(** One byte of a string inside the quotes, as the encoder writes it (HTML
    escaping on, which is [json.Marshal]'s default). *)
Definition escape_byte (c : ascii) : string :=
  let n := nat_of_ascii c in
  if Nat.eqb n 34 then String backslash (String dq EmptyString)
  else if Nat.eqb n 92 then String backslash (String backslash EmptyString)
  else if Nat.eqb n 8 then "\b"
  else if Nat.eqb n 12 then "\f"
  else if Nat.eqb n 10 then "\n"
  else if Nat.eqb n 13 then "\r"
  else if Nat.eqb n 9 then "\t"
  else if Nat.ltb n 32 || Nat.eqb n 60 || Nat.eqb n 62 || Nat.eqb n 38
       then "\u00" +:+ String (hex_digit (Nat.div n 16))
                         (String (hex_digit (Nat.modulo n 16)) EmptyString)
  else String c EmptyString.

(** The bytes of a valid UTF-8 string; U+2028 and U+2029 (E2 80 A8 and
    E2 80 A9) are escaped as well. *)
Fixpoint escape (s : string) : string :=
  match s with
  | EmptyString => EmptyString
  | String c rest =>
      match rest with
      | String c2 (String c3 rest3) =>
          if Nat.eqb (nat_of_ascii c) 226 && Nat.eqb (nat_of_ascii c2) 128
             && (Nat.eqb (nat_of_ascii c3) 168 || Nat.eqb (nat_of_ascii c3) 169)
          then "\u202" +:+ String (hex_digit (nat_of_ascii c3 - 160)) (escape rest3)
          else escape_byte c +:+ escape rest
      | _ => escape_byte c +:+ escape rest
      end
  end.

Definition quote (s : string) : string :=
  String dq (escape s +:+ String dq EmptyString).

(** The compact text of a syntax tree, members in the order given. *)
Fixpoint encode (j : json) : string :=
  match j with
  | JNull => "null"
  | JBool b => GoStrings.fmt_bool b
  | JNumber lit => lit
  | JString s => quote s
  | JArray items => "[" +:+ GoStrings.Join (map encode items) "," +:+ "]"
  | JObject members =>
      "{" +:+ GoStrings.Join
                (map (fun kv => quote (fst kv) +:+ ":" +:+ encode (snd kv)) members) ","
          +:+ "}"
  end.

(** Key order of the encoder for Go maps: ascending byte order. *)
Definition key_ltb (a b : string) : bool :=
  match OrdersEx.String_as_OT.compare a b with
  | Lt => true
  | _ => false
  end.

Fixpoint insert_entry {V} (e : string * V) (l : list (string * V)) : list (string * V) :=
  match l with
  | [] => [e]
  | e' :: rest =>
      if key_ltb (fst e') (fst e) then e' :: insert_entry e rest else e :: l
  end.

Definition sort_keys {V} (l : list (string * V)) : list (string * V) :=
  fold_right insert_entry [] l.

(** A Go map with string keys, as [json.Marshal] writes it. *)
Definition marshal_map {V} (enc : V -> string) (m : list (string * V)) : string :=
  "{" +:+ GoStrings.Join
            (map (fun kv => quote (fst kv) +:+ ":" +:+ enc (snd kv)) (sort_keys m)) ","
      +:+ "}".

(** One struct field, and a struct from the fields that are written. *)
Definition field (name value : string) : list string :=
  [quote name +:+ ":" +:+ value].

Definition omitempty_string (name value : string) : list string :=
  if String.eqb value "" then [] else field name (quote value).

Definition omitempty_int (name : string) (value : Z) : list string :=
  if value =? 0 then [] else field name (GoStrings.fmt_int value).

Definition omitempty_bool_ptr (name : string) (value : option bool) : list string :=
  match value with
  | None => []
  | Some b => field name (GoStrings.fmt_bool b)
  end.

Definition marshal_struct (fields : list string) : string :=
  "{" +:+ GoStrings.Join fields "," +:+ "}".

End GoJSON.

(* ===================================================================== *)
(** * crypto/md5 *)
(* ===================================================================== *)

Module MD5.

Definition mask32 : Z := 0xffffffff.
Definition add32 (a b : Z) : Z := Z.land (a + b) mask32.
Definition not32 (a : Z) : Z := Z.lxor a mask32.
Definition rotl32 (x : Z) (c : Z) : Z :=
  Z.land (Z.lor (Z.shiftl x c) (Z.shiftr x (32 - c))) mask32.

(** Per-round shift amounts. *)
Definition shifts : list Z :=
  [7; 12; 17; 22; 7; 12; 17; 22; 7; 12; 17; 22; 7; 12; 17; 22;
   5; 9; 14; 20; 5; 9; 14; 20; 5; 9; 14; 20; 5; 9; 14; 20;
   4; 11; 16; 23; 4; 11; 16; 23; 4; 11; 16; 23; 4; 11; 16; 23;
   6; 10; 15; 21; 6; 10; 15; 21; 6; 10; 15; 21; 6; 10; 15; 21].

(** floor(2^32 * abs(sin(i + 1))) *)
Definition K : list Z :=
  [ 0xd76aa478; 0xe8c7b756; 0x242070db; 0xc1bdceee;
    0xf57c0faf; 0x4787c62a; 0xa8304613; 0xfd469501;
    0x698098d8; 0x8b44f7af; 0xffff5bb1; 0x895cd7be;
    0x6b901122; 0xfd987193; 0xa679438e; 0x49b40821;
    0xf61e2562; 0xc040b340; 0x265e5a51; 0xe9b6c7aa;
    0xd62f105d; 0x02441453; 0xd8a1e681; 0xe7d3fbc8;
    0x21e1cde6; 0xc33707d6; 0xf4d50d87; 0x455a14ed;
    0xa9e3e905; 0xfcefa3f8; 0x676f02d9; 0x8d2a4c8a;
    0xfffa3942; 0x8771f681; 0x6d9d6122; 0xfde5380c;
    0xa4beea44; 0x4bdecfa9; 0xf6bb4b60; 0xbebfbc70;
    0x289b7ec6; 0xeaa127fa; 0xd4ef3085; 0x04881d05;
    0xd9d4d039; 0xe6db99e5; 0x1fa27cf8; 0xc4ac5665;
    0xf4292244; 0x432aff97; 0xab9423a7; 0xfc93a039;
    0x655b59c3; 0x8f0ccc92; 0xffeff47d; 0x85845dd1;
    0x6fa87e4f; 0xfe2ce6e0; 0xa3014314; 0x4e0811a1;
    0xf7537e82; 0xbd3af235; 0x2ad7d2bb; 0xeb86d391 ].

Definition bytes_of_string (s : string) : list Z :=
  map (fun c => Z.of_nat (nat_of_ascii c)) (list_ascii_of_string s).

(** The 64-bit length in bits, little-endian. *)
Definition length_bytes (bits : Z) : list Z :=
  map (fun i => Z.land (Z.shiftr bits (8 * Z.of_nat i)) 0xff) (seq 0 8).

(** Padding: 0x80, zeros up to 56 mod 64, then the bit length. *)
Definition pad (msg : list Z) : list Z :=
  let n := Z.of_nat (length msg) in
  let zeros := Z.to_nat ((55 - n) mod 64) in
  msg ++ [0x80] ++ repeat 0 zeros ++ length_bytes (8 * n).

(** Little-endian 32-bit words of a byte sequence. *)
Fixpoint words (fuel : nat) (bs : list Z) : list Z :=
  match fuel with
  | O => []
  | S f =>
      match bs with
      | b0 :: b1 :: b2 :: b3 :: rest =>
          (b0 + Z.shiftl b1 8 + Z.shiftl b2 16 + Z.shiftl b3 24) :: words f rest
      | _ => []
      end
  end.

Fixpoint chunks (fuel : nat) (ws : list Z) : list (list Z) :=
  match fuel with
  | O => []
  | S f =>
      match ws with
      | [] => []
      | _ => firstn 16 ws :: chunks f (skipn 16 ws)
      end
  end.

Definition state : Type := Z * Z * Z * Z.

Definition round (M : list Z) (st : state) (i : nat) : state :=
  let '(A, B, C, D) := st in
  let iz := Z.of_nat i in
  let '(F, g) :=
    if iz <? 16 then (Z.lor (Z.land B C) (Z.land (not32 B) D), iz)
    else if iz <? 32 then (Z.lor (Z.land D B) (Z.land (not32 D) C), (5 * iz + 1) mod 16)
    else if iz <? 48 then (Z.lxor (Z.lxor B C) D, (3 * iz + 5) mod 16)
    else (Z.lxor C (Z.lor B (not32 D)), (7 * iz) mod 16) in
  let F' := add32 (add32 (add32 F A) (nth i K 0)) (nth (Z.to_nat g) M 0) in
  (D, add32 B (rotl32 F' (nth i shifts 0)), B, C).

Definition block (st : state) (M : list Z) : state :=
  let '(a0, b0, c0, d0) := st in
  let '(A, B, C, D) := fold_left (round M) (seq 0 64) st in
  (add32 a0 A, add32 b0 B, add32 c0 C, add32 d0 D).

Definition init : state := (0x67452301, 0xefcdab89, 0x98badcfe, 0x10325476).

Definition word_bytes (w : Z) : list Z :=
  map (fun i => Z.land (Z.shiftr w (8 * Z.of_nat i)) 0xff) (seq 0 4).

(** md5.Sum *)
Definition Sum (msg : list Z) : list Z :=
  let padded := pad msg in
  let ws := words (length padded) padded in
  let '(a, b, c, d) := fold_left block (chunks (length ws) ws) init in
  word_bytes a ++ word_bytes b ++ word_bytes c ++ word_bytes d.

Definition hex_digit (n : Z) : ascii :=
  if n <? 10 then ascii_of_nat (48 + Z.to_nat n) else ascii_of_nat (87 + Z.to_nat n).

(** fmt.Sprintf("%x", digest) *)
Fixpoint hex (bs : list Z) : string :=
  match bs with
  | [] => EmptyString
  | b :: rest => String (hex_digit (b / 16)) (String (hex_digit (b mod 16)) (hex rest))
  end.

Definition hexdigest (s : string) : string := hex (Sum (bytes_of_string s)).

End MD5.

(* ===================================================================== *)
(** * api/v1alpha1: the declared resource *)
(* ===================================================================== *)

Module V1alpha1.

(** type ColumnObject struct *)
Record ColumnObject := {
  col_Enabled : bool;
  col_Hashed : bool;
  col_IsPrimaryKey : bool;
  col_MaskingAlgorithm : string
}.

(** type TableObject struct.  [Columns] is a Go map that the controller
    ranges over: the list of its entries.  A nil map and an empty map are
    both [[]]; no code below tells them apart (ranging, [len] and
    [omitempty] treat them alike).  The map values are non-nil pointers. *)
Record TableObject := {
  tbl_Enabled : bool;
  tbl_Columns : list (string * ColumnObject);
  tbl_SyncMode : string
}.

(** type SchemaObject struct *)
Record SchemaObject := {
  sch_Enabled : bool;
  sch_Tables : list (string * TableObject)
}.

(** type ConnectorSchemaConfig struct *)
Record ConnectorSchemaConfig := {
  Schemas : list (string * SchemaObject);
  SchemaChangeHandling : string
}.

(** The bytes of a [runtime.RawExtension]: a JSON text, held as its syntax
    tree (white space and the spelling of escapes are not represented), or
    bytes that are no JSON text.  An empty non-nil slice is not
    represented. *)
Inductive RawBytes :=
| Malformed
| Text (doc : GoJSON.json).

(** runtime.RawExtension; [Raw = None] is a nil slice. *)
Record RawExtension := { Raw : option RawBytes }.

(** type Connector struct, fields in declaration order *)
Record Connector := {
  GroupID : string;
  Service : string;
  Auth : option RawExtension;
  Config : option RawExtension;
  DailySyncTime : string;
  SyncFrequency : Z;
  ScheduleType : string;
  Paused : option bool;
  RunSetupTests : option bool;
  PauseAfterTrial : option bool;
  TrustCertificates : option bool;
  TrustFingerprints : option bool;
  DataDelaySensitivity : string;
  DataDelayThreshold : Z;
  NetworkingMethod : string;
  ProxyAgentID : string;
  PrivateLinkID : string;
  HybridDeploymentAgentID : string
}.

(** type FivetranConnectorSpec struct *)
Record FivetranConnectorSpec := {
  spec_Connector : Connector;
  ConnectorSchemas : option ConnectorSchemaConfig
}.

(** metav1.ConditionStatus *)
Inductive ConditionStatus := ConditionTrue | ConditionFalse | ConditionUnknown.

(** metav1.Condition without its timestamp and observed generation. *)
Record Condition := {
  cond_Type : string;
  cond_Status : ConditionStatus;
  cond_Reason : string;
  cond_Message : string
}.

(** type FivetranConnectorStatus struct *)
Record FivetranConnectorStatus := {
  ConnectorURL : string;
  ConnectorID : string;
  Conditions : list Condition
}.

(** type FivetranConnector struct: the object metadata that the
    controller reads and writes, the spec and the status. *)
Record FivetranConnector := {
  Annotations : gmap string string;
  Labels : gmap string string;
  Spec : FivetranConnectorSpec;
  Status : FivetranConnectorStatus
}.

(** ** json.Marshal of these types, by their struct tags *)
Import GoJSON.

(** func (re RawExtension) MarshalJSON, then the encoder's compaction;
    [None] is the encoder's error on bytes that are no JSON text. *)
Definition marshal_RawExtension (re : RawExtension) : option string :=
  match Raw re with
  | None => Some "null"
  | Some Malformed => None
  | Some (Text doc) => Some (encode doc)
  end.

Definition marshal_ColumnObject (c : ColumnObject) : string :=
  marshal_struct
    (field "enabled" (GoStrings.fmt_bool (col_Enabled c))
     ++ field "hashed" (GoStrings.fmt_bool (col_Hashed c))
     ++ field "is_primary_key" (GoStrings.fmt_bool (col_IsPrimaryKey c))
     ++ omitempty_string "masking_algorithm" (col_MaskingAlgorithm c)).

Definition omitempty_map {V} (name : string) (enc : V -> string)
           (m : list (string * V)) : list string :=
  match m with
  | [] => []
  | _ => field name (marshal_map enc m)
  end.

Definition marshal_TableObject (t : TableObject) : string :=
  marshal_struct
    (field "enabled" (GoStrings.fmt_bool (tbl_Enabled t))
     ++ omitempty_map "columns" marshal_ColumnObject (tbl_Columns t)
     ++ omitempty_string "sync_mode" (tbl_SyncMode t)).

Definition marshal_SchemaObject (s : SchemaObject) : string :=
  marshal_struct
    (field "enabled" (GoStrings.fmt_bool (sch_Enabled s))
     ++ omitempty_map "tables" marshal_TableObject (sch_Tables s)).

Definition marshal_ConnectorSchemaConfig (c : ConnectorSchemaConfig) : string :=
  marshal_struct
    (omitempty_map "schemas" marshal_SchemaObject (Schemas c)
     ++ omitempty_string "schema_change_handling" (SchemaChangeHandling c)).

Definition marshal_Connector (c : Connector) : option string :=
  let auth :=
    match Auth c with
    | None => Some []
    | Some re => option_map (field "auth") (marshal_RawExtension re)
    end in
  let config :=
    match Config c with
    | None => Some (field "config" "null")
    | Some re => option_map (field "config") (marshal_RawExtension re)
    end in
  match auth, config with
  | Some auth_field, Some config_field =>
      Some (marshal_struct
              (field "group_id" (quote (GroupID c))
               ++ field "service" (quote (Service c))
               ++ auth_field
               ++ config_field
               ++ omitempty_string "daily_sync_time" (DailySyncTime c)
               ++ omitempty_int "sync_frequency" (SyncFrequency c)
               ++ omitempty_string "schedule_type" (ScheduleType c)
               ++ field "paused"
                    (match Paused c with
                     | None => "null"
                     | Some b => GoStrings.fmt_bool b
                     end)
               ++ omitempty_bool_ptr "run_setup_tests" (RunSetupTests c)
               ++ omitempty_bool_ptr "pause_after_trial" (PauseAfterTrial c)
               ++ omitempty_bool_ptr "trust_certificates" (TrustCertificates c)
               ++ omitempty_bool_ptr "trust_fingerprints" (TrustFingerprints c)
               ++ omitempty_string "data_delay_sensitivity" (DataDelaySensitivity c)
               ++ omitempty_int "data_delay_threshold" (DataDelayThreshold c)
               ++ omitempty_string "networking_method" (NetworkingMethod c)
               ++ omitempty_string "proxy_agent_id" (ProxyAgentID c)
               ++ omitempty_string "private_link_id" (PrivateLinkID c)
               ++ omitempty_string "hybrid_deployment_agent_id"
                    (HybridDeploymentAgentID c)))
  | _, _ => None
  end.

End V1alpha1.

(* ===================================================================== *)
(** * internal/controller/fivetranconnector: fingerprints (utils.go) *)
(* ===================================================================== *)

Module Fingerprint.
Import V1alpha1.

(** The error of [json.Marshal] on a raw extension that is no JSON text. *)
Definition marshal_error : GoError.error :=
  GoError.New "json: error calling MarshalJSON for type *runtime.RawExtension".

(** func calculateConnectorHash *)
Definition calculateConnectorHash (connector : FivetranConnector)
  : string * option GoError.error :=
  match marshal_Connector (spec_Connector (Spec connector)) with
  | None => ("", Some marshal_error)
  | Some bytes => (MD5.hexdigest bytes, None)
  end.

(** func calculateSchemaHash *)
Definition calculateSchemaHash (connector : FivetranConnector)
  : string * option GoError.error :=
  match ConnectorSchemas (Spec connector) with
  | None => ("", None)
  | Some schemas => (MD5.hexdigest (marshal_ConnectorSchemaConfig schemas), None)
  end.

End Fingerprint.

(* ===================================================================== *)
(** * pkg/fivetran: structural schema comparator *)
(* ===================================================================== *)

Module SchemaCompare.
Import V1alpha1.

(** connections.ConnectionSchemaConfigTableResponse (the fields read).  In
    the live maps too the values are non-nil pointers. *)
Record TableResponse := {
  tr_Enabled : option bool;
  tr_SyncMode : option string
}.

(** connections.ConnectionSchemaConfigSchemaResponse (the fields read) *)
Record SchemaResponse := {
  sr_Enabled : option bool;
  sr_Tables : gmap string TableResponse
}.

(** connections.ConnectionSchemaDetailsResponse: the embedded
    CommonResponse code and the Data block. *)
Record ConnectionSchemaDetailsResponse := {
  resp_Code : string;
  resp_Message : string;
  data_SchemaChangeHandling : string;
  data_Schemas : gmap string SchemaResponse
}.

(** type SchemaMismatch struct.  The two maps are ranged over by
    [String], so they are entry lists. *)
Record SchemaMismatch := {
  HasMismatch : bool;
  sm_SchemaChangeHandling : option string;
  MissingSchemas : list string;
  SchemaMismatches : list (string * string);
  TableMismatches : list (string * list string)
}.

(** m[k] = v on an entry list: overwrite the entry of [k] or add one. *)
Fixpoint map_set {V} (k : string) (v : V) (m : list (string * V)) : list (string * V) :=
  match m with
  | [] => [(k, v)]
  | (k', v') :: rest =>
      if String.eqb k k' then (k, v) :: rest else (k', v') :: map_set k v rest
  end.

(** func (sm *SchemaMismatch) String() string *)
Definition SchemaMismatch_String (sm : SchemaMismatch) : string :=
  if negb (HasMismatch sm) then "No schema mismatches found"
  else
    let parts0 : list string :=
      match sm_SchemaChangeHandling sm with
      | Some r => ["Schema Change Handling: " +:+ r]
      | None => []
      end in
    let parts1 :=
      if (0 <? Z.of_nat (length (MissingSchemas sm)))
      then parts0 ++ ["Missing Schemas: " +:+ GoStrings.Join (MissingSchemas sm) ", "]
      else parts0 in
    let parts2 :=
      fold_left (fun parts '(schema, reason) =>
                   parts ++ ["Schema " +:+ schema +:+ ": " +:+ reason])
                (SchemaMismatches sm) parts1 in
    let parts3 :=
      fold_left (fun parts '(schema, issues) =>
                   parts ++ ["Schema " +:+ schema +:+ " tables: "
                               +:+ GoStrings.Join issues ", "])
                (TableMismatches sm) parts2 in
    GoStrings.Join parts3 "; ".

(** The issues of one declared table against its live counterpart: the
    body of the loop of [compareTablesWithFivetran] once the live table
    is found. *)
Definition tableIssues (fivetranTableObj : TableResponse) (crTableObj : TableObject)
  : list string :=
  let tableIssues0 : list string :=
    match tr_Enabled fivetranTableObj with
    | Some e =>
        if negb (Bool.eqb e (tbl_Enabled crTableObj))
        then ["enabled state mismatch: expected "
                +:+ GoStrings.fmt_bool (tbl_Enabled crTableObj)
                +:+ ", got " +:+ GoStrings.fmt_bool e]
        else []
    | None => []
    end in
  if negb (String.eqb (tbl_SyncMode crTableObj) "") then
    match tr_SyncMode fivetranTableObj with
    | None =>
        tableIssues0 ++ ["sync mode mismatch: expected "
                           +:+ tbl_SyncMode crTableObj +:+ ", got nil"]
    | Some m =>
        if negb (String.eqb m (tbl_SyncMode crTableObj))
        then tableIssues0 ++ ["sync mode mismatch: expected "
                                +:+ tbl_SyncMode crTableObj +:+ ", got " +:+ m]
        else tableIssues0
    end
  else tableIssues0.

(** One iteration of the loop of [compareTablesWithFivetran]. *)
Definition compareTable_step (fivetranTables : gmap string TableResponse)
           (tableMismatches : list string) (entry : string * TableObject) : list string :=
  let '(crTableName, crTableObj) := entry in
  match fivetranTables !! crTableName with
  | None => tableMismatches ++ ["table " +:+ crTableName +:+ " not found in source"]
  | Some fivetranTableObj =>
      let issues := tableIssues fivetranTableObj crTableObj in
      if (0 <? Z.of_nat (length issues))
      then tableMismatches ++ ["table " +:+ crTableName +:+ ": "
                                 +:+ GoStrings.Join issues ", "]
      else tableMismatches
  end.

(** func compareTablesWithFivetran *)
Definition compareTablesWithFivetran (fivetranTables : gmap string TableResponse)
           (crTables : list (string * TableObject)) : list string :=
  fold_left (compareTable_step fivetranTables) crTables [].

(** One iteration of the loop over the declared schemas. *)
Definition compareSchema_step (fivetranSchemas : gmap string SchemaResponse)
           (mismatch : SchemaMismatch) (entry : string * SchemaObject) : SchemaMismatch :=
  let '(crSchemaName, crSchemaObj) := entry in
  match fivetranSchemas !! crSchemaName with
  | None =>
      {| HasMismatch := true;
         sm_SchemaChangeHandling := sm_SchemaChangeHandling mismatch;
         MissingSchemas := MissingSchemas mismatch ++ [crSchemaName];
         SchemaMismatches := SchemaMismatches mismatch;
         TableMismatches := TableMismatches mismatch |}
  | Some fivetranSchemaObj =>
      let mismatch1 :=
        match sr_Enabled fivetranSchemaObj with
        | Some e =>
            if negb (Bool.eqb e (sch_Enabled crSchemaObj)) then
              {| HasMismatch := true;
                 sm_SchemaChangeHandling := sm_SchemaChangeHandling mismatch;
                 MissingSchemas := MissingSchemas mismatch;
                 SchemaMismatches :=
                   map_set crSchemaName
                     ("enabled state mismatch: expected "
                        +:+ GoStrings.fmt_bool (sch_Enabled crSchemaObj)
                        +:+ ", got " +:+ GoStrings.fmt_bool e)
                     (SchemaMismatches mismatch);
                 TableMismatches := TableMismatches mismatch |}
            else mismatch
        | None => mismatch
        end in
      let tableMismatches :=
        compareTablesWithFivetran (sr_Tables fivetranSchemaObj) (sch_Tables crSchemaObj) in
      if (0 <? Z.of_nat (length tableMismatches)) then
        {| HasMismatch := true;
           sm_SchemaChangeHandling := sm_SchemaChangeHandling mismatch1;
           MissingSchemas := MissingSchemas mismatch1;
           SchemaMismatches := SchemaMismatches mismatch1;
           TableMismatches :=
             map_set crSchemaName tableMismatches (TableMismatches mismatch1) |}
      else mismatch1
  end.

Definition no_mismatch : SchemaMismatch :=
  {| HasMismatch := false;
     sm_SchemaChangeHandling := None;
     MissingSchemas := [];
     SchemaMismatches := [];
     TableMismatches := [] |}.

(** func CompareSchemaWithCR *)
Definition CompareSchemaWithCR (fivetranSchema : ConnectionSchemaDetailsResponse)
           (crSchema : option ConnectorSchemaConfig) : bool * SchemaMismatch :=
  match crSchema with
  | None => (true, no_mismatch)
  | Some cr =>
      let mismatch0 :=
        if negb (String.eqb (SchemaChangeHandling cr) "")
           && negb (String.eqb (data_SchemaChangeHandling fivetranSchema)
                               (SchemaChangeHandling cr))
        then {| HasMismatch := true;
                sm_SchemaChangeHandling :=
                  Some ("expected " +:+ SchemaChangeHandling cr +:+ ", got "
                          +:+ data_SchemaChangeHandling fivetranSchema);
                MissingSchemas := [];
                SchemaMismatches := [];
                TableMismatches := [] |}
        else no_mismatch in
      let mismatch :=
        fold_left (compareSchema_step (data_Schemas fivetranSchema))
                  (Schemas cr) mismatch0 in
      (negb (HasMismatch mismatch), mismatch)
  end.

End SchemaCompare.

(* ===================================================================== *)
(** * Documents up to the order of map entries *)
(* ===================================================================== *)

Module KeyOrder.
Import V1alpha1.

(** Two entry lists denote the same map up to [R] on the values: one is a
    reordering of the other, entry by entry related. *)
Definition MapEquiv {V} (R : V -> V -> Prop) (m1 m2 : list (string * V)) : Prop :=
  exists m1', Permutation m1 m1' /\
              Forall2 (fun a b => fst a = fst b /\ R (snd a) (snd b)) m1' m2.

Definition ColumnEquiv (c1 c2 : ColumnObject) : Prop := c1 = c2.

Definition TableEquiv (t1 t2 : TableObject) : Prop :=
  tbl_Enabled t1 = tbl_Enabled t2 /\
  tbl_SyncMode t1 = tbl_SyncMode t2 /\
  MapEquiv ColumnEquiv (tbl_Columns t1) (tbl_Columns t2).

Definition SchemaEquiv (s1 s2 : SchemaObject) : Prop :=
  sch_Enabled s1 = sch_Enabled s2 /\
  MapEquiv TableEquiv (sch_Tables s1) (sch_Tables s2).

Definition ConfigEquiv (c1 c2 : ConnectorSchemaConfig) : Prop :=
  SchemaChangeHandling c1 = SchemaChangeHandling c2 /\
  MapEquiv SchemaEquiv (Schemas c1) (Schemas c2).

(** The order of two entries by their keys. *)
Definition ltk {V} (a b : string * V) : Prop :=
  OrdersEx.String_as_OT.lt (fst a) (fst b).

(** Entries with the same key and the same encoding. *)
Definition same_entry {V} (enc : V -> string) (a b : string * V) : Prop :=
  fst a = fst b /\ enc (snd a) = enc (snd b).

(** The entry lists are those of Go maps: no key occurs twice. *)
Definition UniqueKeys {V} (m : list (string * V)) : Prop := NoDup (map fst m).

Definition TableWF (t : TableObject) : Prop := UniqueKeys (tbl_Columns t).

Definition SchemaWF (s : SchemaObject) : Prop :=
  UniqueKeys (sch_Tables s) /\ Forall (fun e => TableWF (snd e)) (sch_Tables s).

Definition ConfigWF (c : ConnectorSchemaConfig) : Prop :=
  UniqueKeys (Schemas c) /\ Forall (fun e => SchemaWF (snd e)) (Schemas c).

(** A resource with the given connector configuration document. *)
Definition connector_with_config (doc : GoJSON.json) : FivetranConnector :=
  {| Annotations := empty;
     Labels := empty;
     Spec :=
       {| spec_Connector :=
            {| GroupID := "group_1";
               Service := "postgres";
               Auth := None;
               Config := Some {| Raw := Some (Text doc) |};
               DailySyncTime := "";
               SyncFrequency := 60;
               ScheduleType := "auto";
               Paused := Some false;
               RunSetupTests := Some true;
               PauseAfterTrial := None;
               TrustCertificates := None;
               TrustFingerprints := None;
               DataDelaySensitivity := "";
               DataDelayThreshold := 0;
               NetworkingMethod := "";
               ProxyAgentID := "";
               PrivateLinkID := "";
               HybridDeploymentAgentID := "" |};
          ConnectorSchemas := None |};
     Status := {| ConnectorURL := ""; ConnectorID := ""; Conditions := [] |} |}.

(** A resource with the given schema subtree. *)
Definition connector_with_schemas (c : ConnectorSchemaConfig) : FivetranConnector :=
  {| Annotations := empty;
     Labels := empty;
     Spec :=
       {| spec_Connector :=
            spec_Connector (Spec (connector_with_config GoJSON.JNull));
          ConnectorSchemas := Some c |};
     Status := {| ConnectorURL := ""; ConnectorID := ""; Conditions := [] |} |}.

End KeyOrder.

(* ===================================================================== *)
(** * pkg/fivetran/schema_builder.go *)
(* ===================================================================== *)

Module Builder.

(** connections.ConnectionSchemaConfigColumn: every setter stores a
    pointer, so an unset attribute is [None]. *)
Record ColumnConfig := {
  cc_enabled : option bool;
  cc_hashed : option bool;
  cc_isPrimaryKey : option bool
}.

(** connections.ConnectionSchemaConfigTable *)
Record TableConfig := {
  tc_enabled : option bool;
  tc_syncMode : option string;
  tc_columns : gmap string ColumnConfig
}.

(** connections.ConnectionSchemaConfigSchema *)
Record SchemaConfig := {
  sc_enabled : option bool;
  sc_tables : gmap string TableConfig
}.

(** &connections.ConnectionSchemaConfigTable{} *)
Definition empty_table : TableConfig :=
  {| tc_enabled := None; tc_syncMode := None; tc_columns := empty |}.

(** ConnectionSchemaConfigSchema.Table(name, table): tables[name] = table *)
Definition Table (s : SchemaConfig) (name : string) (t : TableConfig) : SchemaConfig :=
  {| sc_enabled := sc_enabled s; sc_tables := <[name := t]> (sc_tables s) |}.

(** ConnectionSchemaConfigTable.Column(name, column): columns[name] = column *)
Definition Column (t : TableConfig) (name : string) (c : ColumnConfig) : TableConfig :=
  {| tc_enabled := tc_enabled t; tc_syncMode := tc_syncMode t;
     tc_columns := <[name := c]> (tc_columns t) |}.

(** type SchemaBuilder struct *)
Record SchemaBuilder := {
  schemas : gmap string SchemaConfig;
  schemaChangeHandling : string;
  err : option GoError.error
}.

Definition with_err (b : SchemaBuilder) (e : GoError.error) : SchemaBuilder :=
  {| schemas := schemas b; schemaChangeHandling := schemaChangeHandling b;
     err := Some e |}.

Definition with_schemas (b : SchemaBuilder) (m : gmap string SchemaConfig)
  : SchemaBuilder :=
  {| schemas := m; schemaChangeHandling := schemaChangeHandling b; err := err b |}.

(** func NewSchemaBuilder *)
Definition NewSchemaBuilder : SchemaBuilder :=
  {| schemas := empty; schemaChangeHandling := ""; err := None |}.

(** func (b *SchemaBuilder) WithSchemaChangeHandling *)
Definition WithSchemaChangeHandling (b : SchemaBuilder) (handling : string)
  : SchemaBuilder :=
  match err b with
  | Some _ => b
  | None => {| schemas := schemas b; schemaChangeHandling := handling; err := err b |}
  end.

(** func (b *SchemaBuilder) AddSchema *)
Definition AddSchema (b : SchemaBuilder) (name : string) (enabled : bool)
  : SchemaBuilder :=
  match err b with
  | Some _ => b
  | None =>
      if String.eqb name "" then with_err b (GoError.New "schema name cannot be empty")
      else
        let schema := {| sc_enabled := Some enabled; sc_tables := empty |} in
        with_schemas b (<[name := schema]> (schemas b))
  end.

(** fmt.Errorf("schema %q not found", schema), for a name that %q prints
    as it is between the quotes. *)
Definition not_found (schema : string) : GoError.error :=
  GoError.New ("schema " +:+ String GoJSON.dq (schema +:+ String GoJSON.dq " not found")).

(** func (b *SchemaBuilder) AddTable *)
Definition AddTable (b : SchemaBuilder) (schema table : string) (enabled : bool)
           (syncMode : string) : SchemaBuilder :=
  match err b with
  | Some _ => b
  | None =>
      if String.eqb schema "" || String.eqb table ""
      then with_err b (GoError.New "schema and table names cannot be empty")
      else
        match schemas b !! schema with
        | None => with_err b (not_found schema)
        | Some s =>
            let tableConfig :=
              {| tc_enabled := Some enabled;
                 tc_syncMode := if negb (String.eqb syncMode "") then Some syncMode
                                else None;
                 tc_columns := empty |} in
            with_schemas b (<[schema := Table s table tableConfig]> (schemas b))
        end
  end.

(** func (b *SchemaBuilder) AddColumn.  The fresh table configuration is
    installed under the table's name and then receives the column; the
    schema holds a pointer to it, so it sees the column. *)
Definition AddColumn (b : SchemaBuilder) (schema table column : string)
           (enabled hashed isPrimaryKey : bool) : SchemaBuilder :=
  match err b with
  | Some _ => b
  | None =>
      if String.eqb schema "" || String.eqb table "" || String.eqb column ""
      then with_err b (GoError.New "schema, table, and column names cannot be empty")
      else
        match schemas b !! schema with
        | None => with_err b (not_found schema)
        | Some s =>
            let columnConfig :=
              {| cc_enabled := Some enabled; cc_hashed := Some hashed;
                 cc_isPrimaryKey := Some isPrimaryKey |} in
            let tableConfig := Column empty_table column columnConfig in
            with_schemas b (<[schema := Table s table tableConfig]> (schemas b))
        end
  end.

(** func (b *SchemaBuilder) Build; the nil map of the error case is the
    empty map. *)
Definition Build (b : SchemaBuilder)
  : gmap string SchemaConfig * string * option GoError.error :=
  match err b with
  | Some e => (empty, "", Some e)
  | None => (schemas b, schemaChangeHandling b, None)
  end.

(** A builder without error that knows the schema. *)
Definition usable (b : SchemaBuilder) (schema : string) : Prop :=
  err b = None /\ is_Some (schemas b !! schema).

(** The table configuration that [Build] returns for a table, if any. *)
Definition built_table (b : SchemaBuilder) (schema table : string) : option TableConfig :=
  match fst (fst (Build b)) !! schema with
  | Some s => sc_tables s !! table
  | None => None
  end.

End Builder.

(* ===================================================================== *)
(** * pkg/fivetran/vault: secret resolver *)
(* ===================================================================== *)

Module VaultOps.
Import GoJSON V1alpha1.

(** What one read of the KV v2 store gives: an error of the client, or a
    secret whose [Raw] may be nil and whose [Raw.Data] may be nil. *)
Inductive VaultReply :=
| ReadError (e : GoError.error)
| ReadSecret (raw : option (option (list (string * json)))).

(** The store as the resolver meets it: the reply to a read of a path,
    given the paths read before in this pass. *)
Definition Store : Type := list string -> string -> VaultReply.

(** The per-call cache and the log of the reads of the store. *)
Record State := {
  cache : gmap string (list (string * json));
  fetches : list string
}.

Definition initial : State := {| cache := empty; fetches := [] |}.

Fixpoint lookup_entry {V} (k : string) (m : list (string * V)) : option V :=
  match m with
  | [] => None
  | (k', v) :: rest => if String.eqb k k' then Some v else lookup_entry k rest
  end.

Definition NewInvalidReferenceError (keyPath vaultRef details : string) : GoError.error :=
  GoError.Vault (GoError.Wrap "" (GoError.Var GoError.ErrInvalidVaultReference)
                              (": " +:+ details))
                false keyPath vaultRef.

Definition NewKeyNotFoundError (keyPath key path : string) (availableKeys : list string)
  : GoError.error :=
  GoError.Vault
    (GoError.Wrap "" (GoError.Var GoError.ErrKeyNotFound)
                  (" '" +:+ key +:+ "' at path '" +:+ path +:+ "' (available keys: ["
                     +:+ GoStrings.Join availableKeys " " +:+ "])"))
    false keyPath ("vault:" +:+ path +:+ "#" +:+ key).

Definition NewSecretNotFoundError (keyPath vaultRef path : string) : GoError.error :=
  GoError.Vault (GoError.Wrap "" (GoError.Var GoError.ErrSecretNotFound)
                              (" '" +:+ path +:+ "'"))
                false keyPath vaultRef.

Definition NewSecretDataNilError (keyPath vaultRef : string) : GoError.error :=
  GoError.Vault (GoError.Var GoError.ErrSecretDataNil) false keyPath vaultRef.

Definition NewVaultAPIError (keyPath vaultRef : string) (e : GoError.error)
  : GoError.error :=
  GoError.Vault (GoError.Wrap "failed to read vault secret: " e "") true keyPath vaultRef.

(** func parseVaultReference *)
Definition parseVaultReference (value : string)
  : (string * string) + GoError.error :=
  let ref := GoStrings.TrimPrefix value "vault:" in
  match GoStrings.SplitN2 ref "#" with
  | [path; key] =>
      if (String.length path =? 0)%nat || (String.length key =? 0)%nat
      then inr (GoError.Wrap "" (GoError.Var GoError.ErrInvalidVaultReference)
                             (": '" +:+ value +:+ "'"))
      else inl (path, key)
  | _ => inr (GoError.Wrap "" (GoError.Var GoError.ErrInvalidVaultReference)
                           (": '" +:+ value +:+ "'"))
  end.

(** func extractSecretData *)
Definition extractSecretData (secret : option (option (list (string * json))))
  : list (string * json) + GoError.error :=
  match secret with
  | None => inr (GoError.Var GoError.ErrSecretDataNil)
  | Some None => inr (GoError.Var GoError.ErrSecretDataNil)
  | Some (Some data) =>
      match lookup_entry "data" data with
      | Some (JObject m) => inl m
      | _ => inr (GoError.New
                    "invalid KV v2 format: 'data' key not found or not a map")
      end
  end.

(** func getPathData *)
Definition getPathData (vaultClient : Store) (path keyPath vaultRef : string)
           (st : State) : (list (string * json) + GoError.error) * State :=
  match cache st !! path with
  | Some data => (inl data, st)
  | None =>
      let st1 := {| cache := cache st; fetches := fetches st ++ [path] |} in
      match vaultClient (fetches st) path with
      | ReadError e => (inr (NewVaultAPIError keyPath vaultRef e), st1)
      | ReadSecret raw =>
          match extractSecretData raw with
          | inr e =>
              if GoError.Is e GoError.ErrSecretDataNil
              then (inr (NewSecretDataNilError keyPath vaultRef), st1)
              else (inr (NewSecretNotFoundError keyPath vaultRef path), st1)
          | inl data =>
              (inl data, {| cache := <[path := data]> (cache st1);
                            fetches := fetches st1 |})
          end
      end
  end.

(** func getKeys *)
Definition getKeys (data : list (string * json)) : list string := map fst data.

(** func resolveString *)
Definition resolveString (vaultClient : Store) (value keyPath : string) (st : State)
  : (json + GoError.error) * State :=
  if negb (GoStrings.HasPrefix value "vault:") then (inl (JString value), st)
  else
    match parseVaultReference value with
    | inr e => (inr (NewInvalidReferenceError keyPath value (GoError.Error e)), st)
    | inl (path, key) =>
        match getPathData vaultClient path keyPath value st with
        | (inr e, st1) => (inr e, st1)
        | (inl secretData, st1) =>
            match lookup_entry key secretData with
            | None =>
                (inr (NewKeyNotFoundError keyPath key path (getKeys secretData)), st1)
            | Some secretValue => (inl secretValue, st1)
            end
        end
    end.

(** func buildKeyPath *)
Definition buildKeyPath (parent child : string) : string :=
  if String.eqb parent "" then child else parent +:+ "." +:+ child.

Definition Resolver : Type :=
  json -> string -> State -> (json + GoError.error) * State.

(** func resolveMap, over the function that resolves one value; the
    results are collected with [result[key] = v]. *)
Definition resolveMap (resolve : Resolver) (keyPath : string)
  : list (string * json) -> list (string * json) -> State
    -> (json + GoError.error) * State :=
  fix loop (entries result : list (string * json)) (st : State) {struct entries} :=
    match entries with
    | [] => (inl (JObject result), st)
    | (key, value) :: rest =>
        match resolve value (buildKeyPath keyPath key) st with
        | (inr e, st1) => (inr e, st1)
        | (inl resolved, st1) =>
            loop rest (SchemaCompare.map_set key resolved result) st1
        end
    end.

(** func resolveSlice *)
Definition resolveSlice (resolve : Resolver) (keyPath : string)
  : list json -> nat -> list json -> State -> (json + GoError.error) * State :=
  fix loop (items : list json) (i : nat) (result : list json) (st : State)
      {struct items} :=
    match items with
    | [] => (inl (JArray result), st)
    | item :: rest =>
        let currentPath := keyPath +:+ "[" +:+ GoStrings.fmt_int (Z.of_nat i) +:+ "]" in
        match resolve item currentPath st with
        | (inr e, st1) => (inr e, st1)
        | (inl resolved, st1) => loop rest (S i) (result ++ [resolved]) st1
        end
    end.

(** func resolveValue *)
Fixpoint resolveValue (vaultClient : Store) (data : json) (keyPath : string)
         (st : State) {struct data} : (json + GoError.error) * State :=
  match data with
  | JObject members => resolveMap (resolveValue vaultClient) keyPath members [] st
  | JArray items => resolveSlice (resolveValue vaultClient) keyPath items O [] st
  | JString s => resolveString vaultClient s keyPath st
  | JNull | JBool _ | JNumber _ => (inl data, st)
  end.

(** The store paths that the references of a decoded document name. *)
Fixpoint refs (data : json) : list string :=
  match data with
  | JString s =>
      if GoStrings.HasPrefix s "vault:" then
        match parseVaultReference s with
        | inl (path, _) => [path]
        | inr _ => []
        end
      else []
  | JArray items => flat_map refs items
  | JObject members => flat_map (fun kv => refs (snd kv)) members
  | JNull | JBool _ | JNumber _ => []
  end.

(** How often a path was read from the store. *)
Fixpoint fetch_count (path : string) (log : list string) : nat :=
  match log with
  | [] => O
  | p :: rest => (if String.eqb p path then 1 else 0) + fetch_count path rest
  end.

(** json.Unmarshal into an [any]: of two members with the same key the
    later one stays.  A number stays the literal it is (its float64 value
    and formatting are not represented). *)
Fixpoint decode (doc : json) : json :=
  match doc with
  | JObject members =>
      JObject (fold_left (fun acc kv => SchemaCompare.map_set (fst kv) (decode (snd kv)) acc)
                         members [])
  | JArray items => JArray (map decode items)
  | _ => doc
  end.

(** json.Marshal of an [any]: the entries of every map in key order. *)
Fixpoint canonical (data : json) : json :=
  match data with
  | JObject members =>
      JObject (sort_keys (map (fun kv => (fst kv, canonical (snd kv))) members))
  | JArray items => JArray (map canonical items)
  | _ => data
  end.

(** func ResolveSecrets.  The caller's document is the first component of
    the result; the final state carries the log of the reads. *)
Definition ResolveSecrets (vaultClient : Store) (rawConfig : option RawExtension)
  : option RawExtension * option GoError.error * State :=
  match rawConfig with
  | None => (rawConfig, None, initial)
  | Some re =>
      match Raw re with
      | None => (rawConfig, None, initial)
      | Some Malformed =>
          (rawConfig,
           Some (GoError.Wrap "ResolveSecrets: failed to unmarshal config: "
                              (GoError.New "invalid character") ""),
           initial)
      | Some (Text doc) =>
          match resolveValue vaultClient (decode doc) "" initial with
          | (inr e, st) => (rawConfig, Some e, st)
          | (inl resolvedData, st) =>
              (Some {| Raw := Some (Text (canonical resolvedData)) |}, None, st)
          end
      end
  end.

End VaultOps.

(* ===================================================================== *)
(** * Secret resolver: notions used by its properties *)
(* ===================================================================== *)

Module VaultSpec.
Import GoJSON VaultOps.

(** A caller's document holding the JSON text [doc]. *)
Definition raw_document (doc : json) : option V1alpha1.RawExtension :=
  Some {| V1alpha1.Raw := Some (V1alpha1.Text doc) |}.

(** The string values of a decoded document. *)
Fixpoint strings (data : json) : list string :=
  match data with
  | JString s => [s]
  | JArray items => flat_map strings items
  | JObject members => flat_map (fun kv => strings (snd kv)) members
  | JNull | JBool _ | JNumber _ => []
  end.

(** A reference that cannot be resolved against the store, whenever it is
    read: bad grammar, a failing read, no data, or no such key. *)
Definition unresolvable (store : Store) (s : string) : Prop :=
  GoStrings.HasPrefix s "vault:" = true /\
  match parseVaultReference s with
  | inr _ => True
  | inl (path, key) =>
      forall h, match store h path with
                | ReadError _ => True
                | ReadSecret raw =>
                    match extractSecretData raw with
                    | inr _ => True
                    | inl data => lookup_entry key data = None
                    end
                end
  end.

(** Every path was read as often as it is cached: once or never. *)
Definition Inv (st : State) : Prop :=
  forall p, fetch_count p (fetches st)
            = match cache st !! p with Some _ => 1%nat | None => 0%nat end.

Definition AtMostOnce (st : State) : Prop :=
  forall p, (fetch_count p (fetches st) <= 1)%nat.

Definition Grows (st st' : State) : Prop :=
  forall p, is_Some (cache st !! p) -> is_Some (cache st' !! p).

(** What the cache holds came from the store. *)
Definition Sound (store : Store) (st : State) : Prop :=
  forall p d, cache st !! p = Some d ->
              exists h raw, store h p = ReadSecret raw /\ extractSecretData raw = inl d.

(** What a resolver guarantees on one value. *)
Definition Good (store : Store) (resolve : Resolver) (data : json) : Prop :=
  forall keyPath st r st',
    Inv st -> Sound store st ->
    resolve data keyPath st = (r, st') ->
    AtMostOnce st' /\ Sound store st' /\
    (forall d, r = inl d ->
       Inv st' /\ Grows st st' /\
       (forall p, In p (refs data) -> is_Some (cache st' !! p)) /\
       (forall s, In s (strings data) -> ~ unresolvable store s)).

End VaultSpec.

(* ===================================================================== *)
(** * pkg/fivetran: the services over the provider's SDK *)
(* ===================================================================== *)

Module Provider.
Import GoJSON.

(** common.CommonResponse *)
Record CommonResponse := { cr_Code : string; cr_Message : string }.

(** An error of the SDK: its text, and the status code that
    [fmt.Sscanf(text, "status code: %d; expected: %d", ...)] reads from
    it when the text has that form. *)
Record SDKError := { sdk_text : string; sdk_status : option Z }.

(** func WrapFivetranError.  A response carries its CommonResponse, so
    the code and message of the error are those of the response. *)
Definition WrapFivetranError (resp : CommonResponse) (e : option SDKError)
  : option GoError.error :=
  match e with
  | None => None
  | Some e =>
      Some (GoError.API
              {| FivetranErrors.StatusCode :=
                   match sdk_status e with Some c => c | None => 0 end;
                 FivetranErrors.Code := cr_Code resp;
                 FivetranErrors.Message := cr_Message resp;
                 FivetranErrors.RawError := sdk_text e |})
  end.

(** type Connector struct (pkg/fivetran).  [Config] and [Auth] are
    pointers to maps: [Some None] points to a nil map. *)
Record Connector := {
  Service : string;
  Config : option (option (list (string * json)));
  Auth : option (option (list (string * json)));
  Paused : option bool;
  GroupID : string;
  SyncFrequency : Z;
  DailySyncTime : string;
  RunSetupTests : option bool;
  ScheduleType : string;
  PauseAfterTrial : option bool;
  TrustCertificates : option bool;
  TrustFingerprints : option bool;
  DataDelaySensitivity : string;
  DataDelayThreshold : Z;
  NetworkingMethod : string;
  ProxyAgentID : string;
  PrivateLinkID : string;
  HybridDeploymentAgentID : string
}.

(** The SDK's connection-update request: every setter stores its
    argument, a field never set is [None] and is not sent. *)
Record ConnectionUpdate := {
  u_connectionID : option string;
  u_runSetupTests : option bool;
  u_paused : option bool;
  u_syncFrequency : option Z;
  u_dailySyncTime : option string;
  u_scheduleType : option string;
  u_pauseAfterTrial : option bool;
  u_config : option (option (list (string * json)));
  u_auth : option (option (list (string * json)));
  u_networkingMethod : option string;
  u_proxyAgentId : option string;
  u_privateLinkId : option string;
  u_hybridDeploymentAgentId : option string;
  u_dataDelaySensitivity : option string;
  u_dataDelayThreshold : option Z
}.

(** The SDK's connection-create request. *)
Record ConnectionCreate := {
  c_service : option string;
  c_groupID : option string;
  c_runSetupTests : option bool;
  c_paused : option bool;
  c_syncFrequency : option Z;
  c_dailySyncTime : option string;
  c_pauseAfterTrial : option bool;
  c_config : option (option (list (string * json)));
  c_auth : option (option (list (string * json)));
  c_networkingMethod : option string;
  c_proxyAgentId : option string;
  c_privateLinkId : option string;
  c_hybridDeploymentAgentId : option string;
  c_dataDelaySensitivity : option string;
  c_dataDelayThreshold : option Z
}.

Definition if_nonempty (s : string) : option string :=
  if negb (String.eqb s "") then Some s else None.

Definition if_nonzero (n : Z) : option Z :=
  if negb (n =? 0) then Some n else None.

(** The request that [UpdateConnection] builds before [DoCustom]. *)
Definition update_request (ConnectionID : string) (Connection : Connector)
  : ConnectionUpdate :=
  {| u_connectionID := Some ConnectionID;
     u_runSetupTests := Some false;
     u_paused := Paused Connection;
     u_syncFrequency := if_nonzero (SyncFrequency Connection);
     u_dailySyncTime := if_nonempty (DailySyncTime Connection);
     u_scheduleType := if_nonempty (ScheduleType Connection);
     u_pauseAfterTrial := PauseAfterTrial Connection;
     u_config := Config Connection;
     u_auth := Auth Connection;
     u_networkingMethod := if_nonempty (NetworkingMethod Connection);
     u_proxyAgentId := if_nonempty (ProxyAgentID Connection);
     u_privateLinkId := if_nonempty (PrivateLinkID Connection);
     u_hybridDeploymentAgentId := if_nonempty (HybridDeploymentAgentID Connection);
     u_dataDelaySensitivity := if_nonempty (DataDelaySensitivity Connection);
     u_dataDelayThreshold := if_nonzero (DataDelayThreshold Connection) |}.

(** The request that [CreateConnection] builds before [DoCustom]. *)
Definition create_request (Connection : Connector) : ConnectionCreate :=
  {| c_service := Some (Service Connection);
     c_groupID := Some (GroupID Connection);
     c_runSetupTests := Some false;
     c_paused := Paused Connection;
     c_syncFrequency := if_nonzero (SyncFrequency Connection);
     c_dailySyncTime := if_nonempty (DailySyncTime Connection);
     c_pauseAfterTrial := PauseAfterTrial Connection;
     c_config := Config Connection;
     c_auth := Auth Connection;
     c_networkingMethod := if_nonempty (NetworkingMethod Connection);
     c_proxyAgentId := if_nonempty (ProxyAgentID Connection);
     c_privateLinkId := if_nonempty (PrivateLinkID Connection);
     c_hybridDeploymentAgentId := if_nonempty (HybridDeploymentAgentID Connection);
     c_dataDelaySensitivity := if_nonempty (DataDelaySensitivity Connection);
     c_dataDelayThreshold := if_nonzero (DataDelayThreshold Connection) |}.

(** connections.DetailsWithCustomConfigNoTestsResponse: the data read
    during adoption. *)
Record ConnectionDetails := {
  d_Service : string;
  d_GroupID : string;
  d_Schema : string
}.

(** One entry of [resp.Data.SetupTests]. *)
Record SetupTest := {
  t_Title : string;
  t_Status : string;
  t_Message : string
}.

(** The calls that leave the operator: to the provider's SDK and to the
    Kubernetes API server. *)
Inductive Call :=
| ConnectionCreateDo (req : ConnectionCreate)
| ConnectionDetailsDo (id : string)
| ConnectionUpdateDo (req : ConnectionUpdate)
| SetupTestsDo (id : string) (trustCertificates trustFingerprints : bool)
| SchemaDetailsDo (id : string)
| SchemaReloadDo (id excludeMode : string)
| SchemaUpdateDo (id : string) (handling : option string)
                 (schemas : gmap string Builder.SchemaConfig)
| K8sUpdate (obj : V1alpha1.FivetranConnector)
| K8sStatusUpdate (obj : V1alpha1.FivetranConnector).

(** The outside world: what each call answers, given the calls made so
    far in this reconciliation.  Any behaviour of the provider and of the
    API server is such an environment. *)
Record Env := {
  reply_ConnectionCreate :
    list Call -> ConnectionCreate -> CommonResponse * string * option SDKError;
  reply_ConnectionDetails :
    list Call -> string -> CommonResponse * ConnectionDetails * option SDKError;
  reply_ConnectionUpdate :
    list Call -> ConnectionUpdate -> CommonResponse * option SDKError;
  reply_SetupTests :
    list Call -> string -> bool -> bool
    -> CommonResponse * list SetupTest * option SDKError;
  reply_SchemaDetails :
    list Call -> string
    -> SchemaCompare.ConnectionSchemaDetailsResponse * option SDKError;
  reply_SchemaReload : list Call -> string -> string -> CommonResponse * option SDKError;
  reply_SchemaUpdate :
    list Call -> string -> option string -> gmap string Builder.SchemaConfig
    -> CommonResponse * option SDKError;
  reply_K8sUpdate : list Call -> V1alpha1.FivetranConnector -> option GoError.error;
  reply_K8sStatusUpdate :
    list Call -> V1alpha1.FivetranConnector -> option GoError.error;
  vault : VaultOps.Store
}.

(** The state of one reconciliation: the calls made so far and the
    resource object in memory. *)
Record World := {
  history : list Call;
  obj : V1alpha1.FivetranConnector
}.

Definition M (A : Type) : Type := Env -> World -> A * World.

Definition ret {A} (a : A) : M A := fun _ w => (a, w).

Definition bind {A B} (c : M A) (k : A -> M B) : M B :=
  fun env w => let '(a, w1) := c env w in k a env w1.

Definition get_obj : M V1alpha1.FivetranConnector := fun _ w => (obj w, w).

Definition set_obj (o : V1alpha1.FivetranConnector) : M unit :=
  fun _ w => (tt, {| history := history w; obj := o |}).

(** Make a call: ask the environment, then log the call. *)
Definition call {A} (c : Call) (reply : Env -> list Call -> A) : M A :=
  fun env w => (reply env (history w), {| history := history w ++ [c]; obj := obj w |}).

End Provider.

Declare Scope go_scope.
Notation "'let*' x ':=' c 'in' k" := (Provider.bind c (fun x => k))
  (at level 10, x pattern, c at level 100, k at level 200, only parsing) : go_scope.

Module Services.
Import Provider.
Local Open Scope go_scope.

Definition schema_CommonResponse (r : SchemaCompare.ConnectionSchemaDetailsResponse)
  : CommonResponse :=
  {| cr_Code := SchemaCompare.resp_Code r; cr_Message := SchemaCompare.resp_Message r |}.

(** func (s *connectionServiceImpl) CreateConnection; the result is
    resp.Data.ID and the wrapped error. *)
Definition CreateConnection (Connection : Connector)
  : M (string * option GoError.error) :=
  let req := create_request Connection in
  let* (resp, id, e) := call (ConnectionCreateDo req)
                         (fun env h => reply_ConnectionCreate env h req) in
  ret (id, WrapFivetranError resp e).

(** func (s *connectionServiceImpl) GetConnection *)
Definition GetConnection (ConnectionID : string)
  : M (ConnectionDetails * option GoError.error) :=
  let* (resp, details, e) := call (ConnectionDetailsDo ConnectionID)
                              (fun env h => reply_ConnectionDetails env h ConnectionID) in
  ret (details, WrapFivetranError resp e).

(** func (s *connectionServiceImpl) UpdateConnection *)
Definition UpdateConnection (ConnectionID : string) (Connection : Connector)
  : M (option GoError.error) :=
  let req := update_request ConnectionID Connection in
  let* (resp, e) := call (ConnectionUpdateDo req)
                     (fun env h => reply_ConnectionUpdate env h req) in
  ret (WrapFivetranError resp e).

(** func (s *connectionServiceImpl) RunSetupTests *)
Definition RunSetupTests (ConnectionID : string)
           (trustCertificates trustFingerprints : option bool)
  : M (list SetupTest * option GoError.error) :=
  let tc := match trustCertificates with Some b => b | None => true end in
  let tf := match trustFingerprints with Some b => b | None => true end in
  let* (resp, tests, e) := call (SetupTestsDo ConnectionID tc tf)
                            (fun env h => reply_SetupTests env h ConnectionID tc tf) in
  ret (tests, WrapFivetranError resp e).

(** A nil pointer dereference panics; controller-runtime recovers the
    panic of a reconciliation into an error, which is how it shows here. *)
Definition panic_nil : GoError.error :=
  GoError.New "panic: runtime error: invalid memory address or nil pointer dereference".

(** So does a failed type assertion [x.(string)]. *)
Definition panic_not_string : GoError.error :=
  GoError.New "panic: interface conversion: interface {} is not string".

(** func (s *schemaServiceImpl) UpdateSchema *)
Definition UpdateSchema (ConnectionID : string) (builder : option Builder.SchemaBuilder)
  : M (option GoError.error) :=
  match builder with
  | None => ret (Some panic_nil)
  | Some b =>
      match Builder.Build b with
      | (_, _, Some e) =>
          ret (Some (GoError.Wrap "failed to build schema config: " e ""))
      | (schemas, schemaChangeHandling, None) =>
          let handling := if_nonempty schemaChangeHandling in
          let* (resp, e) := call (SchemaUpdateDo ConnectionID handling schemas)
                             (fun env h =>
                                reply_SchemaUpdate env h ConnectionID handling schemas) in
          ret (WrapFivetranError resp e)
      end
  end.

(** func (s *schemaServiceImpl) GetSchemaDetails *)
Definition GetSchemaDetails (ConnectionID : string)
  : M (SchemaCompare.ConnectionSchemaDetailsResponse * option GoError.error) :=
  let* (resp, e) := call (SchemaDetailsDo ConnectionID)
                     (fun env h => reply_SchemaDetails env h ConnectionID) in
  ret (resp, WrapFivetranError (schema_CommonResponse resp) e).

(** func (s *schemaServiceImpl) ReloadSchema; its response is not used. *)
Definition ReloadSchema (ConnectionID excludeMode : string)
  : M (option GoError.error) :=
  let* (resp, e) := call (SchemaReloadDo ConnectionID excludeMode)
                     (fun env h => reply_SchemaReload env h ConnectionID excludeMode) in
  ret (WrapFivetranError resp e).

End Services.

(* ===================================================================== *)
(** * internal/controller/fivetranconnector *)
(* ===================================================================== *)

Module Controller.
Import GoJSON V1alpha1 Provider Services.
Local Open Scope go_scope.

(** ** Constants *)

Definition fivetranConnectorURL (id : string) : string :=
  "https://fivetran.com/dashboard/connectors/" +:+ id.

Definition annotationForceReconcile : string :=
  "operator.dataverse.redhat.com/force-reconcile".
Definition annotationConnectorHash : string :=
  "operator.dataverse.redhat.com/connector-hash".
Definition annotationSchemaHash : string :=
  "operator.dataverse.redhat.com/schema-hash".
Definition annotationAdoptExistingConnectorID : string :=
  "operator.dataverse.redhat.com/adopt-existing-connector-id".

Definition conditionTypeConnectorReady : string := "ConnectorReady".
Definition conditionTypeSetupTestReady : string := "SetupTestReady".
Definition conditionTypeSchemaReady : string := "SchemaReady".

Definition ConnectorReasonReconciliationFailed : string := "ReconciliationFailed".
Definition ConnectorReasonSuccess : string := "ReconciledSuccessfully".
Definition ConnectorReasonVaultSecretsResolutionFailed : string :=
  "VaultSecretsResolutionFailed".
Definition ConnectorReasonExistingConnectorAdoptionFailed : string :=
  "ExistingConnectorAdoptionFailed".

Definition SetupTestsReasonReconciliationFailed : string := "ReconciliationFailed".
Definition SetupTestsReasonReconciliationSuccess : string := "ReconciledSuccessfully".
Definition SetupTestsReasonReconciliationSuccessWithWarnings : string :=
  "ReconciledSuccessfullyWithWarnings".
Definition SetupTestsReasonSkipped : string := "Skipped".

Definition SchemaReasonReconciliationFailed : string := "ReconciliationFailed".
Definition SchemaReasonReconciliationSuccess : string := "ReconciledSuccessfully".
Definition SchemaReasonSkipped : string := "Skipped".

Definition SchemaNotFoundError : string := "NotFound_SchemaConfig".

Definition setupTestStatusPassed : string := "PASSED".
Definition setupTestStatusSkipped : string := "SKIPPED".
Definition setupTestStatusWarning : string := "WARNING".

Definition msgConnectorReady : string := "Connector is ready".
Definition msgSetupTestsCompletedSuccessfully : string :=
  "Setup tests completed successfully".
Definition msgSetupTestsSkipped : string := "Setup tests skipped".
Definition msgSchemaReady : string := "Schema configuration is ready".
Definition msgSchemaSkipped : string := "No schema configuration specified".
Definition msgSetupTestsWarningsFormat (s : string) : string :=
  "Setup tests completed with warnings: " +:+ s.

(** ctrl.Result; [RequeueAfter] in seconds. *)
Record Result := { Requeue : bool; RequeueAfter : Z }.

Definition Result_zero : Result := {| Requeue := false; RequeueAfter := 0 |}.
Definition five_minutes : Z := 5 * 60.

(** ** The object in memory *)

Definition with_conditions (o : FivetranConnector) (cs : list Condition)
  : FivetranConnector :=
  {| Annotations := Annotations o; Labels := Labels o; Spec := Spec o;
     Status := {| ConnectorURL := ConnectorURL (Status o);
                  ConnectorID := ConnectorID (Status o);
                  Conditions := cs |} |}.

Definition with_connector_id (o : FivetranConnector) (id url : string)
  : FivetranConnector :=
  {| Annotations := Annotations o; Labels := Labels o; Spec := Spec o;
     Status := {| ConnectorURL := url; ConnectorID := id;
                  Conditions := Conditions (Status o) |} |}.

Definition with_annotations (o : FivetranConnector) (a : gmap string string)
  : FivetranConnector :=
  {| Annotations := a; Labels := Labels o; Spec := Spec o; Status := Status o |}.

Definition with_labels (o : FivetranConnector) (l : gmap string string)
  : FivetranConnector :=
  {| Annotations := Annotations o; Labels := l; Spec := Spec o; Status := Status o |}.

(** kubeutils.GetAnnotation, SetAnnotation, HasAnnotation,
    RemoveAnnotation, HasLabel, RemoveLabel *)
Definition GetAnnotation (o : FivetranConnector) (key : string) : string :=
  match Annotations o !! key with Some v => v | None => "" end.

Definition SetAnnotation (o : FivetranConnector) (key value : string)
  : FivetranConnector :=
  with_annotations o (<[key := value]> (Annotations o)).

Definition HasAnnotation (o : FivetranConnector) (key : string) : bool :=
  match Annotations o !! key with Some _ => true | None => false end.

Definition RemoveAnnotation (o : FivetranConnector) (key : string) : FivetranConnector :=
  with_annotations o (delete key (Annotations o)).

Definition HasLabel (o : FivetranConnector) (key : string) : bool :=
  match Labels o !! key with Some _ => true | None => false end.

Definition RemoveLabel (o : FivetranConnector) (key : string) : FivetranConnector :=
  with_labels o (delete key (Labels o)).

(** r.Update(ctx, connector) and r.Status().Update(ctx, connector).  What
    the server sends back is not folded into the object in memory. *)
Definition Update : M (option GoError.error) :=
  let* o := get_obj in
  call (K8sUpdate o) (fun env h => reply_K8sUpdate env h o).

Definition StatusUpdate : M (option GoError.error) :=
  let* o := get_obj in
  call (K8sStatusUpdate o) (fun env h => reply_K8sStatusUpdate env h o).

(** ** status_mgmt.go *)

(** The loop of [setCondition]: replace the condition of the same type,
    or append. *)
Fixpoint upsert (condition : Condition) (conditions : list Condition) : list Condition :=
  match conditions with
  | [] => [condition]
  | existing :: rest =>
      if String.eqb (cond_Type existing) (cond_Type condition)
      then condition :: rest
      else existing :: upsert condition rest
  end.

(** func setCondition *)
Definition setCondition (conditionType : string) (status : ConditionStatus)
           (reason message : string) : M (option GoError.error) :=
  let condition := {| cond_Type := conditionType; cond_Status := status;
                      cond_Reason := reason; cond_Message := message |} in
  let* o := get_obj in
  let* _ := set_obj (with_conditions o (upsert condition (Conditions (Status o)))) in
  StatusUpdate.

(** func handleError *)
Definition handleError (conditionType reason : string) (err : GoError.error)
  : M (Result * option GoError.error) :=
  if GoError.Is err GoError.ErrSchemaMismatchAfterRetry then
    let* e := setCondition conditionType ConditionFalse reason (GoError.Error err) in
    ret (Result_zero, e)
  else if GoError.Is err GoError.ErrSetupTestsFailed then
    let* e1 := setCondition conditionTypeConnectorReady ConditionTrue
                            ConnectorReasonSuccess msgConnectorReady in
    match e1 with
    | Some e => ret (Result_zero, Some e)
    | None =>
        let* e := setCondition conditionType ConditionFalse reason (GoError.Error err) in
        ret (Result_zero, e)
    end
  else if GoError.Is err GoError.ErrConnectorValidationFailed then
    let* e := setCondition conditionType ConditionFalse reason (GoError.Error err) in
    ret (Result_zero, e)
  else
    match GoError.AsVaultError err with
    | Some retryable =>
        let* e := setCondition conditionType ConditionFalse reason (GoError.Error err) in
        if retryable
        then ret ({| Requeue := false; RequeueAfter := five_minutes |}, e)
        else ret (Result_zero, e)
    | None =>
        match GoError.AsAPIError err with
        | Some fivetranErr =>
            let* e := setCondition conditionType ConditionFalse reason
                                   (FivetranErrors.APIError_Error fivetranErr) in
            if FivetranErrors.IsRetryable fivetranErr
            then ret ({| Requeue := false; RequeueAfter := five_minutes |}, e)
            else ret (Result_zero, e)
        | None =>
            let* e := setCondition conditionType ConditionFalse reason
                                   (GoError.Error err) in
            match e with
            | Some e' => ret (Result_zero, Some e')
            | None => ret (Result_zero, Some err)
            end
        end
    end.

(** func updateSetupTestsCondition *)
Definition updateSetupTestsCondition (setupTestWarnings : list string)
  : M (option GoError.error) :=
  let* o := get_obj in
  let runTests :=
    match V1alpha1.RunSetupTests (spec_Connector (Spec o)) with
    | None => true
    | Some b => b
    end in
  if negb runTests then
    setCondition conditionTypeSetupTestReady ConditionTrue
                 SetupTestsReasonSkipped msgSetupTestsSkipped
  else
    let '(reason, message) :=
      if (0 <? Z.of_nat (length setupTestWarnings))
      then (SetupTestsReasonReconciliationSuccessWithWarnings,
            msgSetupTestsWarningsFormat (GoStrings.Join setupTestWarnings "; "))
      else (SetupTestsReasonReconciliationSuccess, msgSetupTestsCompletedSuccessfully) in
    setCondition conditionTypeSetupTestReady ConditionTrue reason message.

(** ** utils.go *)

(** func hasSchemaConfig *)
Definition hasSchemaConfig (o : FivetranConnector) : bool :=
  match ConnectorSchemas (Spec o) with
  | None => false
  | Some c =>
      (0 <? Z.of_nat (length (Schemas c)))
      || negb (String.eqb (SchemaChangeHandling c) "")
  end.

(** func hasFailedConditions *)
Definition hasFailedConditions (o : FivetranConnector) : bool :=
  existsb (fun c => match cond_Status c with ConditionFalse => true | _ => false end)
          (Conditions (Status o)).

(** func hasConnectorHashChanged *)
Definition hasConnectorHashChanged (o : FivetranConnector) : bool * option GoError.error :=
  match Fingerprint.calculateConnectorHash o with
  | (_, Some e) => (false, Some (GoError.Wrap "hasConnectorHashChanged: " e ""))
  | (currentConnectorHash, None) =>
      (negb (String.eqb currentConnectorHash (GetAnnotation o annotationConnectorHash)),
       None)
  end.

(** func hasSchemaHashChanged *)
Definition hasSchemaHashChanged (o : FivetranConnector) : bool * option GoError.error :=
  if negb (hasSchemaConfig o) then (false, None)
  else if String.eqb (ConnectorID (Status o)) "" then (true, None)
  else
    match Fingerprint.calculateSchemaHash o with
    | (_, Some e) => (false, Some (GoError.Wrap "hasSchemaHashChanged: " e ""))
    | (currentSchemaHash, None) =>
        (negb (String.eqb currentSchemaHash (GetAnnotation o annotationSchemaHash)), None)
    end.

(** func determineReconciliationNeeds *)
Definition determineReconciliationNeeds (o : FivetranConnector) (forceReconcile : bool)
  : bool * bool * option GoError.error :=
  if forceReconcile || hasFailedConditions o then (true, hasSchemaConfig o, None)
  else
    match hasConnectorHashChanged o with
    | (_, Some e) => (false, false, Some e)
    | (connectorHashChanged, None) =>
        match hasSchemaHashChanged o with
        | (_, Some e) => (false, false, Some e)
        | (schemaHashChanged, None) => (connectorHashChanged, schemaHashChanged, None)
        end
    end.

(** func cleanupAnnotationsAndLabels *)
Definition cleanupAnnotationsAndLabels : M (option GoError.error) :=
  let* o := get_obj in
  let* e1 :=
    if HasLabel o annotationForceReconcile then
      let* _ := set_obj (RemoveLabel o annotationForceReconcile) in
      Update
    else ret None in
  match e1 with
  | Some e => ret (Some e)
  | None =>
      let* o := get_obj in
      if HasAnnotation o annotationAdoptExistingConnectorID then
        let* _ := set_obj (RemoveAnnotation o annotationAdoptExistingConnectorID) in
        Update
      else ret None
  end.

(** func resolveSecrets: each document is resolved on a deep copy. *)
Definition resolveSecrets
  : M (option RawExtension * option RawExtension * option GoError.error) :=
  fun env w =>
    let connector := spec_Connector (Spec (obj w)) in
    let '(resolvedConfig, allErrors1) :=
      match V1alpha1.Config connector with
      | None => (None, [])
      | Some _ =>
          match VaultOps.ResolveSecrets (vault env) (V1alpha1.Config connector) with
          | (_, Some e, _) =>
              (None, [GoError.Wrap "resolveSecrets: config secrets: " e ""])
          | (configCopy, None, _) => (configCopy, [])
          end
      end in
    let '(resolvedAuth, allErrors) :=
      match V1alpha1.Auth connector with
      | None => (None, allErrors1)
      | Some _ =>
          match VaultOps.ResolveSecrets (vault env) (V1alpha1.Auth connector) with
          | (_, Some e, _) =>
              (None, allErrors1 ++ [GoError.Wrap "resolveSecrets: auth secrets: " e ""])
          | (authCopy, None, _) => (authCopy, allErrors1)
          end
      end in
    if (0 <? Z.of_nat (length allErrors))
    then ((None, None, Some (GoError.Joined allErrors)), w)
    else ((resolvedConfig, resolvedAuth, None), w).

(** json.Unmarshal of a raw document into a [map[string]any]: [null]
    leaves the map nil, anything but an object is an error. *)
Definition unmarshal_map (raw : RawBytes)
  : option (list (string * json)) + GoError.error :=
  match raw with
  | Malformed => inr (GoError.New "invalid character")
  | Text doc =>
      match VaultOps.decode doc with
      | JObject m => inl (Some m)
      | JNull => inl None
      | _ => inr (GoError.New "json: cannot unmarshal into Go value of type map[string]interface {}")
      end
  end.

(** func toFivetranConnector *)
Definition toFivetranConnector (o : FivetranConnector)
           (resolvedConfig resolvedAuth : option RawExtension)
  : Provider.Connector + GoError.error :=
  let config :=
    match resolvedConfig with
    | Some {| Raw := Some raw |} =>
        match unmarshal_map raw with
        | inr e => inr (GoError.Wrap "toFivetranConnector: failed to unmarshal config: " e "")
        | inl m => inl m
        end
    | _ => inl None
    end in
  let auth :=
    match resolvedAuth with
    | Some {| Raw := Some raw |} =>
        match unmarshal_map raw with
        | inr e => inr (GoError.Wrap "toFivetranConnector: failed to unmarshal auth: " e "")
        | inl m => inl m
        end
    | _ => inl None
    end in
  match config, auth with
  | inr e, _ => inr e
  | inl _, inr e => inr e
  | inl config, inl auth =>
      let c := spec_Connector (Spec o) in
      inl {| Provider.Service := V1alpha1.Service c;
             Provider.Config := Some config;
             Provider.Auth := Some auth;
             Provider.Paused := V1alpha1.Paused c;
             Provider.GroupID := V1alpha1.GroupID c;
             Provider.SyncFrequency := V1alpha1.SyncFrequency c;
             Provider.DailySyncTime := V1alpha1.DailySyncTime c;
             Provider.RunSetupTests := V1alpha1.RunSetupTests c;
             Provider.ScheduleType := V1alpha1.ScheduleType c;
             Provider.PauseAfterTrial := V1alpha1.PauseAfterTrial c;
             Provider.TrustCertificates := V1alpha1.TrustCertificates c;
             Provider.TrustFingerprints := V1alpha1.TrustFingerprints c;
             Provider.DataDelaySensitivity := V1alpha1.DataDelaySensitivity c;
             Provider.DataDelayThreshold := V1alpha1.DataDelayThreshold c;
             Provider.NetworkingMethod := V1alpha1.NetworkingMethod c;
             Provider.ProxyAgentID := V1alpha1.ProxyAgentID c;
             Provider.PrivateLinkID := V1alpha1.PrivateLinkID c;
             Provider.HybridDeploymentAgentID := V1alpha1.HybridDeploymentAgentID c |}
  end.

(** func processTableColumns *)
Definition processTableColumns (builder : Builder.SchemaBuilder)
           (schemaName tableName : string) (columns : list (string * ColumnObject))
  : Builder.SchemaBuilder :=
  fold_left (fun b entry =>
               Builder.AddColumn b schemaName tableName (fst entry)
                                 (col_Enabled (snd entry)) (col_Hashed (snd entry))
                                 (col_IsPrimaryKey (snd entry)))
            columns builder.

(** func processSchemaTable *)
Definition processSchemaTable (builder : Builder.SchemaBuilder) (schemaName : string)
           (tables : list (string * TableObject)) : Builder.SchemaBuilder :=
  fold_left (fun b entry =>
               processTableColumns
                 (Builder.AddTable b schemaName (fst entry)
                                   (tbl_Enabled (snd entry)) (tbl_SyncMode (snd entry)))
                 schemaName (fst entry) (tbl_Columns (snd entry)))
            tables builder.

(** func convertSchema *)
Definition convertSchema (apiSchema : option ConnectorSchemaConfig)
  : option Builder.SchemaBuilder :=
  match apiSchema with
  | None => None
  | Some a =>
      let builder0 := Builder.NewSchemaBuilder in
      let builder1 :=
        if negb (String.eqb (SchemaChangeHandling a) "")
        then Builder.WithSchemaChangeHandling builder0 (SchemaChangeHandling a)
        else builder0 in
      Some (fold_left (fun b entry =>
                         processSchemaTable
                           (Builder.AddSchema b (fst entry) (sch_Enabled (snd entry)))
                           (fst entry) (sch_Tables (snd entry)))
                      (Schemas a) builder1)
  end.

(** ** The connector (create, update, adopt) *)

(** func updateConnectorIDStatus *)
Definition updateConnectorIDStatus (connectorID : string) : M (option GoError.error) :=
  let* o := get_obj in
  let* _ := set_obj (with_connector_id o connectorID (fivetranConnectorURL connectorID)) in
  StatusUpdate.

(** func updateConnectorHash *)
Definition updateConnectorHash : M (option GoError.error) :=
  let* o := get_obj in
  match Fingerprint.calculateConnectorHash o with
  | (_, Some e) => ret (Some e)
  | (hash, None) =>
      let* _ := set_obj (SetAnnotation o annotationConnectorHash hash) in
      Update
  end.

Definition with_paused (c : Provider.Connector) (p : option bool) : Provider.Connector :=
  {| Provider.Service := Provider.Service c;
     Provider.Config := Provider.Config c;
     Provider.Auth := Provider.Auth c;
     Provider.Paused := p;
     Provider.GroupID := Provider.GroupID c;
     Provider.SyncFrequency := Provider.SyncFrequency c;
     Provider.DailySyncTime := Provider.DailySyncTime c;
     Provider.RunSetupTests := Provider.RunSetupTests c;
     Provider.ScheduleType := Provider.ScheduleType c;
     Provider.PauseAfterTrial := Provider.PauseAfterTrial c;
     Provider.TrustCertificates := Provider.TrustCertificates c;
     Provider.TrustFingerprints := Provider.TrustFingerprints c;
     Provider.DataDelaySensitivity := Provider.DataDelaySensitivity c;
     Provider.DataDelayThreshold := Provider.DataDelayThreshold c;
     Provider.NetworkingMethod := Provider.NetworkingMethod c;
     Provider.ProxyAgentID := Provider.ProxyAgentID c;
     Provider.PrivateLinkID := Provider.PrivateLinkID c;
     Provider.HybridDeploymentAgentID := Provider.HybridDeploymentAgentID c |}.

(** func createConnector *)
Definition createConnector (resolvedConfig resolvedAuth : option RawExtension)
  : M (string * option GoError.error) :=
  let* o := get_obj in
  match toFivetranConnector o resolvedConfig resolvedAuth with
  | inr e => ret ("", Some e)
  | inl fivetranConnector =>
      let* (id, err) := CreateConnection (with_paused fivetranConnector (Some true)) in
      match err with
      | Some e => ret ("", Some e)
      | None => ret (id, None)
      end
  end.

(** func updateConnector *)
Definition updateConnector (connectorID : string)
           (resolvedConfig resolvedAuth : option RawExtension)
  : M (bool * option GoError.error) :=
  let* o := get_obj in
  match toFivetranConnector o resolvedConfig resolvedAuth with
  | inr e => ret (false, Some e)
  | inl fivetranConnector =>
      let* err := UpdateConnection connectorID fivetranConnector in
      match err with
      | Some e => ret (false, Some e)
      | None => ret (true, None)
      end
  end.

(** func reconcileConnector *)
Definition reconcileConnector (resolvedConfig resolvedAuth : option RawExtension)
  : M (string * option GoError.error) :=
  let* o := get_obj in
  let connectorID := ConnectorID (Status o) in
  if String.eqb connectorID "" then
    let* (connectorID, err) := createConnector resolvedConfig resolvedAuth in
    match err with
    | Some e => ret ("", Some e)
    | None =>
        let* e1 := updateConnectorIDStatus connectorID in
        match e1 with
        | Some e => ret ("", Some e)
        | None =>
            let* e2 := updateConnectorHash in
            match e2 with
            | Some e => ret ("", Some e)
            | None =>
                let* e3 := setCondition conditionTypeConnectorReady ConditionTrue
                                        ConnectorReasonSuccess msgConnectorReady in
                match e3 with
                | Some e => ret ("", Some e)
                | None => ret (connectorID, None)
                end
            end
        end
    end
  else
    let* (updated, err) := updateConnector connectorID resolvedConfig resolvedAuth in
    match err with
    | Some e => ret ("", Some e)
    | None =>
        let* e2 := updateConnectorHash in
        match e2 with
        | Some e => ret ("", Some e)
        | None =>
            if updated then
              let* e3 := setCondition conditionTypeConnectorReady ConditionTrue
                                      ConnectorReasonSuccess msgConnectorReady in
              match e3 with
              | Some e => ret ("", Some e)
              | None => ret (connectorID, None)
              end
            else ret (connectorID, None)
        end
    end.

(** connectorConfig[key].(string) *)
Definition string_at (key : string) (m : option (list (string * json))) : option string :=
  match m with
  | None => None
  | Some m =>
      match VaultOps.lookup_entry key m with
      | Some (JString s) => Some s
      | _ => None
      end
  end.

(** The expected data-schema name of [handleExistingConnectorAdoption];
    [inr] is the panic of [tablegroupname.(string)] on a value that is no
    string. *)
Definition expectedSchemaName (connectorConfig : option (list (string * json)))
  : string + GoError.error :=
  match string_at "schema_prefix" connectorConfig with
  | Some (String c rest) => inl (String c rest)
  | _ =>
      match string_at "schema" connectorConfig with
      | Some (String c rest) =>
          let schema := String c rest in
          let expected1 :=
            match string_at "table" connectorConfig with
            | Some (String t trest) => schema +:+ "." +:+ String t trest
            | _ => schema
            end in
          match connectorConfig with
          | None => inl expected1
          | Some m =>
              match VaultOps.lookup_entry "table_group_name" m with
              | None => inl expected1
              | Some (JString EmptyString) => inl expected1
              | Some (JString tablegroupname) => inl (schema +:+ "." +:+ tablegroupname)
              | Some _ => inr panic_not_string
              end
          end
      | _ => inl ""
      end
  end.

(** func handleExistingConnectorAdoption *)
Definition handleExistingConnectorAdoption (adoptConnectorID : string)
  : M (option GoError.error) :=
  let* o := get_obj in
  let connector := spec_Connector (Spec o) in
  let* (existingConnector, err) := GetConnection adoptConnectorID in
  match err with
  | Some e =>
      ret (Some (GoError.Wrap
                   ("handleExistingConnectorAdoption: failed to get existing connector "
                      +:+ adoptConnectorID +:+ ": ") e ""))
  | None =>
      if negb (String.eqb (V1alpha1.Service connector) (d_Service existingConnector)) then
        ret (Some (GoError.New
                     ("handleExistingConnectorAdoption: service mismatch: spec has '"
                        +:+ V1alpha1.Service connector
                        +:+ "', existing connector has '"
                        +:+ d_Service existingConnector +:+ "'")))
      else if negb (String.eqb (V1alpha1.GroupID connector) (d_GroupID existingConnector))
      then
        ret (Some (GoError.New
                     ("handleExistingConnectorAdoption: group_id mismatch: spec has '"
                        +:+ V1alpha1.GroupID connector
                        +:+ "', existing connector has '"
                        +:+ d_GroupID existingConnector +:+ "'")))
      else
        let schemaCheck : option GoError.error :=
          match V1alpha1.Config connector with
          | None => None
          | Some re =>
              match
                match Raw re with
                | None => inr (GoError.New "unexpected end of JSON input")
                | Some raw => unmarshal_map raw
                end
              with
              | inr e =>
                  Some (GoError.Wrap
                          "handleExistingConnectorAdoption: failed to unmarshal config: "
                          e "")
              | inl connectorConfig =>
                  match expectedSchemaName connectorConfig with
                  | inr p => Some p
                  | inl expectedSchema =>
                      if negb (String.eqb expectedSchema "")
                         && negb (String.eqb expectedSchema (d_Schema existingConnector))
                      then
                        Some (GoError.New
                                ("handleExistingConnectorAdoption: schema mismatch: expected '"
                                   +:+ expectedSchema +:+ "', got '"
                                   +:+ d_Schema existingConnector +:+ "'"))
                      else None
                  end
              end
          end in
        match schemaCheck with
        | Some e => ret (Some e)
        | None => updateConnectorIDStatus adoptConnectorID
        end
  end.

(** func handleExistingConnectorAdoptionIfNeeded *)
Definition handleExistingConnectorAdoptionIfNeeded : M (bool * option GoError.error) :=
  let* o := get_obj in
  if String.eqb (ConnectorID (Status o)) "" then
    let adoptConnectorID := GetAnnotation o annotationAdoptExistingConnectorID in
    if negb (String.eqb adoptConnectorID "") then
      let* err := handleExistingConnectorAdoption adoptConnectorID in
      match err with
      | Some e => ret (false, Some e)
      | None => ret (true, None)
      end
    else ret (false, None)
  else ret (false, None).

(** ** setup_tests.go *)

(** The loop over the test results: warnings and failures. *)
Definition classify_test (acc : list string * list GoError.error) (test : SetupTest)
  : list string * list GoError.error :=
  let '(warningMessages, setupTestErrors) := acc in
  if String.eqb (t_Status test) setupTestStatusWarning then
    (warningMessages ++ [t_Title test +:+ ": " +:+ t_Message test], setupTestErrors)
  else if negb (String.eqb (t_Status test) setupTestStatusPassed)
          && negb (String.eqb (t_Status test) setupTestStatusSkipped) then
    (warningMessages,
     setupTestErrors
       ++ [GoError.New ("reconcileSetupTests failed: " +:+ t_Title test
                          +:+ " (status: " +:+ t_Status test +:+ ") - "
                          +:+ t_Message test)])
  else acc.

(** func reconcileSetupTests *)
Definition reconcileSetupTests (connectorID : string)
  : M (list string * option GoError.error) :=
  let* o := get_obj in
  let connector := spec_Connector (Spec o) in
  let runTests :=
    match V1alpha1.RunSetupTests connector with
    | Some b => b
    | None => true
    end in
  if negb runTests then
    let* e := updateSetupTestsCondition [] in
    match e with
    | Some e' => ret ([], Some e')
    | None => ret ([], None)
    end
  else
    let* (tests, err) := RunSetupTests connectorID
                           (V1alpha1.TrustCertificates connector)
                           (V1alpha1.TrustFingerprints connector) in
    match err with
    | Some e => ret ([], Some (GoError.Wrap "reconcileSetupTests: " e ""))
    | None =>
        let '(warningMessages, setupTestErrors) :=
          fold_left classify_test tests ([], []) in
        if (0 <? Z.of_nat (length setupTestErrors)) then
          ret (warningMessages,
               Some (GoError.Wrap "" (GoError.Var GoError.ErrSetupTestsFailed)
                                  (": " +:+ GoError.Error (GoError.Joined setupTestErrors))))
        else
          let* e := updateSetupTestsCondition warningMessages in
          match e with
          | Some e' => ret (warningMessages, Some e')
          | None => ret (warningMessages, None)
          end
    end.

(** ** The schema (reload, apply, verify, one retry) *)

(** func reloadSchema *)
Definition reloadSchema (connectorID : string) : M (option GoError.error) :=
  let* o := get_obj in
  match ConnectorSchemas (Spec o) with
  | None => ret (Some panic_nil)
  | Some schemas =>
      let excludeMode :=
        if String.eqb (SchemaChangeHandling schemas) "BLOCK_ALL" then "EXCLUDE"
        else "PRESERVE" in
      let* err := ReloadSchema connectorID excludeMode in
      match err with
      | Some e => ret (Some (GoError.Wrap "reloadSchema: " e ""))
      | None => ret None
      end
  end.

(** func updateSchemaHash *)
Definition updateSchemaHash : M (option GoError.error) :=
  let* o := get_obj in
  match Fingerprint.calculateSchemaHash o with
  | (_, Some e) => ret (Some e)
  | (hash, None) =>
      let* _ := set_obj (SetAnnotation o annotationSchemaHash hash) in
      Update
  end.

(** func applySchema *)
Definition applySchema (connectorID : string) : M (option GoError.error) :=
  let* o := get_obj in
  let schema := convertSchema (ConnectorSchemas (Spec o)) in
  let* err := UpdateSchema connectorID schema in
  match err with
  | Some e => ret (Some (GoError.Wrap "applySchema: " e ""))
  | None => updateSchemaHash
  end.

(** The recovery cycle of [reconcileSchema]: the body of [if !matches]. *)
Definition retryOnce (connectorID : string) : M (option GoError.error) :=
  let* e1 := reloadSchema connectorID in
  match e1 with
  | Some e => ret (Some (GoError.Wrap "reconcileSchema reloadSchema retry: " e ""))
  | None =>
      let* e2 := applySchema connectorID in
      match e2 with
      | Some e => ret (Some (GoError.Wrap "reconcileSchema applySchema retry: " e ""))
      | None =>
          let* (schemaDetails, err) := GetSchemaDetails connectorID in
          match err with
          | Some e =>
              ret (Some (GoError.Wrap "reconcileSchema getSchemaDetails retry: " e ""))
          | None =>
              let* o := get_obj in
              let '(retryMatches, retryMismatchDetails) :=
                SchemaCompare.CompareSchemaWithCR schemaDetails
                                                  (ConnectorSchemas (Spec o)) in
              if negb retryMatches then
                ret (Some (GoError.Wrap
                             ("reconcileSchema compareSchemaWithCR retry: mismatches: "
                                +:+ SchemaCompare.SchemaMismatch_String retryMismatchDetails
                                +:+ " - ")
                             (GoError.Var GoError.ErrSchemaMismatchAfterRetry) ""))
              else ret None
          end
      end
  end.

(** func reconcileSchema *)
Definition reconcileSchema (connectorID : string) : M (option GoError.error) :=
  let* (schemaDetails, err) := GetSchemaDetails connectorID in
  let* e0 :=
    match err with
    | None => ret None
    | Some e =>
        if negb (String.eqb (SchemaCompare.resp_Code schemaDetails) SchemaNotFoundError)
        then ret (Some (GoError.Wrap "reconcileSchema: failed to get schema details: " e ""))
        else
          let* e' := reloadSchema connectorID in
          match e' with
          | Some e'' => ret (Some (GoError.Wrap "reconcileSchema: " e'' ""))
          | None => ret None
          end
    end in
  match e0 with
  | Some e => ret (Some e)
  | None =>
      let* e1 := applySchema connectorID in
      match e1 with
      | Some e => ret (Some (GoError.Wrap "reconcileSchema: " e ""))
      | None =>
          let* (schemaDetails, err) := GetSchemaDetails connectorID in
          match err with
          | Some e =>
              ret (Some (GoError.Wrap
                           "reconcileSchema: failed to get schema details after apply: "
                           e ""))
          | None =>
              let* o := get_obj in
              let '(matches, mismatchDetails) :=
                SchemaCompare.CompareSchemaWithCR schemaDetails
                                                  (ConnectorSchemas (Spec o)) in
              let* e2 := if negb matches then retryOnce connectorID else ret None in
              match e2 with
              | Some e => ret (Some e)
              | None =>
                  setCondition conditionTypeSchemaReady ConditionTrue
                               SchemaReasonReconciliationSuccess msgSchemaReady
              end
          end
      end
  end.

(** ** controller.go *)

(** func Reconcile, from the force-reconcile check to the end: what a
    reconciliation does once the provider and vault clients are there and
    the object is neither being deleted nor lacking the finalizer. *)
Definition reconcileSteps : M (Result * option GoError.error) :=
  let* o := get_obj in
  let forceReconcile := HasLabel o annotationForceReconcile in
  let* (needRequeue, err) := handleExistingConnectorAdoptionIfNeeded in
  match err with
  | Some e =>
      handleError conditionTypeConnectorReady
                  ConnectorReasonExistingConnectorAdoptionFailed e
  | None =>
  if needRequeue then ret ({| Requeue := true; RequeueAfter := 0 |}, None) else
  let* o := get_obj in
  match determineReconciliationNeeds o forceReconcile with
  | (_, _, Some e) =>
      handleError conditionTypeConnectorReady ConnectorReasonReconciliationFailed e
  | (reconcileConnectorNeeded, reconcileSchemaNeeded, None) =>
  if negb reconcileConnectorNeeded && negb reconcileSchemaNeeded
  then ret (Result_zero, None) else
  let* (resolved, err) := resolveSecrets in
  let '(resolvedConfig, resolvedAuth) := resolved in
  match err with
  | Some e =>
      handleError conditionTypeConnectorReady
                  ConnectorReasonVaultSecretsResolutionFailed e
  | None =>
  let* o := get_obj in
  let connectorID0 := ConnectorID (Status o) in
  let* (connectorID, failed) :=
    if reconcileConnectorNeeded then
      let* (connectorID, err) := reconcileConnector resolvedConfig resolvedAuth in
      match err with
      | Some e =>
          let* r := handleError conditionTypeConnectorReady
                                ConnectorReasonReconciliationFailed e in
          ret (connectorID, Some r)
      | None =>
          let* (setupTestWarnings, err) := reconcileSetupTests connectorID in
          match err with
          | Some e =>
              let* r := handleError conditionTypeSetupTestReady
                                    SetupTestsReasonReconciliationFailed e in
              ret (connectorID, Some r)
          | None => ret (connectorID, None)
          end
      end
    else ret (connectorID0, None) in
  match failed with
  | Some r => ret r
  | None =>
  let* o := get_obj in
  let* failed :=
    if reconcileSchemaNeeded && hasSchemaConfig o then
      let* err := reconcileSchema connectorID in
      match err with
      | Some e =>
          let* r := handleError conditionTypeSchemaReady
                                SchemaReasonReconciliationFailed e in
          ret (Some r)
      | None => ret None
      end
    else
      let* err := setCondition conditionTypeSchemaReady ConditionTrue
                               SchemaReasonSkipped msgSchemaSkipped in
      match err with
      | Some e =>
          let* r := handleError conditionTypeSchemaReady SchemaReasonSkipped e in
          ret (Some r)
      | None => ret None
      end in
  match failed with
  | Some r => ret r
  | None =>
  let* failed :=
    if reconcileConnectorNeeded then
      let* (_, err) := updateConnector connectorID resolvedConfig resolvedAuth in
      match err with
      | Some e =>
          let* r := handleError conditionTypeConnectorReady
                                ConnectorReasonReconciliationFailed e in
          ret (Some r)
      | None => ret None
      end
    else ret None in
  match failed with
  | Some r => ret r
  | None =>
  let* err := cleanupAnnotationsAndLabels in
  match err with
  | Some e =>
      handleError conditionTypeConnectorReady ConnectorReasonReconciliationFailed e
  | None => ret (Result_zero, None)
  end
  end end end end end end.

End Controller.

(* ===================================================================== *)
(** * Schema drift: notions used by its properties *)
(* ===================================================================== *)

Module DriftSpec.
Import V1alpha1 Provider Services Controller.
Local Open Scope go_scope.

(** [reconcileSchema] up to its verifying fetch: the first fetch, the
    reload when the provider knows no schema, the apply and the second
    fetch.  The result is the live schema to compare, or the error that
    [reconcileSchema] returns from there. *)
Definition applyAndFetch (connectorID : string)
  : M (SchemaCompare.ConnectionSchemaDetailsResponse + GoError.error) :=
  let* (schemaDetails, err) := GetSchemaDetails connectorID in
  let* e0 :=
    match err with
    | None => ret None
    | Some e =>
        if negb (String.eqb (SchemaCompare.resp_Code schemaDetails) SchemaNotFoundError)
        then ret (Some (GoError.Wrap "reconcileSchema: failed to get schema details: " e ""))
        else
          let* e' := reloadSchema connectorID in
          match e' with
          | Some e'' => ret (Some (GoError.Wrap "reconcileSchema: " e'' ""))
          | None => ret None
          end
    end in
  match e0 with
  | Some e => ret (inr e)
  | None =>
      let* e1 := applySchema connectorID in
      match e1 with
      | Some e => ret (inr (GoError.Wrap "reconcileSchema: " e ""))
      | None =>
          let* (schemaDetails, err) := GetSchemaDetails connectorID in
          match err with
          | Some e =>
              ret (inr (GoError.Wrap
                          "reconcileSchema: failed to get schema details after apply: "
                          e ""))
          | None => ret (inl schemaDetails)
          end
      end
  end.

Definition is_reload (c : Call) : bool :=
  match c with SchemaReloadDo _ _ => true | _ => false end.
Definition is_schema_update (c : Call) : bool :=
  match c with SchemaUpdateDo _ _ _ => true | _ => false end.
Definition is_schema_details (c : Call) : bool :=
  match c with SchemaDetailsDo _ => true | _ => false end.

Fixpoint count (f : Call -> bool) (calls : list Call) : nat :=
  match calls with
  | [] => O
  | c :: rest => ((if f c then 1 else 0) + count f rest)%nat
  end.

(** The exclusion mode of a reload. *)
Definition excludeMode (cfg : ConnectorSchemaConfig) : string :=
  if String.eqb (SchemaChangeHandling cfg) "BLOCK_ALL" then "EXCLUDE" else "PRESERVE".

(** The error of a second mismatch, for a given report. *)
Definition mismatch_after_retry (report : SchemaCompare.SchemaMismatch) : GoError.error :=
  GoError.Wrap ("reconcileSchema compareSchemaWithCR retry: mismatches: "
                  +:+ SchemaCompare.SchemaMismatch_String report +:+ " - ")
               (GoError.Var GoError.ErrSchemaMismatchAfterRetry) "".

(** The object after [updateSchemaHash]. *)
Definition with_schema_hash (o : FivetranConnector) : FivetranConnector :=
  SetAnnotation o annotationSchemaHash (fst (Fingerprint.calculateSchemaHash o)).

(** The calls of one recovery cycle: reload, re-apply (the schema update
    and the write of the schema fingerprint), re-fetch. *)
Definition cycle (connectorID : string) (cfg : ConnectorSchemaConfig)
           (o : FivetranConnector) : list Call :=
  match convertSchema (Some cfg) with
  | Some b =>
      [SchemaReloadDo connectorID (excludeMode cfg);
       SchemaUpdateDo connectorID
                      (if_nonempty (snd (fst (Builder.Build b))))
                      (fst (fst (Builder.Build b)));
       K8sUpdate (with_schema_hash o);
       SchemaDetailsDo connectorID]
  | None => []
  end.

(** Every call of the recovery cycle made after the calls [h] succeeds,
    and its fetch returns [details2]. *)
Definition cycle_succeeds (env : Env) (h : list Call) (connectorID : string)
           (cfg : ConnectorSchemaConfig) (o : FivetranConnector)
           (details2 : SchemaCompare.ConnectionSchemaDetailsResponse) : Prop :=
  exists b,
    convertSchema (Some cfg) = Some b /\
    snd (Builder.Build b) = None /\
    snd (reply_SchemaReload env h connectorID (excludeMode cfg)) = None /\
    snd (reply_SchemaUpdate env (h ++ firstn 1 (cycle connectorID cfg o)) connectorID
                            (if_nonempty (snd (fst (Builder.Build b))))
                            (fst (fst (Builder.Build b)))) = None /\
    reply_K8sUpdate env (h ++ firstn 2 (cycle connectorID cfg o)) (with_schema_hash o)
    = None /\
    reply_SchemaDetails env (h ++ firstn 3 (cycle connectorID cfg o)) connectorID
    = (details2, None).

End DriftSpec.

(* ===================================================================== *)
(** * Status conditions: notions used by their properties *)
(* ===================================================================== *)

Module StatusSpec.
Import V1alpha1 Provider Controller.

(** The condition of a type, as an observer of the status finds it. *)
Fixpoint find_condition (conditionType : string) (conditions : list Condition)
  : option Condition :=
  match conditions with
  | [] => None
  | c :: rest =>
      if String.eqb (cond_Type c) conditionType then Some c
      else find_condition conditionType rest
  end.

Definition condition_status (conditionType : string) (o : FivetranConnector)
  : option ConditionStatus :=
  option_map cond_Status (find_condition conditionType (Conditions (Status o))).

(** A setup test that counts as failed: neither WARNING, PASSED nor
    SKIPPED. *)
Definition is_failure (t : SetupTest) : bool :=
  negb (String.eqb (t_Status t) setupTestStatusWarning)
  && negb (String.eqb (t_Status t) setupTestStatusPassed)
  && negb (String.eqb (t_Status t) setupTestStatusSkipped).

(** The error of [reconcileSetupTests] on failed tests. *)
Definition setup_tests_failed (details : string) : GoError.error :=
  GoError.Wrap "" (GoError.Var GoError.ErrSetupTestsFailed) details.

(** The trust flags as [RunSetupTests] sends them. *)
Definition trust (flag : option bool) : bool :=
  match flag with Some b => b | None => true end.

End StatusSpec.

(* ===================================================================== *)
(** * Connector update: notions used by its properties *)
(* ===================================================================== *)

Module UpdateSpec.
Import Provider.

(** An update request that sets every field it can carry. *)
Definition sets_every_field (req : ConnectionUpdate) : bool :=
  match u_connectionID req, u_runSetupTests req, u_paused req, u_syncFrequency req,
        u_dailySyncTime req, u_scheduleType req, u_pauseAfterTrial req, u_config req,
        u_auth req, u_networkingMethod req, u_proxyAgentId req, u_privateLinkId req,
        u_hybridDeploymentAgentId req, u_dataDelaySensitivity req,
        u_dataDelayThreshold req with
  | Some _, Some _, Some _, Some _, Some _, Some _, Some _, Some _, Some _, Some _,
    Some _, Some _, Some _, Some _, Some _ => true
  | _, _, _, _, _, _, _, _, _, _, _, _, _, _, _ => false
  end.

Definition overwrite {A} (sent stored : option A) : option A :=
  match sent with
  | Some v => Some v
  | None => stored
  end.

(** Modelled from the spec: the provider's side of an update, which is no
    part of this repository.  The remote connector holds one value per
    field; a request replaces the fields it sets and leaves the others. *)
Definition apply_update (req remote : ConnectionUpdate) : ConnectionUpdate :=
  {| u_connectionID := overwrite (u_connectionID req) (u_connectionID remote);
     u_runSetupTests := overwrite (u_runSetupTests req) (u_runSetupTests remote);
     u_paused := overwrite (u_paused req) (u_paused remote);
     u_syncFrequency := overwrite (u_syncFrequency req) (u_syncFrequency remote);
     u_dailySyncTime := overwrite (u_dailySyncTime req) (u_dailySyncTime remote);
     u_scheduleType := overwrite (u_scheduleType req) (u_scheduleType remote);
     u_pauseAfterTrial := overwrite (u_pauseAfterTrial req) (u_pauseAfterTrial remote);
     u_config := overwrite (u_config req) (u_config remote);
     u_auth := overwrite (u_auth req) (u_auth remote);
     u_networkingMethod := overwrite (u_networkingMethod req) (u_networkingMethod remote);
     u_proxyAgentId := overwrite (u_proxyAgentId req) (u_proxyAgentId remote);
     u_privateLinkId := overwrite (u_privateLinkId req) (u_privateLinkId remote);
     u_hybridDeploymentAgentId :=
       overwrite (u_hybridDeploymentAgentId req) (u_hybridDeploymentAgentId remote);
     u_dataDelaySensitivity :=
       overwrite (u_dataDelaySensitivity req) (u_dataDelaySensitivity remote);
     u_dataDelayThreshold :=
       overwrite (u_dataDelayThreshold req) (u_dataDelayThreshold remote) |}.

End UpdateSpec.

(* ===================================================================== *)
(** * Scenarios *)
(* ===================================================================== *)

Module CompareScenario.
Import V1alpha1 SchemaCompare.

(** The scenario of the comparator's test "table sync mode mismatch - nil
    in Fivetran". *)
Definition live : ConnectionSchemaDetailsResponse :=
  {| resp_Code := "";
     resp_Message := "";
     data_SchemaChangeHandling := "ALLOW_ALL";
     data_Schemas :=
       {[ "test_schema" :=
            {| sr_Enabled := Some true;
               sr_Tables :=
                 {[ "test_table" :=
                      {| tr_Enabled := Some true; tr_SyncMode := None |} ]} |} ]} |}.

Definition declared_table : TableObject :=
  {| tbl_Enabled := true; tbl_Columns := []; tbl_SyncMode := "SOFT_DELETE" |}.

Definition declared : ConnectorSchemaConfig :=
  {| Schemas :=
       [("test_schema",
         {| sch_Enabled := true;
            sch_Tables := [("test_table", declared_table)] |})];
     SchemaChangeHandling := "ALLOW_ALL" |}.

End CompareScenario.

Module FingerprintScenario.
Import GoJSON V1alpha1.

(** The same configuration document written in two key orders. *)
Definition members_ab : list (string * json) :=
  [("host", JString "db.example.com"); ("port", JNumber "5432")].
Definition members_ba : list (string * json) :=
  [("port", JNumber "5432"); ("host", JString "db.example.com")].

Definition column : ColumnObject :=
  {| col_Enabled := true; col_Hashed := false; col_IsPrimaryKey := true;
     col_MaskingAlgorithm := "" |}.

Definition table (cols : list (string * ColumnObject)) : TableObject :=
  {| tbl_Enabled := true; tbl_Columns := cols; tbl_SyncMode := "HISTORY" |}.

(** The same schema subtree with its entries in two orders. *)
Definition schemas_1 : ConnectorSchemaConfig :=
  {| Schemas :=
       [("sales", {| sch_Enabled := true;
                     sch_Tables := [("orders", table [("id", column); ("total", column)]);
                                    ("items", table [])] |});
        ("hr", {| sch_Enabled := false; sch_Tables := [] |})];
     SchemaChangeHandling := "BLOCK_ALL" |}.

Definition schemas_2 : ConnectorSchemaConfig :=
  {| Schemas :=
       [("hr", {| sch_Enabled := false; sch_Tables := [] |});
        ("sales", {| sch_Enabled := true;
                     sch_Tables := [("items", table []);
                                    ("orders", table [("total", column); ("id", column)])] |})];
     SchemaChangeHandling := "BLOCK_ALL" |}.

End FingerprintScenario.

Module BuilderScenario.
Import Builder.

Definition base : SchemaBuilder := AddSchema NewSchemaBuilder "sales" true.

End BuilderScenario.

Module VaultScenario.
Import GoJSON V1alpha1 VaultOps.

(** A store with one secret, at db/creds. *)
Definition store : Store :=
  fun _ path =>
    if String.eqb path "db/creds"
    then ReadSecret (Some (Some [("data", JObject [("user", JString "admin");
                                                   ("password", JString "s3cret")]);
                                 ("metadata", JNull)]))
    else ReadError (GoError.New "secret not found").

(** One resolvable and one unresolvable reference. *)
Definition mixed : json :=
  JObject [("user", JString "vault:db/creds#user");
           ("token", JString "vault:missing/path#token")].

(** The unresolvable reference comes first. *)
Definition failing_first : json :=
  JArray [JString "vault:missing/path#token"; JString "vault:db/creds#user"].

(** Three references into the same path. *)
Definition repeated : json :=
  JObject [("user", JString "vault:db/creds#user");
           ("password", JString "vault:db/creds#password");
           ("replicas", JArray [JString "vault:db/creds#user"])].

End VaultScenario.

Module DriftScenario.
Import V1alpha1 Provider Controller.

(** The declared schema blocks all changes; the provider keeps reporting
    ALLOW_ALL, and every call succeeds. *)
Definition declared : ConnectorSchemaConfig :=
  {| Schemas := []; SchemaChangeHandling := "BLOCK_ALL" |}.

Definition live : SchemaCompare.ConnectionSchemaDetailsResponse :=
  {| SchemaCompare.resp_Code := "Success";
     SchemaCompare.resp_Message := "";
     SchemaCompare.data_SchemaChangeHandling := "ALLOW_ALL";
     SchemaCompare.data_Schemas := empty |}.

Definition ok : CommonResponse := {| cr_Code := "Success"; cr_Message := "" |}.

Definition env : Env :=
  {| reply_ConnectionCreate := fun _ _ => (ok, "conn_1", None);
     reply_ConnectionDetails :=
       fun _ _ => (ok, {| d_Service := "postgres"; d_GroupID := "group_1";
                          d_Schema := "" |}, None);
     reply_ConnectionUpdate := fun _ _ => (ok, None);
     reply_SetupTests := fun _ _ _ _ => (ok, [], None);
     reply_SchemaDetails := fun _ _ => (live, None);
     reply_SchemaReload := fun _ _ _ => (ok, None);
     reply_SchemaUpdate := fun _ _ _ _ => (ok, None);
     reply_K8sUpdate := fun _ _ => None;
     reply_K8sStatusUpdate := fun _ _ => None;
     vault := VaultScenario.store |}.

Definition connector : FivetranConnector :=
  with_connector_id (KeyOrder.connector_with_schemas declared) "conn_1"
                    (fivetranConnectorURL "conn_1").

Definition start : World := {| history := []; obj := connector |}.

End DriftScenario.

Module SetupTestScenario.
Import V1alpha1 Provider Controller.

(** The provider reports one failed and one warning setup test. *)
Definition tests : list SetupTest :=
  [{| t_Title := "Connecting to host"; t_Status := "FAILED";
      t_Message := "connection refused" |};
   {| t_Title := "Validating certificate"; t_Status := "WARNING";
      t_Message := "self-signed" |}].

Definition env : Env :=
  {| reply_ConnectionCreate := reply_ConnectionCreate DriftScenario.env;
     reply_ConnectionDetails := reply_ConnectionDetails DriftScenario.env;
     reply_ConnectionUpdate := reply_ConnectionUpdate DriftScenario.env;
     reply_SetupTests := fun _ _ _ _ => (DriftScenario.ok, tests, None);
     reply_SchemaDetails := reply_SchemaDetails DriftScenario.env;
     reply_SchemaReload := reply_SchemaReload DriftScenario.env;
     reply_SchemaUpdate := reply_SchemaUpdate DriftScenario.env;
     reply_K8sUpdate := reply_K8sUpdate DriftScenario.env;
     reply_K8sStatusUpdate := reply_K8sStatusUpdate DriftScenario.env;
     vault := VaultScenario.store |}.

(** A known connector whose last reconciliation left a failed
    connector condition. *)
Definition connector : FivetranConnector :=
  with_conditions
    (with_connector_id
       (KeyOrder.connector_with_config
          (GoJSON.JObject FingerprintScenario.members_ab))
       "conn_1" (fivetranConnectorURL "conn_1"))
    [{| cond_Type := conditionTypeConnectorReady; cond_Status := ConditionFalse;
        cond_Reason := ConnectorReasonReconciliationFailed;
        cond_Message := "fivetran api error (status 503): Unavailable - retry" |}].

Definition start : World := {| history := []; obj := connector |}.

Definition resolvedConfig : option RawExtension :=
  V1alpha1.Config (spec_Connector (Spec connector)).

(** The provider-shaped object of that connector. *)
Definition provider_object : Provider.Connector :=
  {| Provider.Service := "postgres";
     Provider.Config := Some (Some FingerprintScenario.members_ab);
     Provider.Auth := Some None;
     Provider.Paused := Some false;
     Provider.GroupID := "group_1";
     Provider.SyncFrequency := 60;
     Provider.DailySyncTime := "";
     Provider.RunSetupTests := Some true;
     Provider.ScheduleType := "auto";
     Provider.PauseAfterTrial := None;
     Provider.TrustCertificates := None;
     Provider.TrustFingerprints := None;
     Provider.DataDelaySensitivity := "";
     Provider.DataDelayThreshold := 0;
     Provider.NetworkingMethod := "";
     Provider.ProxyAgentID := "";
     Provider.PrivateLinkID := "";
     Provider.HybridDeploymentAgentID := "" |}.

End SetupTestScenario.

Module AdoptionScenario.
Import V1alpha1 Provider Controller.

(** The resource asks to adopt conn_9.  The remote connector has the
    declared group and the expected schema name, but another service. *)
Definition connector : FivetranConnector :=
  SetAnnotation
    (KeyOrder.connector_with_config
       (GoJSON.JObject [("schema_prefix", GoJSON.JString "sales")]))
    annotationAdoptExistingConnectorID "conn_9".

Definition remote : ConnectionDetails :=
  {| d_Service := "mysql"; d_GroupID := "group_1"; d_Schema := "sales" |}.

Definition env : Env :=
  {| reply_ConnectionCreate := reply_ConnectionCreate DriftScenario.env;
     reply_ConnectionDetails := fun _ _ => (DriftScenario.ok, remote, None);
     reply_ConnectionUpdate := reply_ConnectionUpdate DriftScenario.env;
     reply_SetupTests := reply_SetupTests DriftScenario.env;
     reply_SchemaDetails := reply_SchemaDetails DriftScenario.env;
     reply_SchemaReload := reply_SchemaReload DriftScenario.env;
     reply_SchemaUpdate := reply_SchemaUpdate DriftScenario.env;
     reply_K8sUpdate := reply_K8sUpdate DriftScenario.env;
     reply_K8sStatusUpdate := reply_K8sStatusUpdate DriftScenario.env;
     vault := VaultScenario.store |}.

Definition start : World := {| history := []; obj := connector |}.

Definition service_mismatch : GoError.error :=
  GoError.New
    "handleExistingConnectorAdoption: service mismatch: spec has 'postgres', existing connector has 'mysql'".

End AdoptionScenario.

(* ===================================================================== *)
(** * Secret resolver: further notions *)
(* ===================================================================== *)

Module VaultErrors.

(** func IsRetryableError (pkg/fivetran/vault), on an error that is not
    nil. *)
Definition IsRetryableError (err : GoError.error) : bool :=
  match GoError.AsVaultError err with
  | Some retryable => retryable
  | None => true
  end.

End VaultErrors.

Module ResolverSpec.
Import GoJSON VaultOps.

(** The byte [#], which separates the path of a reference from its key. *)
Definition hash : ascii := "#"%char.

(** No string value of the document is a reference. *)
Definition reference_free (data : json) : Prop :=
  forall s, In s (VaultSpec.strings data) -> GoStrings.HasPrefix s "vault:" = false.

(** The error of a reference is one of the four terminal kinds. *)
Definition terminal_kind (err : GoError.error) : bool :=
  GoError.Is err GoError.ErrInvalidVaultReference
  || GoError.Is err GoError.ErrKeyNotFound
  || GoError.Is err GoError.ErrSecretNotFound
  || GoError.Is err GoError.ErrSecretDataNil.

(** [e] is the vault error of the reference [ref], one of the string
    values of [data]: retryable when a read of the store failed at the
    path of the reference, of a terminal kind otherwise. *)
Definition blames (store : Store) (data : json) (e : GoError.error)
           (retryable : bool) (ref : string) : Prop :=
  exists err keyPath,
    e = GoError.Vault err retryable keyPath ref /\
    In ref (VaultSpec.strings data) /\
    GoStrings.HasPrefix ref "vault:" = true /\
    (retryable = true ->
     exists h path key e0,
       parseVaultReference ref = inl (path, key) /\
       store h path = ReadError e0 /\
       err = GoError.Wrap "failed to read vault secret: " e0 "") /\
    (retryable = false -> terminal_kind err = true).

End ResolverSpec.

(* ===================================================================== *)
(** * Schema comparator: what a match means *)
(* ===================================================================== *)

Module CompareSpec.
Import V1alpha1 SchemaCompare.

(** A live table agrees with a declared one: its enabled flag, when the
    provider reports one, is the declared flag, and its sync mode is the
    declared one when one is declared. *)
Definition table_agrees (live : TableResponse) (cr : TableObject) : Prop :=
  (forall e, tr_Enabled live = Some e -> e = tbl_Enabled cr) /\
  (tbl_SyncMode cr <> "" -> tr_SyncMode live = Some (tbl_SyncMode cr)).

Definition tables_agree (live : gmap string TableResponse)
           (cr : list (string * TableObject)) : Prop :=
  forall name t, In (name, t) cr ->
    exists l, live !! name = Some l /\ table_agrees l t.

Definition schema_agrees (live : SchemaResponse) (cr : SchemaObject) : Prop :=
  (forall e, sr_Enabled live = Some e -> e = sch_Enabled cr) /\
  tables_agree (sr_Tables live) (sch_Tables cr).

(** Every declared schema and table exists in the live schema and agrees
    with it, and so does the declared change handling. *)
Definition agrees (live : ConnectionSchemaDetailsResponse) (cr : ConnectorSchemaConfig)
  : Prop :=
  (SchemaChangeHandling cr <> "" ->
   data_SchemaChangeHandling live = SchemaChangeHandling cr) /\
  forall name s, In (name, s) (Schemas cr) ->
    exists l, data_Schemas live !! name = Some l /\ schema_agrees l s.

(** A declared configuration without its column entries. *)
Definition table_without_columns (t : TableObject) : TableObject :=
  {| tbl_Enabled := tbl_Enabled t; tbl_Columns := []; tbl_SyncMode := tbl_SyncMode t |}.

Definition schema_without_columns (s : SchemaObject) : SchemaObject :=
  {| sch_Enabled := sch_Enabled s;
     sch_Tables := map (fun e => (fst e, table_without_columns (snd e))) (sch_Tables s) |}.

Definition without_columns (c : ConnectorSchemaConfig) : ConnectorSchemaConfig :=
  {| Schemas := map (fun e => (fst e, schema_without_columns (snd e))) (Schemas c);
     SchemaChangeHandling := SchemaChangeHandling c |}.

(** Two live schemas that differ only in what is not declared: the same
    change handling, and for every declared schema the same presence,
    enabled flag and declared tables. *)
Definition same_schema_on_declared (l1 l2 : option SchemaResponse) (cr : SchemaObject)
  : Prop :=
  match l1, l2 with
  | None, None => True
  | Some a, Some b =>
      sr_Enabled a = sr_Enabled b /\
      forall name, In name (map fst (sch_Tables cr)) ->
                   sr_Tables a !! name = sr_Tables b !! name
  | _, _ => False
  end.

Definition same_on_declared (l1 l2 : ConnectionSchemaDetailsResponse)
           (cr : ConnectorSchemaConfig) : Prop :=
  data_SchemaChangeHandling l1 = data_SchemaChangeHandling l2 /\
  forall name s, In (name, s) (Schemas cr) ->
    same_schema_on_declared (data_Schemas l1 !! name) (data_Schemas l2 !! name) s.

(** The live schema with one more schema. *)
Definition with_live_schema (live : ConnectionSchemaDetailsResponse) (name : string)
           (s : SchemaResponse) : ConnectionSchemaDetailsResponse :=
  {| resp_Code := resp_Code live;
     resp_Message := resp_Message live;
     data_SchemaChangeHandling := data_SchemaChangeHandling live;
     data_Schemas := <[name := s]> (data_Schemas live) |}.

End CompareSpec.

(* ===================================================================== *)
(** * Schema builder: sequences of calls, and what a declaration becomes *)
(* ===================================================================== *)

Module BuilderSpec.
Import V1alpha1 Builder.

(** One call on a builder. *)
Inductive Op :=
| OpHandling (handling : string)
| OpSchema (name : string) (enabled : bool)
| OpTable (schema table : string) (enabled : bool) (syncMode : string)
| OpColumn (schema table column : string) (enabled hashed isPrimaryKey : bool).

Definition apply (b : SchemaBuilder) (op : Op) : SchemaBuilder :=
  match op with
  | OpHandling handling => WithSchemaChangeHandling b handling
  | OpSchema name enabled => AddSchema b name enabled
  | OpTable schema table enabled syncMode => AddTable b schema table enabled syncMode
  | OpColumn schema table column enabled hashed isPrimaryKey =>
      AddColumn b schema table column enabled hashed isPrimaryKey
  end.

(** A sequence of calls, the first one first. *)
Definition run (ops : list Op) (b : SchemaBuilder) : SchemaBuilder :=
  fold_left apply ops b.

(** The three errors of the builder about an empty name. *)
Definition empty_name_errors : list GoError.error :=
  [GoError.New "schema name cannot be empty";
   GoError.New "schema and table names cannot be empty";
   GoError.New "schema, table, and column names cannot be empty"].

(** The error of the builder, if any, is about an empty name, and without
    error the schema is known. *)
Definition okay (b : SchemaBuilder) (schema : string) : Prop :=
  match err b with
  | None => is_Some (schemas b !! schema)
  | Some e => In e empty_name_errors
  end.

(** The entry of a ranged map that the loop visits last. *)
Fixpoint last_entry {V} (l : list (string * V)) : option (string * V) :=
  match l with
  | [] => None
  | [e] => Some e
  | _ :: rest => last_entry rest
  end.

(** The configuration that [processTableColumns] gives one column. *)
Definition sent_column (c : ColumnObject) : ColumnConfig :=
  {| cc_enabled := Some (col_Enabled c);
     cc_hashed := Some (col_Hashed c);
     cc_isPrimaryKey := Some (col_IsPrimaryKey c) |}.

(** What the built request holds for a declared table: its flag and sync
    mode when it declares no column; when it declares columns, the column
    visited last and nothing else. *)
Definition sent_table (t : TableObject) : TableConfig :=
  match last_entry (tbl_Columns t) with
  | None =>
      {| tc_enabled := Some (tbl_Enabled t);
         tc_syncMode := Provider.if_nonempty (tbl_SyncMode t);
         tc_columns := empty |}
  | Some (name, c) =>
      {| tc_enabled := None;
         tc_syncMode := None;
         tc_columns := {[ name := sent_column c ]} |}
  end.

Definition sent_tables (tables : list (string * TableObject))
           (m : gmap string TableConfig) : gmap string TableConfig :=
  fold_left (fun m e => <[fst e := sent_table (snd e)]> m) tables m.

Definition sent_schema (s : SchemaObject) : SchemaConfig :=
  {| sc_enabled := Some (sch_Enabled s);
     sc_tables := sent_tables (sch_Tables s) empty |}.

Definition sent_schemas (l : list (string * SchemaObject))
           (m : gmap string SchemaConfig) : gmap string SchemaConfig :=
  fold_left (fun m e => <[fst e := sent_schema (snd e)]> m) l m.

(** No schema, table or column of the declaration has the empty name. *)
Definition nonempty (s : string) : bool := negb (String.eqb s "").

Definition table_well_named (e : string * TableObject) : bool :=
  nonempty (fst e) && forallb (fun c => nonempty (fst c)) (tbl_Columns (snd e)).

Definition schema_well_named (e : string * SchemaObject) : bool :=
  nonempty (fst e) && forallb table_well_named (sch_Tables (snd e)).

Definition well_named (c : ConnectorSchemaConfig) : bool :=
  forallb schema_well_named (Schemas c).

End BuilderSpec.

(* ===================================================================== *)
(** * Errors: wrapping, and the retry questions of the two packages *)
(* ===================================================================== *)

Module ErrorSpec.

(** [e] is [inner] under any number of fmt.Errorf layers that wrap it
    with %w. *)
Inductive Wraps (inner : GoError.error) : GoError.error -> Prop :=
| wraps_here : Wraps inner inner
| wraps_layer (pre : string) (e : GoError.error) (post : string) :
    Wraps inner e -> Wraps inner (GoError.Wrap pre e post).

End ErrorSpec.

Module ApiErrors.

(** func IsRetryableError (pkg/fivetran/errors.go), on an error that is
    not nil. *)
Definition IsRetryableError (err : GoError.error) : bool :=
  match GoError.AsAPIError err with
  | Some apiErr => FivetranErrors.IsRetryable apiErr
  | None => true
  end.

(** The API error that [WrapFivetranError] makes of a response and an
    error of the SDK. *)
Definition of_response (resp : Provider.CommonResponse) (e : Provider.SDKError)
  : FivetranErrors.APIError :=
  {| FivetranErrors.StatusCode :=
       match Provider.sdk_status e with Some c => c | None => 0 end;
     FivetranErrors.Code := Provider.cr_Code resp;
     FivetranErrors.Message := Provider.cr_Message resp;
     FivetranErrors.RawError := Provider.sdk_text e |}.

End ApiErrors.

(* ===================================================================== *)
(** * internal/kubeutils: labels, and the label predicate *)
(* ===================================================================== *)

Module Kubeutils.
Import V1alpha1.

(** func GetLabel *)
Definition GetLabel (o : FivetranConnector) (key : string) : string :=
  match Labels o !! key with Some v => v | None => "" end.

(** func SetLabel *)
Definition SetLabel (o : FivetranConnector) (key value : string) : FivetranConnector :=
  Controller.with_labels o (<[key := value]> (Labels o)).

(** event.UpdateEvent: the object before and after, either may be nil. *)
Record UpdateEvent := {
  ObjectOld : option FivetranConnector;
  ObjectNew : option FivetranConnector
}.

(** func (p CustomLabelKeyChangedPredicate) Update *)
Definition CustomLabelKeyChangedPredicate_Update (LabelKey : string) (e : UpdateEvent)
  : bool :=
  match ObjectOld e, ObjectNew e with
  | Some old, Some new =>
      let oldExists := match Labels old !! LabelKey with Some _ => true | None => false end in
      let newExists := match Labels new !! LabelKey with Some _ => true | None => false end in
      if negb oldExists && newExists then true else false
  | _, _ => false
  end.

End Kubeutils.

(* ===================================================================== *)
(** * Deletion and the finalizer (controller.go, utils.go) *)
(* ===================================================================== *)

Module Lifecycle.
Import V1alpha1 Provider.

Definition fivetranFinalizer : string := "fivetran.dataverse.redhat.com/finalizer".

(** The resource together with the object metadata that the deletion path
    reads and writes: the finalizers, and the deletion timestamp ([None]
    is nil, a time is its distance from the zero time). *)
Record Managed := {
  resource : FivetranConnector;
  Finalizers : list string;
  DeletionTimestamp : option Z
}.

Definition with_finalizers (o : Managed) (f : list string) : Managed :=
  {| resource := resource o; Finalizers := f;
     DeletionTimestamp := DeletionTimestamp o |}.

(** func (t *metav1.Time) IsZero *)
Definition IsZero (t : option Z) : bool :=
  match t with
  | None => true
  | Some n => n =? 0
  end.

(** controllerutil.ContainsFinalizer *)
Definition ContainsFinalizer (o : Managed) (finalizer : string) : bool :=
  existsb (fun e => String.eqb e finalizer) (Finalizers o).

(** controllerutil.AddFinalizer: appended unless it is there. *)
Definition AddFinalizer (o : Managed) (finalizer : string) : Managed :=
  if ContainsFinalizer o finalizer then o
  else with_finalizers o (Finalizers o ++ [finalizer]).

(** controllerutil.RemoveFinalizer: every occurrence is dropped. *)
Definition RemoveFinalizer (o : Managed) (finalizer : string) : Managed :=
  with_finalizers o
    (List.filter (fun e => negb (String.eqb e finalizer)) (Finalizers o)).

(** The calls of the deletion path. *)
Inductive Call :=
| ConnectionDeleteDo (id : string)
| K8sUpdate (o : Managed).

Record Env := {
  reply_ConnectionDelete : list Call -> string -> CommonResponse * option SDKError;
  reply_K8sUpdate : list Call -> Managed -> option GoError.error
}.

Record World := {
  history : list Call;
  obj : Managed
}.

Definition with_obj (w : World) (o : Managed) : World :=
  {| history := history w; obj := o |}.

(** func (s *connectionServiceImpl) DeleteConnection *)
Definition DeleteConnection (ConnectionID : string) (env : Env) (w : World)
  : option GoError.error * World :=
  let '(resp, e) := reply_ConnectionDelete env (history w) ConnectionID in
  (WrapFivetranError resp e,
   {| history := history w ++ [ConnectionDeleteDo ConnectionID]; obj := obj w |}).

(** r.Update(ctx, connector) *)
Definition Update (env : Env) (w : World) : option GoError.error * World :=
  (reply_K8sUpdate env (history w) (obj w),
   {| history := history w ++ [K8sUpdate (obj w)]; obj := obj w |}).

(** func handleDeletion *)
Definition handleDeletion (env : Env) (w : World) : option GoError.error * World :=
  if negb (ContainsFinalizer (obj w) fivetranFinalizer) then (None, w)
  else
    let connectorID := ConnectorID (Status (resource (obj w))) in
    let '(err, w1) :=
      if negb (String.eqb connectorID "") then DeleteConnection connectorID env w
      else (None, w) in
    match err with
    | Some e => (Some e, w1)
    | None => Update env (with_obj w1 (RemoveFinalizer (obj w1) fivetranFinalizer))
    end.

(** func ensureFinalizer *)
Definition ensureFinalizer (env : Env) (w : World) : option GoError.error * World :=
  if negb (ContainsFinalizer (obj w) fivetranFinalizer) then
    Update env (with_obj w (AddFinalizer (obj w) fivetranFinalizer))
  else (None, w).

(** How the deletion and finalizer steps of [Reconcile] end: the object is
    being deleted and the deletion was handled, or it is not and the
    finalizer was ensured; either with the error that goes to
    [handleError]. *)
Inductive Step :=
| Deleting (err : option GoError.error)
| Living (err : option GoError.error).

(** func Reconcile, from "Handle deletion" to "Ensure finalizer is
    present". *)
Definition lifecycle (env : Env) (w : World) : Step * World :=
  if negb (IsZero (DeletionTimestamp (obj w))) then
    let '(err, w1) := handleDeletion env w in (Deleting err, w1)
  else
    let '(err, w1) := ensureFinalizer env w in (Living err, w1).

End Lifecycle.

(* ===================================================================== *)
(** * pkg/vault: the configuration of the Vault client *)
(* ===================================================================== *)

Module VaultClient.

(** type ClientConfig struct *)
Record ClientConfig := {
  Address : string;
  RoleID : string;
  SecretID : string;
  MountPath : string
}.


(** What [InitializeVaultClientFromSecret] meets outside: the read of the
    Kubernetes secret (its Data, values as strings, or an error) and
    [NewClient], which logs in to Vault with the AppRole credentials and
    returns an error or a client. *)
Record Env := {
  get_secret : string -> string -> gmap string string + GoError.error;
  NewClient : ClientConfig -> option GoError.error
}.

(** What was asked outside. *)
Inductive Call :=
| SecretGet (namespace name : string)
| Login (cfg : ClientConfig).



End VaultClient.

(* ===================================================================== *)
(** * Reconciliation: notions used by its further properties *)
(* ===================================================================== *)

Module ReconcileSpec.
Import V1alpha1 Provider Controller.

(** A computation keeps a property of the object in memory. *)
Definition Preserves {A} (P : FivetranConnector -> Prop) (m : M A) : Prop :=
  forall env w, P (obj w) -> P (obj (snd (m env w))).

(** The types of the conditions of a resource, in order. *)
Definition condition_types (o : FivetranConnector) : list string :=
  map cond_Type (Conditions (Status o)).


(** A setup test that only warns. *)
Definition is_warning (t : SetupTest) : bool :=
  String.eqb (t_Status t) setupTestStatusWarning.

(** The line of a warning. *)
Definition warning_line (t : SetupTest) : string :=
  t_Title t +:+ ": " +:+ t_Message t.

(** The five minutes after which [handleError] asks to be called again. *)
Definition retry_later : Result := {| Requeue := false; RequeueAfter := five_minutes |}.

(** The condition that [setCondition] writes. *)
Definition condition (conditionType : string) (status : ConditionStatus)
           (reason message : string) : Condition :=
  {| cond_Type := conditionType; cond_Status := status;
     cond_Reason := reason; cond_Message := message |}.

End ReconcileSpec.

(* ===================================================================== *)
(** * What a reconciliation leaves alone: notions used by its invariants *)
(* ===================================================================== *)

Module InvariantSpec.
Import V1alpha1 Provider Controller.

(** The condition types the operator writes. *)
Definition operator_conditions : list string :=
  [conditionTypeConnectorReady; conditionTypeSetupTestReady; conditionTypeSchemaReady].

(** The annotations the operator writes or removes. *)
Definition operator_annotations : list string :=
  [annotationConnectorHash; annotationSchemaHash; annotationAdoptExistingConnectorID].

(** What holds between the object before and after a step of the
    reconciliation. *)
Record Stable (o o' : FivetranConnector) : Prop := {
  stable_spec : Spec o' = Spec o;
  stable_id :
    ConnectorID (Status o) <> "" ->
    ConnectorID (Status o') = ConnectorID (Status o)
    /\ ConnectorURL (Status o') = ConnectorURL (Status o);
  stable_labels :
    forall k, k <> annotationForceReconcile -> Labels o' !! k = Labels o !! k;
  stable_annotations :
    forall k, ~ In k operator_annotations -> Annotations o' !! k = Annotations o !! k;
  stable_kept :
    forall t, In t (ReconcileSpec.condition_types o)
              -> In t (ReconcileSpec.condition_types o');
  stable_types :
    forall t, In t (ReconcileSpec.condition_types o')
              -> In t (ReconcileSpec.condition_types o) \/ In t operator_conditions;
  stable_nodup :
    List.NoDup (ReconcileSpec.condition_types o)
    -> List.NoDup (ReconcileSpec.condition_types o')
}.

(** What a call must be like, for a reconciliation that started on [o]:
    a connector is created only for a resource without identifier, paused
    and without setup tests; an update runs no setup tests either. *)
Definition allowed (o : FivetranConnector) (c : Call) : Prop :=
  match c with
  | ConnectionCreateDo req =>
      ConnectorID (Status o) = ""
      /\ c_paused req = Some true /\ c_runSetupTests req = Some false
  | ConnectionUpdateDo req => u_runSetupTests req = Some false
  | _ => True
  end.

(** What holds between the state before and after a step: the object is
    stable, calls are only added, and each added call is allowed. *)
Definition Step (w w' : World) : Prop :=
  Stable (obj w) (obj w')
  /\ exists calls, history w' = history w ++ calls /\ Forall (allowed (obj w)) calls.

(** A computation that is such a step from any state. *)
Definition Keeps {A} (m : M A) : Prop :=
  forall env w, Step w (snd (m env w)).

End InvariantSpec.

(* ===================================================================== *)
(** * Convergence: notions used by its properties *)
(* ===================================================================== *)

Module ConvergenceSpec.
Import V1alpha1 Provider Controller.


(** No schema is declared, or the stored schema fingerprint is the current
    one. *)
Definition schema_hash_current (o : FivetranConnector) : Prop :=
  hasSchemaConfig o = false
  \/ Fingerprint.calculateSchemaHash o = (GetAnnotation o annotationSchemaHash, None).

(** The resource does not ask to be reconciled by force. *)
Definition not_forced (o : FivetranConnector) : Prop :=
  HasLabel o annotationForceReconcile = false.


(** A property of the object that each of the six ways in which a
    reconciliation modifies the object keeps. *)
Definition Framed (P : FivetranConnector -> Prop) : Prop :=
  (forall o cs, P o -> P (with_conditions o cs))
  /\ (forall o id url, P o -> P (with_connector_id o id url))
  /\ (forall o, P o -> P (RemoveLabel o annotationForceReconcile))
  /\ (forall o, P o -> P (RemoveAnnotation o annotationAdoptExistingConnectorID))
  /\ ReconcileSpec.Preserves P updateConnectorHash
  /\ ReconcileSpec.Preserves P updateSchemaHash.

End ConvergenceSpec.

(* ===================================================================== *)
(** * Setup tests: notions used by their properties *)
(* ===================================================================== *)

Module SetupTestSpec.
Import V1alpha1 Provider Controller.

(** The error that [reconcileSetupTests] records for a failed test. *)
Definition failure_error (t : SetupTest) : GoError.error :=
  GoError.New ("reconcileSetupTests failed: " +:+ t_Title t
                 +:+ " (status: " +:+ t_Status t +:+ ") - " +:+ t_Message t).

(** The reason and message of the setup-test condition after tests that
    did not fail. *)
Definition outcome (warnings : list string) : string * string :=
  match warnings with
  | [] => (SetupTestsReasonReconciliationSuccess, msgSetupTestsCompletedSuccessfully)
  | _ :: _ =>
      (SetupTestsReasonReconciliationSuccessWithWarnings,
       msgSetupTestsWarningsFormat (GoStrings.Join warnings "; "))
  end.

(** The object after [setCondition]. *)
Definition with_condition (o : FivetranConnector) (c : Condition) : FivetranConnector :=
  with_conditions o (upsert c (Conditions (Status o))).

End SetupTestSpec.

Module WarningScenario.
Import V1alpha1 Provider Controller.

(** The provider reports one passed, two warning and one skipped setup
    test. *)
Definition tests : list SetupTest :=
  [{| t_Title := "Connecting to host"; t_Status := "PASSED"; t_Message := "" |};
   {| t_Title := "Validating certificate"; t_Status := "WARNING";
      t_Message := "self-signed" |};
   {| t_Title := "Checking replication slot"; t_Status := "SKIPPED"; t_Message := "" |};
   {| t_Title := "Checking permissions"; t_Status := "WARNING";
      t_Message := "read-only user" |}].

Definition env : Env :=
  {| reply_ConnectionCreate := reply_ConnectionCreate DriftScenario.env;
     reply_ConnectionDetails := reply_ConnectionDetails DriftScenario.env;
     reply_ConnectionUpdate := reply_ConnectionUpdate DriftScenario.env;
     reply_SetupTests := fun _ _ _ _ => (DriftScenario.ok, tests, None);
     reply_SchemaDetails := reply_SchemaDetails DriftScenario.env;
     reply_SchemaReload := reply_SchemaReload DriftScenario.env;
     reply_SchemaUpdate := reply_SchemaUpdate DriftScenario.env;
     reply_K8sUpdate := reply_K8sUpdate DriftScenario.env;
     reply_K8sStatusUpdate := reply_K8sStatusUpdate DriftScenario.env;
     vault := VaultScenario.store |}.

End WarningScenario.

(* ===================================================================== *)
(** * Verification of the schema: notions used by its properties *)
(* ===================================================================== *)

Module VerifySpec.
Import V1alpha1 Provider Controller.

(** Asked after the calls [h], the provider answers without error with a
    schema that the comparator finds to match the one declared by [o]. *)
Definition verified_at (env : Env) (h : list Call) (connectorID : string)
           (o : FivetranConnector) : Prop :=
  snd (reply_SchemaDetails env h connectorID) = None
  /\ fst (SchemaCompare.CompareSchemaWithCR
            (fst (reply_SchemaDetails env h connectorID))
            (ConnectorSchemas (Spec o))) = true.

End VerifySpec.

Module VerifyScenario.
Import V1alpha1 Provider Controller.

(** The declared schema allows all changes, as the provider of
    [DriftScenario] reports. *)
Definition declared : ConnectorSchemaConfig :=
  {| Schemas := []; SchemaChangeHandling := "ALLOW_ALL" |}.

Definition connector : FivetranConnector :=
  with_connector_id (KeyOrder.connector_with_schemas declared) "conn_1"
                    (fivetranConnectorURL "conn_1").

Definition start : World := {| history := []; obj := connector |}.

End VerifyScenario.

(* ===================================================================== *)
(** * Theorems *)
(* ===================================================================== *)

(** Case analysis on the innermost scrutinee of the goal. *)
Ltac break_match :=
  match goal with
  | |- context [match ?x with _ => _ end] =>
      lazymatch x with
      | context [match _ with _ => _ end] => fail
      | _ => destruct x eqn:?
      end
  end.

(** C6. Whether a provider API error is retried depends on its status code
    only: 429 and every 5xx code are retryable, every other 4xx code is
    terminal, and every code outside 400..499 (so every non-standard code
    outside the success range as well) is retryable. *)
Theorem api_error_retryable_by_status :
  (forall e1 e2 : FivetranErrors.APIError,
      FivetranErrors.StatusCode e1 = FivetranErrors.StatusCode e2 ->
      FivetranErrors.IsRetryable e1 = FivetranErrors.IsRetryable e2) /\
  (forall e : FivetranErrors.APIError,
      let c := FivetranErrors.StatusCode e in
      (c = 429 -> FivetranErrors.IsRetryable e = true) /\
      (500 <= c <= 599 -> FivetranErrors.IsRetryable e = true) /\
      (400 <= c <= 499 -> c <> 429 -> FivetranErrors.IsRetryable e = false) /\
      ((c < 200 \/ 300 <= c) -> ~ (400 <= c <= 499) ->
       FivetranErrors.IsRetryable e = true)).
Proof.
  split.
  - intros e1 e2 H. unfold FivetranErrors.IsRetryable. now rewrite H.
  - intros e c. unfold FivetranErrors.IsRetryable. fold c.
    repeat split; intros;
      repeat match goal with
             | |- context [?a =? ?b] => destruct (Z.eqb_spec a b)
             | |- context [?a <? ?b] => destruct (Z.ltb_spec a b)
             | |- context [?a >=? ?b] =>
                 rewrite (Z.geb_leb a b); destruct (Z.leb_spec b a)
             end; simpl; try reflexivity; lia.
Qed.

Lemma api_error_retryable_by_status_witness :
  FivetranErrors.IsRetryable
    {| FivetranErrors.StatusCode := 404; FivetranErrors.Code := "NotFound";
       FivetranErrors.Message := "no such connector"; FivetranErrors.RawError := "" |}
  = false.
Proof.
  refine (proj1 (proj2 (proj2 (proj2 api_error_retryable_by_status _))) _ _);
    cbn; lia.
Defined.

(* --------------------------------------------------------------------- *)
(** ** Substrings *)
(* --------------------------------------------------------------------- *)

Section StringFacts.
Import GoStrings.

Lemma append_cancel_l (p a b : string) : p +:+ a = p +:+ b -> a = b.
Proof. induction p as [|c p IH]; cbn; [auto|]. intros [= H]. now apply IH. Qed.

Lemma HasPrefix_app (p t : string) : HasPrefix (p +:+ t) p = true.
Proof.
  induction p as [|c p IH]; simpl; [reflexivity|].
  now rewrite Ascii.eqb_refl.
Qed.

Lemma Contains_here (s sub : string) : HasPrefix s sub = true -> Contains s sub = true.
Proof. intros H. destruct s; simpl in *; now rewrite H. Qed.

Lemma Contains_cons (c : ascii) (s sub : string) :
  Contains s sub = true -> Contains (String c s) sub = true.
Proof.
  intros H. cbn [Contains]. destruct (HasPrefix (String c s) sub); [reflexivity|exact H].
Qed.

Lemma Contains_app_r (s1 s2 sub : string) :
  Contains s2 sub = true -> Contains (s1 +:+ s2) sub = true.
Proof.
  intros H. induction s1 as [|c s1 IH]; simpl String.append; [exact H|].
  now apply Contains_cons.
Qed.

Lemma HasPrefix_app_l (s1 s2 sub : string) :
  HasPrefix s1 sub = true -> HasPrefix (s1 +:+ s2) sub = true.
Proof.
  revert s1. induction sub as [|c sub IH]; intros s1 H; [reflexivity|].
  destruct s1 as [|d s1]; simpl in *; [discriminate|].
  destruct (Ascii.eqb c d); [now apply IH|discriminate].
Qed.

Lemma Contains_app_l (s1 s2 sub : string) :
  Contains s1 sub = true -> Contains (s1 +:+ s2) sub = true.
Proof.
  induction s1 as [|c s1 IH]; intros H.
  - simpl in H. destruct (HasPrefix "" sub) eqn:E; [|discriminate].
    apply Contains_here. now apply (HasPrefix_app_l "" s2 sub).
  - cbn [Contains] in H.
    destruct (HasPrefix (String c s1) sub) eqn:E.
    + apply Contains_here. now apply HasPrefix_app_l.
    + simpl String.append. apply Contains_cons. now apply IH.
Qed.

Lemma Contains_infix (a b c : string) : Contains (a +:+ b +:+ c) b = true.
Proof. apply Contains_app_r, Contains_here, HasPrefix_app. Qed.

Lemma Contains_suffix (a b : string) : Contains (a +:+ b) b = true.
Proof.
  apply Contains_app_r, Contains_here.
  induction b as [|c b IH]; simpl; [reflexivity|]. now rewrite Ascii.eqb_refl.
Qed.

Lemma Contains_Join (elems : list string) (sep x sub : string) :
  In x elems -> Contains x sub = true -> Contains (Join elems sep) sub = true.
Proof.
  induction elems as [|y rest IH]; intros Hin Hc; [destruct Hin|].
  destruct rest as [|z rest'].
  - destruct Hin as [->|[]]. exact Hc.
  - change (Join (y :: z :: rest') sep) with (y +:+ sep +:+ Join (z :: rest') sep).
    destruct Hin as [->|Hin].
    + now apply Contains_app_l.
    + apply Contains_app_r, Contains_app_r. now apply IH.
Qed.

End StringFacts.

(* --------------------------------------------------------------------- *)
(** ** Structural schema comparator *)
(* --------------------------------------------------------------------- *)

Section CompareFacts.
Import V1alpha1 SchemaCompare.

Lemma compareTable_step_keeps ft acc e m :
  In m acc -> In m (compareTable_step ft acc e).
Proof.
  intros H. destruct e as [n t]. unfold compareTable_step.
  destruct (ft !! n) as [live|]; [|apply in_or_app; now left].
  destruct (0 <? _); [apply in_or_app; now left|exact H].
Qed.

Lemma compareTables_fold_keeps ft l acc m :
  In m acc -> In m (fold_left (compareTable_step ft) l acc).
Proof.
  revert acc. induction l as [|e l IH]; intros acc H; simpl; [exact H|].
  apply IH. now apply compareTable_step_keeps.
Qed.

Lemma compareTables_fold_reports ft crTables acc name crT liveT :
  In (name, crT) crTables ->
  ft !! name = Some liveT ->
  tableIssues liveT crT <> [] ->
  In ("table " +:+ name +:+ ": " +:+ GoStrings.Join (tableIssues liveT crT) ", ")
     (fold_left (compareTable_step ft) crTables acc).
Proof.
  revert acc.
  induction crTables as [|e l IH]; intros acc Hin Hl Hne; [destruct Hin|].
  destruct Hin as [->|Hin]; simpl.
  - apply compareTables_fold_keeps. unfold compareTable_step. rewrite Hl.
    destruct (Z.ltb_spec 0 (Z.of_nat (length (tableIssues liveT crT)))) as [_|Hlen].
    + apply in_or_app. right. now left.
    + destruct (tableIssues liveT crT); [now elim Hne|simpl in Hlen; lia].
  - now apply IH.
Qed.

(** A declared table whose live counterpart has issues contributes one
    message that lists them. *)
Lemma compareTables_reports ft crTables name crT liveT :
  In (name, crT) crTables ->
  ft !! name = Some liveT ->
  tableIssues liveT crT <> [] ->
  In ("table " +:+ name +:+ ": " +:+ GoStrings.Join (tableIssues liveT crT) ", ")
     (compareTablesWithFivetran ft crTables).
Proof. apply compareTables_fold_reports. Qed.

Lemma tableIssues_enabled_only liveT crT i :
  tbl_SyncMode crT = "" ->
  In i (tableIssues liveT crT) ->
  GoStrings.HasPrefix i "enabled state mismatch" = true.
Proof.
  intros He. unfold tableIssues. rewrite He. simpl.
  destruct (tr_Enabled liveT) as [e|]; [|intros []].
  destruct (negb (Bool.eqb e (tbl_Enabled crT))); [|intros []].
  intros [<-|[]]. reflexivity.
Qed.

End CompareFacts.

(** C8. For a declared table that exists in the live schema: when its
    declared sync-mode is non-empty and the live sync-mode is absent, the
    comparator records the issue "sync mode mismatch: expected <declared>,
    got nil" and returns a message containing "expected <declared>, got nil";
    when the live sync-mode is present but different the issue names the
    live value instead (another text, unless that value reads "nil"); when the declared sync-mode is empty every issue of
    the table is an enabled-state issue.  On live sync_mode=nil against
    declared SOFT_DELETE the result is matches=false with a report
    containing "expected SOFT_DELETE, got nil". *)
Theorem sync_mode_absent_is_reported :
  forall (fivetranTables : gmap string SchemaCompare.TableResponse)
         (crTables : list (string * V1alpha1.TableObject))
         (name : string) (crT : V1alpha1.TableObject)
         (liveT : SchemaCompare.TableResponse),
    In (name, crT) crTables ->
    fivetranTables !! name = Some liveT ->
    let declared := V1alpha1.tbl_SyncMode crT in
    (declared <> "" -> SchemaCompare.tr_SyncMode liveT = None ->
       In ("sync mode mismatch: expected " +:+ declared +:+ ", got nil")
          (SchemaCompare.tableIssues liveT crT) /\
       exists msg,
         In msg (SchemaCompare.compareTablesWithFivetran fivetranTables crTables) /\
         GoStrings.Contains msg ("expected " +:+ declared +:+ ", got nil") = true) /\
    (declared <> "" ->
     forall m, SchemaCompare.tr_SyncMode liveT = Some m -> m <> declared ->
       In ("sync mode mismatch: expected " +:+ declared +:+ ", got " +:+ m)
          (SchemaCompare.tableIssues liveT crT) /\
       (m <> "nil" ->
        "sync mode mismatch: expected " +:+ declared +:+ ", got " +:+ m
        <> "sync mode mismatch: expected " +:+ declared +:+ ", got nil")) /\
    (declared = "" ->
     forall i, In i (SchemaCompare.tableIssues liveT crT) ->
       GoStrings.HasPrefix i "enabled state mismatch" = true) /\
    (let r := SchemaCompare.CompareSchemaWithCR CompareScenario.live
                (Some CompareScenario.declared) in
     fst r = false /\
     GoStrings.Contains (SchemaCompare.SchemaMismatch_String (snd r))
                        "expected SOFT_DELETE, got nil" = true).
Proof.
  intros ft crTables name crT liveT Hin Hl declared.
  assert (Hnil : declared <> "" -> SchemaCompare.tr_SyncMode liveT = None ->
                 In ("sync mode mismatch: expected " +:+ declared +:+ ", got nil")
                    (SchemaCompare.tableIssues liveT crT)).
  { intros Hne Hn. unfold SchemaCompare.tableIssues. fold declared.
    destruct (String.eqb_spec declared ""); [contradiction|]. simpl negb. cbv iota.
    rewrite Hn. apply in_or_app. right. now left. }
  split; [|split; [|split; [|split]]].
  - intros Hne Hn. specialize (Hnil Hne Hn). split; [exact Hnil|].
    eexists. split.
    + apply (compareTables_reports ft crTables name crT liveT Hin Hl).
      intros E. rewrite E in Hnil. destruct Hnil.
    + apply Contains_app_r, Contains_app_r, Contains_app_r.
      eapply Contains_Join; [exact Hnil|].
      apply (Contains_suffix "sync mode mismatch: ").
  - intros Hne m Hm Hd. split.
    + unfold SchemaCompare.tableIssues. fold declared.
      destruct (String.eqb_spec declared ""); [contradiction|]. simpl negb. cbv iota.
      rewrite Hm. destruct (String.eqb_spec m declared); [contradiction|].
      simpl negb. cbv iota. apply in_or_app. right. now left.
    + intros Hnil' Heq. apply Hnil'.
      apply (append_cancel_l "sync mode mismatch: expected ") in Heq.
      apply append_cancel_l in Heq.
      now apply (append_cancel_l ", got ") in Heq.
  - intros He i Hi. now apply (tableIssues_enabled_only liveT crT).
  - vm_compute. reflexivity.
  - vm_compute. reflexivity.
Qed.

Lemma sync_mode_absent_is_reported_witness :
  let crT := CompareScenario.declared_table in
  let liveT := {| SchemaCompare.tr_Enabled := Some true;
                  SchemaCompare.tr_SyncMode := None |} in
  In "sync mode mismatch: expected SOFT_DELETE, got nil"
     (SchemaCompare.tableIssues liveT crT).
Proof.
  intros crT liveT.
  refine (proj1 (proj1 (sync_mode_absent_is_reported
            {[ "test_table" := liveT ]} [("test_table", crT)] "test_table" crT liveT
            _ _) _ _)).
  - left. reflexivity.
  - vm_compute. reflexivity.
  - discriminate.
  - reflexivity.
Defined.

(* --------------------------------------------------------------------- *)
(** ** The encoder's key order *)
(* --------------------------------------------------------------------- *)

Section SortKeys.
Import GoJSON KeyOrder.
Context {V : Type}.
Implicit Types a b c e : string * V.

Lemma key_ltb_lt (a b : string) : key_ltb a b = true <-> OrdersEx.String_as_OT.lt a b.
Proof.
  unfold key_ltb, OrdersEx.String_as_OT.lt.
  destruct (OrdersEx.String_as_OT.compare a b); split; congruence.
Qed.

Lemma key_not_ltb (a b : string) :
  key_ltb a b = false -> a <> b -> OrdersEx.String_as_OT.lt b a.
Proof.
  unfold key_ltb. intros H Hne.
  destruct (OrdersEx.String_as_OT.compare_spec a b) as [E|L|G];
    [contradiction|discriminate|exact G].
Qed.

Lemma ltk_trans (a b c : string * V) : ltk a b -> ltk b c -> ltk a c.
Proof.
  unfold ltk.
  apply (@StrictOrder_Transitive _ _ OrdersEx.String_as_OT.lt_strorder).
Qed.

Lemma ltk_asym (a b : string * V) : ltk a b -> ltk b a -> a = b.
Proof.
  intros H1 H2. exfalso.
  apply (@StrictOrder_Irreflexive _ _ OrdersEx.String_as_OT.lt_strorder (fst a)).
  exact (@StrictOrder_Transitive _ _ OrdersEx.String_as_OT.lt_strorder _ _ _ H1 H2).
Qed.

Lemma insert_entry_perm (e : string * V) l : Permutation (insert_entry e l) (e :: l).
Proof.
  induction l as [|e' l IH]; simpl; [reflexivity|].
  destruct (key_ltb (fst e') (fst e)); [|reflexivity].
  rewrite IH. apply perm_swap.
Qed.

Lemma sort_keys_perm (l : list (string * V)) : Permutation (sort_keys l) l.
Proof.
  induction l as [|e l IH]; simpl; [reflexivity|].
  rewrite insert_entry_perm. now apply perm_skip.
Qed.

Lemma insert_entry_sorted (e : string * V) l :
  StronglySorted ltk l -> ~ In (fst e) (map fst l) ->
  StronglySorted ltk (insert_entry e l).
Proof.
  induction 1 as [|e' l Hs IH Hall]; intros Hnin; simpl.
  - constructor; constructor.
  - destruct (key_ltb (fst e') (fst e)) eqn:E.
    + constructor.
      * apply IH. intros Hin. apply Hnin. now right.
      * eapply Permutation_Forall; [symmetry; apply insert_entry_perm|].
        constructor; [now apply key_ltb_lt|exact Hall].
    + assert (Hlt : ltk e e').
      { apply key_not_ltb; [exact E|]. intros Heq. apply Hnin. left. exact Heq. }
      constructor; [now constructor|].
      constructor; [exact Hlt|].
      eapply Forall_impl; [exact Hall|]. intros x Hx. now apply (ltk_trans e e' x).
Qed.

Lemma sort_keys_sorted (l : list (string * V)) :
  NoDup (map fst l) -> StronglySorted ltk (sort_keys l).
Proof.
  induction l as [|e l IH]; simpl; intros Hnd; [constructor|].
  inversion Hnd as [|k ks Hnin Hnd']; subst.
  apply insert_entry_sorted; [now apply IH|].
  intros Hin. apply Hnin. apply list_elem_of_In.
  eapply Permutation_in; [|exact Hin].
  apply Permutation_map, sort_keys_perm.
Qed.

(** The encoder writes a map the same way whatever order its entries
    come in. *)
Lemma sort_keys_order_irrelevant (l1 l2 : list (string * V)) :
  Permutation l1 l2 -> NoDup (map fst l1) -> sort_keys l1 = sort_keys l2.
Proof.
  intros Hp Hnd.
  apply (StronglySorted_unique_strong ltk).
  - intros x1 x2 _ _. apply ltk_asym.
  - now apply sort_keys_sorted.
  - apply sort_keys_sorted.
    assert (Hm : Permutation (map fst l1) (map fst l2)) by now apply Permutation_map.
    now rewrite <- Hm.
  - rewrite !sort_keys_perm. exact Hp.
Qed.

End SortKeys.

Section MarshalMap.
Import GoJSON KeyOrder.
Context {V : Type} (enc : V -> string).

Local Abbreviation same_entry := (KeyOrder.same_entry enc).

Lemma insert_entry_same e1 e2 l1 l2 :
  same_entry e1 e2 -> Forall2 same_entry l1 l2 ->
  Forall2 same_entry (insert_entry e1 l1) (insert_entry e2 l2).
Proof.
  intros He Hl. induction Hl as [|a b l1 l2 Hab Hl IH]; simpl.
  - constructor; [exact He|constructor].
  - destruct He as [Hk Hv], Hab as [Hk' Hv']. rewrite <- Hk, <- Hk'.
    destruct (key_ltb (fst a) (fst e1)).
    + constructor; [now split|exact IH].
    + constructor; [now split|]. constructor; [now split|exact Hl].
Qed.

Lemma sort_keys_same l1 l2 :
  Forall2 same_entry l1 l2 -> Forall2 same_entry (sort_keys l1) (sort_keys l2).
Proof.
  induction 1 as [|a b l1 l2 Hab Hl IH]; simpl; [constructor|].
  now apply insert_entry_same.
Qed.

Lemma encode_entries_same l1 l2 :
  Forall2 same_entry l1 l2 ->
  map (fun kv => quote (fst kv) +:+ ":" +:+ enc (snd kv)) l1 =
  map (fun kv => quote (fst kv) +:+ ":" +:+ enc (snd kv)) l2.
Proof.
  induction 1 as [|a b l1 l2 [Hk Hv] Hl IH]; simpl; [reflexivity|].
  now rewrite Hk, Hv, IH.
Qed.

Lemma Forall2_same_entry (R : V -> V -> Prop) l1 l2 :
  (forall e v', In e l1 -> R (snd e) v' -> enc (snd e) = enc v') ->
  Forall2 (fun a b => fst a = fst b /\ R (snd a) (snd b)) l1 l2 ->
  Forall2 same_entry l1 l2.
Proof.
  intros Henc HF. induction HF as [|a b l1 l2 [Hk Hv] Hl IH]; [constructor|].
  constructor.
  - split; [exact Hk|]. apply Henc; [now left|exact Hv].
  - apply IH. intros e v' Hin. apply Henc. now right.
Qed.

Lemma marshal_map_equiv (R : V -> V -> Prop) m1 m2 :
  MapEquiv R m1 m2 -> UniqueKeys m1 ->
  (forall e v', In e m1 -> R (snd e) v' -> enc (snd e) = enc v') ->
  marshal_map enc m1 = marshal_map enc m2.
Proof.
  intros (m1' & Hp & HF) Hnd Henc. unfold marshal_map.
  rewrite (sort_keys_order_irrelevant m1 m1' Hp Hnd).
  rewrite (encode_entries_same (sort_keys m1') (sort_keys m2)); [reflexivity|].
  apply sort_keys_same, (Forall2_same_entry R); [|exact HF].
  intros e v' Hin. apply Henc. eapply Permutation_in; [symmetry; exact Hp|exact Hin].
Qed.

Lemma omitempty_map_equiv (R : V -> V -> Prop) name m1 m2 :
  MapEquiv R m1 m2 -> UniqueKeys m1 ->
  (forall e v', In e m1 -> R (snd e) v' -> enc (snd e) = enc v') ->
  V1alpha1.omitempty_map name enc m1 = V1alpha1.omitempty_map name enc m2.
Proof.
  intros He Hnd Henc. pose proof (marshal_map_equiv R m1 m2 He Hnd Henc) as Hm.
  destruct He as (m1' & Hp & HF).
  destruct m1 as [|a m1].
  - apply Permutation_nil in Hp. subst m1'. inversion HF. reflexivity.
  - destruct m1' as [|a' m1'']; [symmetry in Hp; now apply Permutation_nil_cons in Hp|].
    inversion HF; subst. unfold V1alpha1.omitempty_map. now rewrite Hm.
Qed.

End MarshalMap.

Section FingerprintFacts.
Import V1alpha1 KeyOrder Fingerprint.

Lemma marshal_TableObject_equiv t1 t2 :
  TableWF t1 -> TableEquiv t1 t2 -> marshal_TableObject t1 = marshal_TableObject t2.
Proof.
  intros Hwf (He & Hs & Hc). unfold marshal_TableObject. rewrite He, Hs.
  rewrite (omitempty_map_equiv marshal_ColumnObject ColumnEquiv "columns" _ _ Hc Hwf);
    [reflexivity|].
  intros e v' _ Heq. now rewrite Heq.
Qed.

Lemma marshal_SchemaObject_equiv s1 s2 :
  SchemaWF s1 -> SchemaEquiv s1 s2 -> marshal_SchemaObject s1 = marshal_SchemaObject s2.
Proof.
  intros [Hnd Hall] (He & Ht). unfold marshal_SchemaObject. rewrite He.
  rewrite (omitempty_map_equiv marshal_TableObject TableEquiv "tables" _ _ Ht Hnd);
    [reflexivity|].
  intros e v' Hin Heq. apply marshal_TableObject_equiv; [|exact Heq].
  rewrite List.Forall_forall in Hall. now apply (Hall e).
Qed.

Lemma marshal_ConnectorSchemaConfig_equiv c1 c2 :
  ConfigWF c1 -> ConfigEquiv c1 c2 ->
  marshal_ConnectorSchemaConfig c1 = marshal_ConnectorSchemaConfig c2.
Proof.
  intros [Hnd Hall] (Hh & Hs). unfold marshal_ConnectorSchemaConfig. rewrite Hh.
  rewrite (omitempty_map_equiv marshal_SchemaObject SchemaEquiv "schemas" _ _ Hs Hnd);
    [reflexivity|].
  intros e v' Hin Heq. apply marshal_SchemaObject_equiv; [|exact Heq].
  rewrite List.Forall_forall in Hall. now apply (Hall e).
Qed.

End FingerprintFacts.

(** The model of md5.Sum on the test vectors of RFC 1321. *)
Example md5_empty : MD5.hexdigest "" = "d41d8cd98f00b204e9800998ecf8427e".
Proof. vm_compute. reflexivity. Qed.

Example md5_abc : MD5.hexdigest "abc" = "900150983cd24fb0d6963f7d28e17f72".
Proof. vm_compute. reflexivity. Qed.

Example md5_two_blocks :
  MD5.hexdigest
    "12345678901234567890123456789012345678901234567890123456789012345678901234567890"
  = "57edf4a22be3c955ac49da2e2107b67a".
Proof. vm_compute. reflexivity. Qed.

(** C1 (as stated, refuted).  Two resources whose connector configuration
    documents have the same members in a different order get different
    connector fingerprints. *)
Lemma connector_fingerprint_depends_on_key_order :
  Permutation FingerprintScenario.members_ab FingerprintScenario.members_ba /\
  fst (Fingerprint.calculateConnectorHash
         (KeyOrder.connector_with_config (GoJSON.JObject FingerprintScenario.members_ab)))
  <> fst (Fingerprint.calculateConnectorHash
            (KeyOrder.connector_with_config (GoJSON.JObject FingerprintScenario.members_ba))).
Proof.
  split.
  - apply perm_swap.
  - vm_compute. discriminate.
Qed.

(** C1 (amended).  The schema fingerprint is invariant under reordering of
    the entries of the schema, table and column maps, and the connector
    fingerprint is a function of the serialized connector subtree, in which
    the configuration and authorization documents keep the key order they
    are written in. *)
Theorem schema_fingerprint_ignores_entry_order :
  (forall (conn1 conn2 : V1alpha1.FivetranConnector)
          (s1 s2 : V1alpha1.ConnectorSchemaConfig),
      V1alpha1.ConnectorSchemas (V1alpha1.Spec conn1) = Some s1 ->
      V1alpha1.ConnectorSchemas (V1alpha1.Spec conn2) = Some s2 ->
      KeyOrder.ConfigWF s1 ->
      KeyOrder.ConfigEquiv s1 s2 ->
      Fingerprint.calculateSchemaHash conn1 = Fingerprint.calculateSchemaHash conn2) /\
  (forall conn1 conn2 : V1alpha1.FivetranConnector,
      V1alpha1.marshal_Connector (V1alpha1.spec_Connector (V1alpha1.Spec conn1)) =
      V1alpha1.marshal_Connector (V1alpha1.spec_Connector (V1alpha1.Spec conn2)) ->
      Fingerprint.calculateConnectorHash conn1 = Fingerprint.calculateConnectorHash conn2).
Proof.
  split.
  - intros conn1 conn2 s1 s2 H1 H2 Hwf He. unfold Fingerprint.calculateSchemaHash.
    rewrite H1, H2. now rewrite (marshal_ConnectorSchemaConfig_equiv s1 s2 Hwf He).
  - intros conn1 conn2 H. unfold Fingerprint.calculateConnectorHash. now rewrite H.
Qed.

Lemma schema_fingerprint_ignores_entry_order_witness :
  Fingerprint.calculateSchemaHash
    (KeyOrder.connector_with_schemas FingerprintScenario.schemas_1)
  = Fingerprint.calculateSchemaHash
      (KeyOrder.connector_with_schemas FingerprintScenario.schemas_2).
Proof.
  apply (proj1 schema_fingerprint_ignores_entry_order
           (KeyOrder.connector_with_schemas FingerprintScenario.schemas_1)
           (KeyOrder.connector_with_schemas FingerprintScenario.schemas_2)
           FingerprintScenario.schemas_1 FingerprintScenario.schemas_2
           eq_refl eq_refl).
  - (* no key occurs twice, at any level *)
    unfold KeyOrder.ConfigWF, KeyOrder.SchemaWF, KeyOrder.TableWF, KeyOrder.UniqueKeys.
    simpl. repeat split; repeat constructor;
      rewrite ?list_elem_of_In; simpl; intuition discriminate.
  - (* the second subtree is the first one with its entries reordered *)
    split; [reflexivity|].
    exists (rev (V1alpha1.Schemas FingerprintScenario.schemas_1)).
    split; [apply perm_swap|].
    constructor; [split; [reflexivity|]|].
    + split; [reflexivity|]. exists []. split; constructor.
    + constructor; [|constructor]. split; [reflexivity|].
      split; [reflexivity|].
      eexists. split; [apply perm_swap|].
      constructor; [split; [reflexivity|]|].
      * split; [reflexivity|]. split; [reflexivity|]. exists []. split; constructor.
      * constructor; [|constructor]. split; [reflexivity|].
        split; [reflexivity|]. split; [reflexivity|].
        eexists. split; [apply perm_swap|].
        repeat constructor.
Defined.

(* --------------------------------------------------------------------- *)
(** ** Schema builder *)
(* --------------------------------------------------------------------- *)

Section BuilderFacts.
Import Builder.

Lemma AddTable_usable b schema table enabled syncMode :
  usable b schema -> schema <> "" -> table <> "" ->
  usable (AddTable b schema table enabled syncMode) schema.
Proof.
  intros [He [s Hs]] Hs0 Ht0. unfold AddTable. rewrite He.
  destruct (String.eqb_spec schema ""); [contradiction|].
  destruct (String.eqb_spec table ""); [contradiction|]. simpl. rewrite Hs.
  split; [exact He|]. simpl. rewrite lookup_insert_eq. eauto.
Qed.

Lemma AddColumn_usable b schema table column enabled hashed pk :
  usable b schema -> schema <> "" -> table <> "" -> column <> "" ->
  usable (AddColumn b schema table column enabled hashed pk) schema.
Proof.
  intros [He [s Hs]] Hs0 Ht0 Hc0. unfold AddColumn. rewrite He.
  destruct (String.eqb_spec schema ""); [contradiction|].
  destruct (String.eqb_spec table ""); [contradiction|].
  destruct (String.eqb_spec column ""); [contradiction|]. simpl. rewrite Hs.
  split; [exact He|]. simpl. rewrite lookup_insert_eq. eauto.
Qed.

(** Whatever the builder held for the table, after [AddColumn] it holds a
    table configuration with the new column and nothing else. *)
Lemma AddColumn_installs_fresh_table b schema table column enabled hashed pk :
  usable b schema -> schema <> "" -> table <> "" -> column <> "" ->
  built_table (AddColumn b schema table column enabled hashed pk) schema table
  = Some {| tc_enabled := None;
            tc_syncMode := None;
            tc_columns :=
              {[ column := {| cc_enabled := Some enabled; cc_hashed := Some hashed;
                              cc_isPrimaryKey := Some pk |} ]} |}.
Proof.
  intros [He [s Hs]] Hs0 Ht0 Hc0. unfold built_table, Build, AddColumn. rewrite He.
  destruct (String.eqb_spec schema ""); [contradiction|].
  destruct (String.eqb_spec table ""); [contradiction|].
  destruct (String.eqb_spec column ""); [contradiction|]. simpl. rewrite Hs.
  simpl. rewrite He. simpl. rewrite lookup_insert_eq. simpl.
  rewrite lookup_insert_eq. reflexivity.
Qed.

End BuilderFacts.

(** C10.  On a builder without error that knows the schema, and for
    non-empty names: after AddTable followed by AddColumn for the same
    table, Build returns for that table a configuration whose enabled flag
    and sync mode are unset and whose only column is the one just added;
    after a further AddColumn the configuration holds the newest column
    only, the earlier column is gone. *)
Theorem add_column_replaces_table_configuration :
  forall (b : Builder.SchemaBuilder) (schema table column column' : string)
         (tableEnabled : bool) (syncMode : string)
         (enabled hashed pk enabled' hashed' pk' : bool),
    Builder.err b = None ->
    is_Some (Builder.schemas b !! schema) ->
    schema <> "" -> table <> "" -> column <> "" -> column' <> "" ->
    let b1 := Builder.AddTable b schema table tableEnabled syncMode in
    let b2 := Builder.AddColumn b1 schema table column enabled hashed pk in
    let b3 := Builder.AddColumn b2 schema table column' enabled' hashed' pk' in
    Builder.built_table b1 schema table
    = Some {| Builder.tc_enabled := Some tableEnabled;
              Builder.tc_syncMode :=
                if negb (String.eqb syncMode "") then Some syncMode else None;
              Builder.tc_columns := empty |} /\
    snd (Builder.Build b2) = None /\
    Builder.built_table b2 schema table
    = Some {| Builder.tc_enabled := None;
              Builder.tc_syncMode := None;
              Builder.tc_columns :=
                {[ column := {| Builder.cc_enabled := Some enabled;
                                Builder.cc_hashed := Some hashed;
                                Builder.cc_isPrimaryKey := Some pk |} ]} |} /\
    snd (Builder.Build b3) = None /\
    Builder.built_table b3 schema table
    = Some {| Builder.tc_enabled := None;
              Builder.tc_syncMode := None;
              Builder.tc_columns :=
                {[ column' := {| Builder.cc_enabled := Some enabled';
                                 Builder.cc_hashed := Some hashed';
                                 Builder.cc_isPrimaryKey := Some pk' |} ]} |} /\
    (column <> column' ->
     forall t, Builder.built_table b3 schema table = Some t ->
               Builder.tc_columns t !! column = None).
Proof.
  intros b schema table column column' tableEnabled syncMode
         enabled hashed pk enabled' hashed' pk' He Hs Hs0 Ht0 Hc0 Hc0' b1 b2 b3.
  assert (U0 : Builder.usable b schema) by (split; assumption).
  assert (U1 : Builder.usable b1 schema) by now apply AddTable_usable.
  assert (U2 : Builder.usable b2 schema) by now apply AddColumn_usable.
  assert (U3 : Builder.usable b3 schema) by now apply AddColumn_usable.
  assert (T3 := AddColumn_installs_fresh_table b2 schema table column'
                  enabled' hashed' pk' U2 Hs0 Ht0 Hc0').
  fold b3 in T3.
  split; [|split; [|split; [|split; [|split]]]].
  - destruct Hs as [s Hs]. unfold b1, Builder.built_table, Builder.Build, Builder.AddTable.
    rewrite He.
    destruct (String.eqb_spec schema ""); [contradiction|].
    destruct (String.eqb_spec table ""); [contradiction|]. simpl. rewrite Hs.
    simpl. rewrite He. simpl. rewrite lookup_insert_eq. simpl.
    rewrite lookup_insert_eq. reflexivity.
  - unfold Builder.Build. destruct U2 as [-> _]. reflexivity.
  - now apply AddColumn_installs_fresh_table.
  - unfold Builder.Build. destruct U3 as [-> _]. reflexivity.
  - exact T3.
  - intros Hne t Ht. rewrite T3 in Ht. injection Ht as <-. simpl.
    apply lookup_singleton_ne. congruence.
Qed.

Lemma add_column_replaces_table_configuration_witness :
  let b1 := Builder.AddTable BuilderScenario.base "sales" "orders" true "HISTORY" in
  let b2 := Builder.AddColumn b1 "sales" "orders" "id" true false true in
  Builder.built_table b2 "sales" "orders"
  = Some {| Builder.tc_enabled := None;
            Builder.tc_syncMode := None;
            Builder.tc_columns :=
              {[ "id" := {| Builder.cc_enabled := Some true;
                            Builder.cc_hashed := Some false;
                            Builder.cc_isPrimaryKey := Some true |} ]} |}.
Proof.
  intros b1 b2.
  refine (proj1 (proj2 (proj2 (add_column_replaces_table_configuration
            BuilderScenario.base "sales" "orders" "id" "total" true "HISTORY"
            true false true true false false _ _ _ _ _ _)))).
  - reflexivity.
  - vm_compute. eauto.
  - discriminate.
  - discriminate.
  - discriminate.
  - discriminate.
Defined.

(* --------------------------------------------------------------------- *)
(** ** Secret resolver *)
(* --------------------------------------------------------------------- *)

Section VaultFacts.
Import GoJSON VaultOps VaultSpec.

Lemma json_induction (P : json -> Prop) :
  P JNull -> (forall b, P (JBool b)) -> (forall l, P (JNumber l)) ->
  (forall s, P (JString s)) ->
  (forall items, Forall P items -> P (JArray items)) ->
  (forall members, Forall (fun kv => P (snd kv)) members -> P (JObject members)) ->
  forall j, P j.
Proof.
  intros Hnull Hbool Hnum Hstr Harr Hobj.
  fix IH 1. intros [ | b | l | s | items | members ].
  - exact Hnull.
  - apply Hbool.
  - apply Hnum.
  - apply Hstr.
  - apply Harr. induction items as [|x xs IHxs]; constructor; [apply IH|exact IHxs].
  - apply Hobj. induction members as [|[k v] xs IHxs]; constructor; [apply IH|exact IHxs].
Qed.

Lemma fetch_count_app p l1 l2 :
  fetch_count p (l1 ++ l2) = (fetch_count p l1 + fetch_count p l2)%nat.
Proof. induction l1 as [|x l1 IH]; simpl; [reflexivity|]. rewrite IH. lia. Qed.

Lemma Inv_AtMostOnce st : Inv st -> AtMostOnce st.
Proof. intros H p. rewrite (H p). destruct (cache st !! p); lia. Qed.

Lemma Grows_refl st : Grows st st.
Proof. intros p H. exact H. Qed.

Lemma Grows_trans st1 st2 st3 : Grows st1 st2 -> Grows st2 st3 -> Grows st1 st3.
Proof. intros H1 H2 p H. apply H2, H1, H. Qed.

Variable store : Store.

Lemma getPathData_spec path keyPath vaultRef st r st' :
  Inv st -> Sound store st ->
  getPathData store path keyPath vaultRef st = (r, st') ->
  AtMostOnce st' /\ Sound store st' /\
  (forall d, r = inl d ->
     Inv st' /\ Grows st st' /\ cache st' !! path = Some d).
Proof.
  intros HI HS. unfold getPathData.
  destruct (cache st !! path) as [data|] eqn:Hc.
  - intros [= <- <-]. split; [now apply Inv_AtMostOnce|]. split; [exact HS|].
    intros d [= <-]. split; [exact HI|]. split; [apply Grows_refl|exact Hc].
  - assert (Hone : AtMostOnce {| cache := cache st; fetches := fetches st ++ [path] |}).
    { intros p. simpl. rewrite fetch_count_app. simpl. rewrite (HI p).
      destruct (String.eqb_spec path p) as [->|Hne].
      - rewrite Hc. lia.
      - destruct (cache st !! p); lia. }
    destruct (store (fetches st) path) as [e|raw] eqn:Hst.
    + intros [= <- <-]. split; [exact Hone|]. split; [exact HS|]. intros d [=].
    + destruct (extractSecretData raw) as [data|e] eqn:He.
      * intros [= <- <-]. split; [exact Hone|]. split; [|intros d [= <-]; split; [|split]].
        -- intros p d. simpl. destruct (decide (path = p)) as [->|Hne].
           ++ rewrite lookup_insert_eq. intros [= <-]. eauto.
           ++ rewrite lookup_insert_ne by exact Hne. apply HS.
        -- intros p. simpl. rewrite fetch_count_app. simpl. rewrite (HI p).
           destruct (String.eqb_spec path p) as [->|Hne].
           ++ rewrite lookup_insert_eq, Hc. reflexivity.
           ++ rewrite lookup_insert_ne by exact Hne. destruct (cache st !! p); lia.
        -- intros p Hp. simpl. destruct (decide (path = p)) as [->|Hne].
           ++ rewrite lookup_insert_eq. eauto.
           ++ now rewrite lookup_insert_ne.
        -- simpl. apply lookup_insert_eq.
      * destruct (GoError.Is e GoError.ErrSecretDataNil);
          intros [= <- <-]; (split; [exact Hone|]); (split; [exact HS|]); intros d [=].
Qed.

Lemma resolveString_good s : Good store (resolveValue store) (JString s).
Proof.
  intros keyPath st r st' HI HS. cbn [resolveValue]. unfold resolveString.
  destruct (GoStrings.HasPrefix s "vault:") eqn:Hp; simpl negb; cbv iota.
  2:{ intros [= <- <-]. split; [now apply Inv_AtMostOnce|]. split; [exact HS|].
      intros d _. split; [exact HI|]. split; [apply Grows_refl|].
      cbn [refs strings]. rewrite Hp. split; [intros p []|].
      intros s' [<-|[]] [Hpre _]. congruence. }
  destruct (parseVaultReference s) as [[path key]|e] eqn:Hparse.
  2:{ intros [= <- <-]. split; [now apply Inv_AtMostOnce|]. split; [exact HS|].
      intros d [=]. }
  destruct (getPathData store path keyPath s st) as [[secretData|e] st1] eqn:Hg;
    destruct (getPathData_spec _ _ _ _ _ _ HI HS Hg) as (Hone & HS1 & Hok).
  2:{ intros [= <- <-]. split; [exact Hone|]. split; [exact HS1|]. intros d [=]. }
  destruct (Hok secretData eq_refl) as (HI1 & HG & Hcache).
  destruct (lookup_entry key secretData) as [secretValue|] eqn:Hk.
  2:{ intros [= <- <-]. split; [exact Hone|]. split; [exact HS1|]. intros d [=]. }
  intros [= <- <-]. split; [exact Hone|]. split; [exact HS1|].
  intros d _. split; [exact HI1|]. split; [exact HG|].
  cbn [refs strings]. rewrite Hp, Hparse. split.
  - intros p [<-|[]]. rewrite Hcache. eauto.
  - intros s' [<-|[]] [_ Hun]. rewrite Hparse in Hun.
    destruct (HS1 path secretData Hcache) as (h & raw & Hst & Hex).
    specialize (Hun h). rewrite Hst, Hex in Hun. congruence.
Qed.

Lemma resolveMap_good resolve keyPath entries :
  Forall (fun kv => Good store resolve (snd kv)) entries ->
  forall result st r st',
    Inv st -> Sound store st ->
    resolveMap resolve keyPath entries result st = (r, st') ->
    AtMostOnce st' /\ Sound store st' /\
    (forall d, r = inl d ->
       Inv st' /\ Grows st st' /\
       (forall p, In p (flat_map (fun kv => refs (snd kv)) entries) ->
                  is_Some (cache st' !! p)) /\
       (forall s, In s (flat_map (fun kv => strings (snd kv)) entries) ->
                  ~ unresolvable store s)).
Proof.
  induction 1 as [|[key value] rest Hv Hrest IH]; intros result st r st' HI HS; simpl.
  - intros [= <- <-]. split; [now apply Inv_AtMostOnce|]. split; [exact HS|].
    intros d _. split; [exact HI|]. split; [apply Grows_refl|].
    split; intros ? [].
  - destruct (resolve value (buildKeyPath keyPath key) st) as [[resolved|e] st1] eqn:Hr;
      destruct (Hv _ _ _ _ HI HS Hr) as (Hone & HS1 & Hok).
    2:{ intros [= <- <-]. split; [exact Hone|]. split; [exact HS1|]. intros d [=]. }
    destruct (Hok resolved eq_refl) as (HI1 & HG1 & Hrefs1 & Hstr1).
    intros Hloop. destruct (IH _ _ _ _ HI1 HS1 Hloop) as (Hone' & HS' & Hok').
    split; [exact Hone'|]. split; [exact HS'|].
    intros d Hd. destruct (Hok' d Hd) as (HI' & HG' & Hrefs' & Hstr').
    split; [exact HI'|]. split; [now apply (Grows_trans st st1 st')|]. split.
    + intros p Hp. apply in_app_or in Hp. destruct Hp as [Hp|Hp].
      * apply HG', Hrefs1, Hp.
      * apply Hrefs', Hp.
    + intros s Hs. apply in_app_or in Hs. destruct Hs as [Hs|Hs].
      * apply Hstr1, Hs.
      * apply Hstr', Hs.
Qed.

Lemma resolveSlice_good resolve keyPath items :
  Forall (Good store resolve) items ->
  forall i result st r st',
    Inv st -> Sound store st ->
    resolveSlice resolve keyPath items i result st = (r, st') ->
    AtMostOnce st' /\ Sound store st' /\
    (forall d, r = inl d ->
       Inv st' /\ Grows st st' /\
       (forall p, In p (flat_map refs items) -> is_Some (cache st' !! p)) /\
       (forall s, In s (flat_map strings items) -> ~ unresolvable store s)).
Proof.
  induction 1 as [|item rest Hv Hrest IH]; intros i result st r st' HI HS; simpl.
  - intros [= <- <-]. split; [now apply Inv_AtMostOnce|]. split; [exact HS|].
    intros d _. split; [exact HI|]. split; [apply Grows_refl|].
    split; intros ? [].
  - match goal with
    | |- context [resolve item ?kp st] =>
        destruct (resolve item kp st) as [[resolved|e] st1] eqn:Hr
    end;
      destruct (Hv _ _ _ _ HI HS Hr) as (Hone & HS1 & Hok).
    2:{ intros [= <- <-]. split; [exact Hone|]. split; [exact HS1|]. intros d [=]. }
    destruct (Hok resolved eq_refl) as (HI1 & HG1 & Hrefs1 & Hstr1).
    intros Hloop. destruct (IH _ _ _ _ _ HI1 HS1 Hloop) as (Hone' & HS' & Hok').
    split; [exact Hone'|]. split; [exact HS'|].
    intros d Hd. destruct (Hok' d Hd) as (HI' & HG' & Hrefs' & Hstr').
    split; [exact HI'|]. split; [now apply (Grows_trans st st1 st')|]. split.
    + intros p Hp. apply in_app_or in Hp. destruct Hp as [Hp|Hp].
      * apply HG', Hrefs1, Hp.
      * apply Hrefs', Hp.
    + intros s Hs. apply in_app_or in Hs. destruct Hs as [Hs|Hs].
      * apply Hstr1, Hs.
      * apply Hstr', Hs.
Qed.

Lemma resolveValue_good data : Good store (resolveValue store) data.
Proof.
  induction data as [ | b | l | s | items IH | members IH ] using json_induction.
  1-3: intros keyPath st r st' HI HS [= <- <-];
       (split; [now apply Inv_AtMostOnce|]); (split; [exact HS|]);
       intros d _; (split; [exact HI|]); (split; [apply Grows_refl|]);
       split; intros ? [].
  - apply resolveString_good.
  - intros keyPath st r st' HI HS Hr. cbn [resolveValue refs strings] in *.
    exact (resolveSlice_good _ _ _ IH _ _ _ _ _ HI HS Hr).
  - intros keyPath st r st' HI HS Hr. cbn [resolveValue refs strings] in *.
    exact (resolveMap_good _ _ _ IH _ _ _ _ HI HS Hr).
Qed.

Lemma initial_Inv : Inv initial.
Proof. intros p. simpl. now rewrite lookup_empty. Qed.

Lemma initial_Sound : Sound store initial.
Proof. intros p d. simpl. rewrite lookup_empty. discriminate. Qed.

End VaultFacts.

(** C3.  Whenever ResolveSecrets returns an error, the caller's document is
    the one it passed in; an error is returned as soon as the decoded
    document holds one reference that cannot be resolved (bad grammar,
    failing read, no data, missing key), whatever else it holds; and on a
    document with one resolvable and one unresolvable reference the store is
    read, an error comes back and the document is unchanged. *)
Theorem resolve_secrets_fails_fast :
  (forall (store : VaultOps.Store) (rawConfig : option V1alpha1.RawExtension)
          (e : GoError.error),
      snd (fst (VaultOps.ResolveSecrets store rawConfig)) = Some e ->
      fst (fst (VaultOps.ResolveSecrets store rawConfig)) = rawConfig) /\
  (forall (store : VaultOps.Store) (doc : GoJSON.json) (s : string),
      In s (VaultSpec.strings (VaultOps.decode doc)) ->
      VaultSpec.unresolvable store s ->
      exists e,
        fst (VaultOps.ResolveSecrets store (VaultSpec.raw_document doc))
        = (VaultSpec.raw_document doc, Some e)) /\
  (let r := VaultOps.ResolveSecrets VaultScenario.store
              (VaultSpec.raw_document VaultScenario.mixed) in
   fst (fst r) = VaultSpec.raw_document VaultScenario.mixed /\
   (exists e, snd (fst r) = Some e) /\
   VaultOps.fetches (snd r) = ["db/creds"; "missing/path"]).
Proof.
  split; [|split].
  - intros store rawConfig e. unfold VaultOps.ResolveSecrets.
    destruct rawConfig as [[[[|doc]|]]|]; simpl; try discriminate; try reflexivity.
    destruct (VaultOps.resolveValue store (VaultOps.decode doc) "" VaultOps.initial)
      as [[d|e'] st]; simpl; [discriminate|reflexivity].
  - intros store doc s Hin Hun. unfold VaultOps.ResolveSecrets, VaultSpec.raw_document. simpl.
    destruct (VaultOps.resolveValue store (VaultOps.decode doc) "" VaultOps.initial)
      as [[d|e'] st] eqn:Hr; simpl; [|eauto].
    exfalso.
    destruct (resolveValue_good store _ _ _ _ _ initial_Inv (initial_Sound store) Hr)
      as (_ & _ & Hok).
    destruct (Hok d eq_refl) as (_ & _ & _ & Hstr).
    exact (Hstr s Hin Hun).
  - vm_compute. split; [reflexivity|]. split; [eauto|reflexivity].
Qed.

Lemma resolve_secrets_fails_fast_witness :
  exists e,
    fst (VaultOps.ResolveSecrets VaultScenario.store
           (VaultSpec.raw_document VaultScenario.mixed))
    = (VaultSpec.raw_document VaultScenario.mixed, Some e).
Proof.
  apply (proj1 (proj2 resolve_secrets_fails_fast) VaultScenario.store
           VaultScenario.mixed "vault:missing/path#token").
  - vm_compute. right. left. reflexivity.
  - split; [reflexivity|]. vm_compute. intros _. exact I.
Defined.

(** C4 (as stated, refuted).  A document may reference a path that is never
    read: the pass stops at the first failing reference. *)
Lemma referenced_path_not_fetched_after_failure :
  In "db/creds" (VaultOps.refs (VaultOps.decode VaultScenario.failing_first)) /\
  VaultOps.fetch_count "db/creds"
    (VaultOps.fetches
       (snd (VaultOps.ResolveSecrets VaultScenario.store
               (VaultSpec.raw_document VaultScenario.failing_first)))) = 0%nat.
Proof. split; [vm_compute; right; left; reflexivity|vm_compute; reflexivity]. Qed.

(** C4 (amended).  In one call to ResolveSecrets no path is read from the
    store more than once, and when the call succeeds every path referenced
    by the decoded document was read exactly once. *)
Theorem one_store_fetch_per_path :
  forall (store : VaultOps.Store) (rawConfig : option V1alpha1.RawExtension),
    let r := VaultOps.ResolveSecrets store rawConfig in
    (forall p, (VaultOps.fetch_count p (VaultOps.fetches (snd r)) <= 1)%nat) /\
    (snd (fst r) = None ->
     forall doc, rawConfig = VaultSpec.raw_document doc ->
     forall p, In p (VaultOps.refs (VaultOps.decode doc)) ->
               VaultOps.fetch_count p (VaultOps.fetches (snd r)) = 1%nat).
Proof.
  intros store rawConfig r. subst r. unfold VaultOps.ResolveSecrets.
  destruct rawConfig as [[[[|doc]|]]|]; simpl.
  1,3,4: split; [intros p; simpl; lia|];
         intros _ doc' Heq; unfold VaultSpec.raw_document in Heq; discriminate.
  destruct (VaultOps.resolveValue store (VaultOps.decode doc) "" VaultOps.initial)
    as [[d|e'] st] eqn:Hr; simpl;
    destruct (resolveValue_good store _ _ _ _ _ initial_Inv (initial_Sound store) Hr)
      as (Hone & _ & Hok).
  - split; [exact Hone|]. intros _ doc' [= <-] p Hp.
    destruct (Hok d eq_refl) as (HI & _ & Hrefs & _).
    rewrite (HI p). destruct (Hrefs p Hp) as [x ->]. reflexivity.
  - split; [exact Hone|]. discriminate.
Qed.

Lemma one_store_fetch_per_path_witness :
  VaultOps.fetch_count "db/creds"
    (VaultOps.fetches
       (snd (VaultOps.ResolveSecrets VaultScenario.store
               (VaultSpec.raw_document VaultScenario.repeated)))) = 1%nat.
Proof.
  apply (proj2 (one_store_fetch_per_path VaultScenario.store
                  (VaultSpec.raw_document VaultScenario.repeated))
           eq_refl VaultScenario.repeated eq_refl "db/creds").
  vm_compute. left. reflexivity.
Defined.

(* --------------------------------------------------------------------- *)
(** ** Schema drift recovery *)
(* --------------------------------------------------------------------- *)

Section DriftFacts.
Import V1alpha1 Provider Services Controller DriftSpec.

Local Arguments SchemaCompare.CompareSchemaWithCR : simpl never.
Local Arguments Fingerprint.calculateSchemaHash : simpl never.

Lemma reconcileSchema_stages connectorID env w :
  reconcileSchema connectorID env w =
  match applyAndFetch connectorID env w with
  | (inr e, w1) => (Some e, w1)
  | (inl details, w1) =>
      if fst (SchemaCompare.CompareSchemaWithCR details (ConnectorSchemas (Spec (obj w1))))
      then setCondition conditionTypeSchemaReady ConditionTrue
                        SchemaReasonReconciliationSuccess msgSchemaReady env w1
      else match retryOnce connectorID env w1 with
           | (Some e, w2) => (Some e, w2)
           | (None, w2) =>
               setCondition conditionTypeSchemaReady ConditionTrue
                            SchemaReasonReconciliationSuccess msgSchemaReady env w2
           end
  end.
Proof.
  unfold reconcileSchema, applyAndFetch, bind, ret, get_obj.
  repeat (break_match; simpl in *; try congruence).
Qed.

Lemma applyAndFetch_spec connectorID env w r w1 :
  applyAndFetch connectorID env w = (r, w1) -> Spec (obj w1) = Spec (obj w).
Proof.
  unfold applyAndFetch, applySchema, updateSchemaHash, reloadSchema, UpdateSchema,
    GetSchemaDetails, ReloadSchema, Update, call, set_obj, bind, ret, get_obj.
  repeat (break_match; simpl in *; try congruence);
    intros [= <- <-]; reflexivity.
Qed.

Lemma retryOnce_second_mismatch connectorID env w1 cfg details2 :
  ConnectorSchemas (Spec (obj w1)) = Some cfg ->
  cycle_succeeds env (history w1) connectorID cfg (obj w1) details2 ->
  fst (SchemaCompare.CompareSchemaWithCR details2 (Some cfg)) = false ->
  retryOnce connectorID env w1
  = (Some (mismatch_after_retry
             (snd (SchemaCompare.CompareSchemaWithCR details2 (Some cfg)))),
     {| history := history w1 ++ cycle connectorID cfg (obj w1);
        obj := with_schema_hash (obj w1) |}).
Proof.
  intros Hcfg (b & Hb & Hbuild & Hreload & Hupdate & Hk8s & Hdetails) Hmis.
  unfold cycle in *. rewrite Hb in *. simpl firstn in *.
  unfold retryOnce, applySchema, updateSchemaHash, reloadSchema, UpdateSchema,
    GetSchemaDetails, ReloadSchema, Update, call, set_obj, bind, ret, get_obj.
  cbn. rewrite Hcfg. fold (excludeMode cfg).
  destruct (reply_SchemaReload env (history w1) connectorID (excludeMode cfg))
    as [resp1 e1]. cbn [snd] in Hreload. subst e1. cbn. rewrite Hcfg, Hb.
  unfold with_schema_hash, Fingerprint.calculateSchemaHash in *.
  rewrite Hcfg in Hk8s, Hdetails |- *. cbn [fst] in Hk8s, Hdetails |- *.
  destruct (Builder.Build b) as [[schemas handling] o].
  cbn [fst snd] in Hbuild, Hupdate, Hk8s, Hdetails. subst o.
  destruct (reply_SchemaUpdate env _ connectorID (if_nonempty handling) schemas)
    as [resp2 e2]. cbn [snd] in Hupdate. subst e2. cbn.
  rewrite Hcfg. cbn.
  rewrite <- ?app_assoc. cbn [app]. rewrite Hk8s.
  cbv beta iota. cbn [history obj]. rewrite <- ?app_assoc. cbn [app].
  rewrite Hdetails. cbn. rewrite Hcfg.
  destruct (SchemaCompare.CompareSchemaWithCR details2 (Some cfg)) as [m report].
  cbn [fst] in Hmis. subst m. cbn. rewrite <- ?app_assoc. reflexivity.
Qed.

Lemma retryOnce_calls connectorID env w1 cfg r w2 :
  ConnectorSchemas (Spec (obj w1)) = Some cfg ->
  retryOnce connectorID env w1 = (r, w2) ->
  exists calls,
    history w2 = history w1 ++ calls /\
    count is_reload calls = 1%nat /\
    (count is_schema_update calls <= 1)%nat /\
    (count is_schema_details calls <= 1)%nat.
Proof.
  intros Hcfg.
  unfold retryOnce, applySchema, updateSchemaHash, reloadSchema, UpdateSchema,
    GetSchemaDetails, ReloadSchema, Update, call, set_obj, bind, ret, get_obj.
  cbn. rewrite Hcfg.
  repeat (break_match; cbn in *; try congruence);
    intros [= <- <-]; cbn; rewrite <- ?app_assoc;
    (eexists; split; [reflexivity|cbn; lia]).
Qed.

Lemma setCondition_calls conditionType status reason message env w :
  exists c,
    history (snd (setCondition conditionType status reason message env w))
    = history w ++ [c] /\
    is_reload c = false /\ is_schema_update c = false /\ is_schema_details c = false.
Proof.
  unfold setCondition, StatusUpdate, call, set_obj, bind, ret, get_obj. cbn.
  eexists. split; [reflexivity|]. repeat split.
Qed.

Lemma count_app f l1 l2 : count f (l1 ++ l2) = (count f l1 + count f l2)%nat.
Proof. induction l1 as [|c l1 IH]; cbn; [reflexivity|]. rewrite IH. lia. Qed.

Lemma handleError_mismatch conditionType reason e env w :
  GoError.Is e GoError.ErrSchemaMismatchAfterRetry = true ->
  handleError conditionType reason e env w
  = (Result_zero,
     fst (setCondition conditionType ConditionFalse reason (GoError.Error e) env w),
     snd (setCondition conditionType ConditionFalse reason (GoError.Error e) env w)).
Proof.
  intros H. unfold handleError. rewrite H. unfold bind, ret.
  destruct (setCondition conditionType ConditionFalse reason (GoError.Error e) env w).
  reflexivity.
Qed.

End DriftFacts.

(** C2.  When the comparison after the apply mismatches, reconcileSchema
    runs one recovery cycle and no more: the calls it makes from there
    contain exactly one reload, at most one schema update and at most one
    fetch.  When every call of that cycle succeeds and the second comparison
    mismatches too, reconcileSchema stops right after the cycle's fetch and
    returns the mismatch-after-retry error, whose message carries the second
    report.  handleError answers such an error with the zero Result (no
    requeue) and returns only the outcome of writing the failure
    condition. *)
Theorem drift_recovery_runs_once :
  forall (env : Provider.Env) (w : Provider.World) (connectorID : string)
         (cfg : V1alpha1.ConnectorSchemaConfig)
         (details : SchemaCompare.ConnectionSchemaDetailsResponse)
         (w1 : Provider.World),
    V1alpha1.ConnectorSchemas (V1alpha1.Spec (Provider.obj w)) = Some cfg ->
    DriftSpec.applyAndFetch connectorID env w = (inl details, w1) ->
    fst (SchemaCompare.CompareSchemaWithCR details (Some cfg)) = false ->
    (exists calls,
        Provider.history (snd (Controller.reconcileSchema connectorID env w))
        = Provider.history w1 ++ calls /\
        DriftSpec.count DriftSpec.is_reload calls = 1%nat /\
        (DriftSpec.count DriftSpec.is_schema_update calls <= 1)%nat /\
        (DriftSpec.count DriftSpec.is_schema_details calls <= 1)%nat) /\
    (forall details2,
        DriftSpec.cycle_succeeds env (Provider.history w1) connectorID cfg
                                 (Provider.obj w1) details2 ->
        fst (SchemaCompare.CompareSchemaWithCR details2 (Some cfg)) = false ->
        Controller.reconcileSchema connectorID env w
        = (Some (DriftSpec.mismatch_after_retry
                   (snd (SchemaCompare.CompareSchemaWithCR details2 (Some cfg)))),
           {| Provider.history :=
                Provider.history w1 ++ DriftSpec.cycle connectorID cfg (Provider.obj w1);
              Provider.obj := DriftSpec.with_schema_hash (Provider.obj w1) |})) /\
    (forall (report : SchemaCompare.SchemaMismatch) (env' : Provider.Env)
            (w' : Provider.World),
        let e := DriftSpec.mismatch_after_retry report in
        let failed :=
          Controller.setCondition Controller.conditionTypeSchemaReady
            V1alpha1.ConditionFalse Controller.SchemaReasonReconciliationFailed
            (GoError.Error e) env' w' in
        GoStrings.Contains (GoError.Error e)
                           (SchemaCompare.SchemaMismatch_String report) = true /\
        Controller.handleError Controller.conditionTypeSchemaReady
          Controller.SchemaReasonReconciliationFailed e env' w'
        = (Controller.Result_zero, fst failed, snd failed)).
Proof.
  intros env w connectorID cfg details w1 Hcfg Happly Hmis.
  assert (Hcfg1 : V1alpha1.ConnectorSchemas (V1alpha1.Spec (Provider.obj w1)) = Some cfg).
  { rewrite (applyAndFetch_spec _ _ _ _ _ Happly). exact Hcfg. }
  split; [|split].
  - rewrite reconcileSchema_stages, Happly, Hcfg1, Hmis.
    destruct (Controller.retryOnce connectorID env w1) as [r w2] eqn:Hr.
    destruct (retryOnce_calls _ _ _ _ _ _ Hcfg1 Hr) as (calls & Hh & H1 & H2 & H3).
    destruct r as [e|].
    + exists calls. simpl. auto.
    + destruct (setCondition_calls Controller.conditionTypeSchemaReady
                  V1alpha1.ConditionTrue Controller.SchemaReasonReconciliationSuccess
                  Controller.msgSchemaReady env w2) as (c & Hc & Hr1 & Hr2 & Hr3).
      exists (calls ++ [c]). rewrite Hc, Hh, <- app_assoc.
      split; [reflexivity|]. rewrite !count_app. cbn. rewrite Hr1, Hr2, Hr3. lia.
  - intros details2 Hcycle Hmis2.
    rewrite reconcileSchema_stages, Happly, Hcfg1, Hmis.
    now rewrite (retryOnce_second_mismatch _ _ _ _ _ Hcfg1 Hcycle Hmis2).
  - intros report env' w' e failed. split.
    + unfold e, DriftSpec.mismatch_after_retry. cbn [GoError.Error].
      apply Contains_app_l.
      apply (Contains_infix "reconcileSchema compareSchemaWithCR retry: mismatches: ").
    + apply handleError_mismatch. reflexivity.
Qed.

Lemma drift_recovery_runs_once_witness :
  fst (Controller.reconcileSchema "conn_1" DriftScenario.env DriftScenario.start)
  = Some (DriftSpec.mismatch_after_retry
            (snd (SchemaCompare.CompareSchemaWithCR DriftScenario.live
                    (Some DriftScenario.declared)))).
Proof.
  refine (f_equal fst
            (proj1 (proj2
               (drift_recovery_runs_once DriftScenario.env DriftScenario.start "conn_1"
                  DriftScenario.declared DriftScenario.live
                  (snd (DriftSpec.applyAndFetch "conn_1" DriftScenario.env
                          DriftScenario.start))
                  _ _ _))
               DriftScenario.live _ _)).
  - reflexivity.
  - vm_compute. reflexivity.
  - vm_compute. reflexivity.
  - eexists. split; [reflexivity|]. repeat split; vm_compute; reflexivity.
  - vm_compute. reflexivity.
Defined.

(* --------------------------------------------------------------------- *)
(** ** Status conditions *)
(* --------------------------------------------------------------------- *)

Section StatusFacts.
Import V1alpha1 Provider Services Controller StatusSpec.

Lemma find_upsert_same c conditions :
  find_condition (cond_Type c) (upsert c conditions) = Some c.
Proof.
  induction conditions as [|x rest IH]; cbn.
  - now rewrite String.eqb_refl.
  - destruct (String.eqb_spec (cond_Type x) (cond_Type c)) as [E|N]; cbn.
    + now rewrite String.eqb_refl.
    + destruct (String.eqb_spec (cond_Type x) (cond_Type c)); [contradiction|exact IH].
Qed.

Lemma find_upsert_other c conditions conditionType :
  conditionType <> cond_Type c ->
  find_condition conditionType (upsert c conditions)
  = find_condition conditionType conditions.
Proof.
  intros Hne. induction conditions as [|x rest IH]; cbn.
  - destruct (String.eqb_spec (cond_Type c) conditionType); [congruence|reflexivity].
  - destruct (String.eqb_spec (cond_Type x) (cond_Type c)) as [E|N]; cbn.
    + destruct (String.eqb_spec (cond_Type c) conditionType); [congruence|].
      destruct (String.eqb_spec (cond_Type x) conditionType); [congruence|reflexivity].
    + destruct (String.eqb_spec (cond_Type x) conditionType); [reflexivity|exact IH].
Qed.

Lemma setCondition_obj conditionType status reason message env w :
  obj (snd (setCondition conditionType status reason message env w))
  = with_conditions (obj w)
      (upsert {| cond_Type := conditionType; cond_Status := status;
                 cond_Reason := reason; cond_Message := message |}
              (Conditions (Status (obj w)))).
Proof. reflexivity. Qed.

Lemma setCondition_sets conditionType status reason message env w :
  condition_status conditionType
    (obj (snd (setCondition conditionType status reason message env w)))
  = Some status.
Proof.
  rewrite setCondition_obj. unfold condition_status. cbn [Status Conditions with_conditions].
  now rewrite (find_upsert_same {| cond_Type := conditionType; cond_Status := status;
                                   cond_Reason := reason; cond_Message := message |}).
Qed.

Lemma setCondition_keeps conditionType status reason message env w other :
  other <> conditionType ->
  find_condition other
    (Conditions (Status (obj (snd (setCondition conditionType status reason message
                                                env w)))))
  = find_condition other (Conditions (Status (obj w))).
Proof.
  intros Hne. rewrite setCondition_obj. cbn [Status Conditions with_conditions].
  now apply find_upsert_other.
Qed.

(** After a successful create or update the connector is marked ready. *)
Lemma reconcileConnector_ready resolvedConfig resolvedAuth env w id w1 :
  reconcileConnector resolvedConfig resolvedAuth env w = ((id, None), w1) ->
  condition_status conditionTypeConnectorReady (obj w1) = Some ConditionTrue.
Proof.
  unfold reconcileConnector, createConnector, updateConnector, updateConnectorIDStatus,
    updateConnectorHash, CreateConnection, UpdateConnection, bind, ret, get_obj.
  repeat (break_match; try congruence);
    intros [= <- <-];
    match goal with
    | H : setCondition ?a ?b ?c ?d ?e ?w = (_, ?w') |- _ =>
        replace w' with (snd (setCondition a b c d e w)) by (now rewrite H)
    end;
    apply setCondition_sets.
Qed.

Lemma classify_failure tests acc :
  (0 < length (snd acc))%nat \/ List.Exists (fun t => is_failure t = true) tests ->
  (0 < length (snd (fold_left classify_test tests acc)))%nat.
Proof.
  revert acc. induction tests as [|t tests IH]; intros [ws es] H; cbn [fold_left].
  - destruct H as [H|H]; [exact H|inversion H].
  - apply IH. unfold classify_test.
    destruct (String.eqb (t_Status t) setupTestStatusWarning) eqn:Ew; cbn [snd].
    + destruct H as [H|H]; [now left|]. inversion H as [? ? Hf|? ? Hf]; subst.
      * unfold is_failure in Hf. rewrite Ew in Hf. discriminate.
      * now right.
    + destruct (negb (String.eqb (t_Status t) setupTestStatusPassed)
                && negb (String.eqb (t_Status t) setupTestStatusSkipped)) eqn:Ef;
        cbn [snd].
      * left. rewrite length_app. cbn. lia.
      * destruct H as [H|H]; [now left|]. inversion H as [? ? Hf|? ? Hf]; subst.
        -- unfold is_failure in Hf. rewrite Ew in Hf. cbn in Hf. rewrite Ef in Hf.
           discriminate.
        -- now right.
Qed.

(** Failed tests make [reconcileSetupTests] return the setup-test error
    and leave the object as it is. *)
Lemma reconcileSetupTests_failure connectorID env w resp tests :
  let connector := spec_Connector (Spec (obj w)) in
  V1alpha1.RunSetupTests connector <> Some false ->
  reply_SetupTests env (history w) connectorID
                   (trust (V1alpha1.TrustCertificates connector))
                   (trust (V1alpha1.TrustFingerprints connector))
  = (resp, tests, None) ->
  List.Exists (fun t => is_failure t = true) tests ->
  exists warnings details w',
    reconcileSetupTests connectorID env w
    = ((warnings, Some (setup_tests_failed details)), w') /\
    obj w' = obj w.
Proof.
  intros connector Hrun Hreply Hex.
  unfold reconcileSetupTests, RunSetupTests, call, bind, ret, get_obj. cbn.
  fold connector.
  assert (Hr : match V1alpha1.RunSetupTests connector with
               | Some b => b | None => true end = true).
  { destruct (V1alpha1.RunSetupTests connector) as [[|]|]; congruence. }
  rewrite Hr. cbn. unfold trust in Hreply. rewrite Hreply. cbn.
  pose proof (classify_failure tests ([], []) (or_intror Hex)) as Hlen.
  destruct (fold_left classify_test tests ([], [])) as [ws es]. cbn [snd] in Hlen.
  destruct (Z.ltb_spec 0 (Z.of_nat (length es))); [|lia].
  do 3 eexists. split; reflexivity.
Qed.

Lemma handleError_setup_tests conditionType reason details env w :
  handleError conditionType reason (setup_tests_failed details) env w
  = let r1 := setCondition conditionTypeConnectorReady ConditionTrue
                           ConnectorReasonSuccess msgConnectorReady env w in
    match fst r1 with
    | Some e => ((Result_zero, Some e), snd r1)
    | None =>
        let r2 := setCondition conditionType ConditionFalse reason
                               (GoError.Error (setup_tests_failed details))
                               env (snd r1) in
        ((Result_zero, fst r2), snd r2)
    end.
Proof.
  unfold handleError, setup_tests_failed. cbn [GoError.Is GoError.Sentinel_eqb].
  unfold bind, ret. cbv zeta.
  destruct (setCondition conditionTypeConnectorReady ConditionTrue
                         ConnectorReasonSuccess msgConnectorReady env w) as [[e|] w1];
    cbn [fst snd]; [reflexivity|].
  destruct (setCondition conditionType ConditionFalse reason _ env w1). reflexivity.
Qed.

Lemma reconcileSetupTests_success connectorID env w warnings w2 :
  reconcileSetupTests connectorID env w = ((warnings, None), w2) ->
  condition_status conditionTypeSetupTestReady (obj w2) = Some ConditionTrue /\
  forall other, other <> conditionTypeSetupTestReady ->
    find_condition other (Conditions (Status (obj w2)))
    = find_condition other (Conditions (Status (obj w))).
Proof.
  unfold reconcileSetupTests, updateSetupTestsCondition, RunSetupTests, call,
    bind, ret, get_obj.
  repeat (break_match; try congruence);
    intros [= <- <-];
    match goal with
    | H : setCondition ?a ?b ?c ?d ?e ?w = (_, ?w') |- _ =>
        replace w' with (snd (setCondition a b c d e w)) by (now rewrite H)
    end;
    (split; [apply setCondition_sets|]);
    intros other Hne; rewrite setCondition_keeps by exact Hne;
    repeat match goal with
           | H : (_, _) = (_, _) |- _ => injection H as <- <-
           end; try reflexivity.
  all: match goal with
       | H : (_, {| history := _; obj := obj ?w0 |}) = (_, ?w1) |- _ =>
           injection H as _ <-
       end; reflexivity.
Qed.

(** [reconcileSetupTests] never touches the connector-ready condition. *)
Lemma reconcileSetupTests_keeps_ready connectorID env w r w2 :
  reconcileSetupTests connectorID env w = (r, w2) ->
  condition_status conditionTypeConnectorReady (obj w) = Some ConditionTrue ->
  condition_status conditionTypeConnectorReady (obj w2) = Some ConditionTrue.
Proof.
  unfold reconcileSetupTests, updateSetupTestsCondition, RunSetupTests, call,
    bind, ret, get_obj.
  repeat (break_match; try congruence);
    intros [= <- <-] Hready;
    repeat match goal with
           | H : setCondition ?a ?b ?c ?d ?e ?w = (_, ?w') |- _ =>
               replace w' with (snd (setCondition a b c d e w)) by (now rewrite H);
               clear H
           end;
    unfold condition_status in *;
    rewrite ?(setCondition_keeps conditionTypeSetupTestReady) by discriminate;
    repeat match goal with
           | H : (_, _) = (_, _) |- _ => injection H; clear H; intros; subst
           end;
    try exact Hready.
Qed.

(** Whatever error of the setup-test step [handleError] is given, a
    connector-ready condition that is true stays true. *)
Lemma handleError_keeps_ready reason e env w :
  condition_status conditionTypeConnectorReady (obj w) = Some ConditionTrue ->
  condition_status conditionTypeConnectorReady
    (obj (snd (handleError conditionTypeSetupTestReady reason e env w)))
  = Some ConditionTrue.
Proof.
  intros Hready. unfold handleError, bind, ret.
  repeat (break_match; try congruence); cbn [snd];
    repeat match goal with
           | H : setCondition ?a ?b ?c ?d ?e ?w = (_, ?w') |- _ =>
               replace w' with (snd (setCondition a b c d e w)) by (now rewrite H);
               clear H
           end;
    unfold condition_status in *;
    rewrite ?(setCondition_keeps conditionTypeSetupTestReady) by discriminate;
    try exact Hready;
    apply (setCondition_sets conditionTypeConnectorReady).
Qed.

End StatusFacts.

(** C9.  After reconcileConnector has created or updated the connector
    without error, the connector-ready condition is true.  If the setup
    tests then run and one of them fails, reconcileSetupTests returns the
    setup-test error, and handleError answers it with the zero Result, keeps
    the connector-ready condition true, sets the setup-test condition to
    false (whenever it reports no error of its own) and touches no other
    condition.  If reconcileSetupTests ends without error (tests passed,
    skipped or only warned), the connector-ready condition is still true and
    the setup-test condition is true.  Whatever error reconcileSetupTests
    returns, the connector-ready condition is true after handleError. *)
Theorem setup_test_failure_keeps_connector_ready :
  forall (env : Provider.Env) (w : Provider.World)
         (resolvedConfig resolvedAuth : option V1alpha1.RawExtension)
         (connectorID : string) (w1 : Provider.World),
    Controller.reconcileConnector resolvedConfig resolvedAuth env w
    = ((connectorID, None), w1) ->
    let connector := V1alpha1.spec_Connector (V1alpha1.Spec (Provider.obj w1)) in
    StatusSpec.condition_status Controller.conditionTypeConnectorReady (Provider.obj w1)
    = Some V1alpha1.ConditionTrue /\
    (forall resp tests,
        V1alpha1.RunSetupTests connector <> Some false ->
        Provider.reply_SetupTests env (Provider.history w1) connectorID
          (StatusSpec.trust (V1alpha1.TrustCertificates connector))
          (StatusSpec.trust (V1alpha1.TrustFingerprints connector))
        = (resp, tests, None) ->
        List.Exists (fun t => StatusSpec.is_failure t = true) tests ->
        exists warnings details w2,
          Controller.reconcileSetupTests connectorID env w1
          = ((warnings, Some (StatusSpec.setup_tests_failed details)), w2) /\
          let r := Controller.handleError Controller.conditionTypeSetupTestReady
                     Controller.SetupTestsReasonReconciliationFailed
                     (StatusSpec.setup_tests_failed details) env w2 in
          fst (fst r) = Controller.Result_zero /\
          StatusSpec.condition_status Controller.conditionTypeConnectorReady
            (Provider.obj (snd r)) = Some V1alpha1.ConditionTrue /\
          (snd (fst r) = None ->
           StatusSpec.condition_status Controller.conditionTypeSetupTestReady
             (Provider.obj (snd r)) = Some V1alpha1.ConditionFalse) /\
          (forall other,
              other <> Controller.conditionTypeConnectorReady ->
              other <> Controller.conditionTypeSetupTestReady ->
              StatusSpec.find_condition other
                (V1alpha1.Conditions (V1alpha1.Status (Provider.obj (snd r))))
              = StatusSpec.find_condition other
                  (V1alpha1.Conditions (V1alpha1.Status (Provider.obj w1))))) /\
    (forall warnings w2,
        Controller.reconcileSetupTests connectorID env w1 = ((warnings, None), w2) ->
        StatusSpec.condition_status Controller.conditionTypeConnectorReady
          (Provider.obj w2) = Some V1alpha1.ConditionTrue /\
        StatusSpec.condition_status Controller.conditionTypeSetupTestReady
          (Provider.obj w2) = Some V1alpha1.ConditionTrue) /\
    (forall warnings e w2,
        Controller.reconcileSetupTests connectorID env w1 = ((warnings, Some e), w2) ->
        StatusSpec.condition_status Controller.conditionTypeConnectorReady
          (Provider.obj
             (snd (Controller.handleError Controller.conditionTypeSetupTestReady
                     Controller.SetupTestsReasonReconciliationFailed e env w2)))
        = Some V1alpha1.ConditionTrue).
Proof.
  intros env w resolvedConfig resolvedAuth connectorID w1 Hrc connector.
  pose proof (reconcileConnector_ready _ _ _ _ _ _ Hrc) as Hready.
  split; [exact Hready|]. split; [|split].
  - intros resp tests Hrun Hreply Hex.
    destruct (reconcileSetupTests_failure connectorID env w1 resp tests Hrun Hreply Hex)
      as (warnings & details & w2 & Hst & Hobj).
    exists warnings, details, w2. split; [exact Hst|].
    cbv zeta. rewrite handleError_setup_tests. cbv zeta.
    destruct (fst (Controller.setCondition Controller.conditionTypeConnectorReady
                     V1alpha1.ConditionTrue Controller.ConnectorReasonSuccess
                     Controller.msgConnectorReady env w2)) as [e|] eqn:Hfirst;
      cbn [fst snd].
    + split; [reflexivity|]. split; [apply setCondition_sets|].
      split; [discriminate|].
      intros other Hcr _. rewrite setCondition_keeps by exact Hcr. now rewrite Hobj.
    + split; [reflexivity|]. split; [|split].
      * unfold StatusSpec.condition_status.
        rewrite setCondition_keeps by discriminate.
        apply setCondition_sets.
      * intros _. apply setCondition_sets.
      * intros other Hcr Hst'. rewrite !setCondition_keeps by assumption.
        now rewrite Hobj.
  - intros warnings w2 Hst.
    destruct (reconcileSetupTests_success _ _ _ _ _ Hst) as [Hset Hkeep].
    split; [|exact Hset].
    unfold StatusSpec.condition_status in *. rewrite Hkeep by discriminate. exact Hready.
  - intros warnings e w2 Hst. apply handleError_keeps_ready.
    exact (reconcileSetupTests_keeps_ready _ _ _ _ _ Hst Hready).
Qed.

Lemma setup_test_failure_keeps_connector_ready_witness :
  StatusSpec.condition_status Controller.conditionTypeConnectorReady
    (Provider.obj
       (snd (Controller.reconcileConnector SetupTestScenario.resolvedConfig None
               SetupTestScenario.env SetupTestScenario.start)))
  = Some V1alpha1.ConditionTrue.
Proof.
  refine (proj1 (setup_test_failure_keeps_connector_ready SetupTestScenario.env
                   SetupTestScenario.start SetupTestScenario.resolvedConfig None "conn_1"
                   (snd (Controller.reconcileConnector SetupTestScenario.resolvedConfig
                           None SetupTestScenario.env SetupTestScenario.start))
                   _)).
  vm_compute. reflexivity.
Defined.

(* --------------------------------------------------------------------- *)
(** ** Connector update *)
(* --------------------------------------------------------------------- *)

Section UpdateFacts.
Import V1alpha1 Provider Services Controller UpdateSpec.

Lemma if_nonempty_None s : if_nonempty s = None <-> s = "".
Proof.
  unfold if_nonempty. destruct (String.eqb_spec s ""); cbn; split; congruence.
Qed.

Lemma if_nonzero_None n : if_nonzero n = None <-> n = 0.
Proof.
  unfold if_nonzero. destruct (Z.eqb_spec n 0); cbn; split; congruence.
Qed.

Lemma overwrite_idem {A} (sent stored : option A) :
  overwrite sent (overwrite sent stored) = overwrite sent stored.
Proof. destruct sent; reflexivity. Qed.

Lemma apply_update_idem req remote :
  apply_update req (apply_update req remote) = apply_update req remote.
Proof. unfold apply_update. cbn. now rewrite !overwrite_idem. Qed.

(** The provider-shaped object copies the typed fields of the spec. *)
Lemma toFivetranConnector_fields o resolvedConfig resolvedAuth c :
  toFivetranConnector o resolvedConfig resolvedAuth = inl c ->
  let spec := spec_Connector (Spec o) in
  is_Some (Provider.Config c) /\ is_Some (Provider.Auth c) /\
  Provider.Paused c = V1alpha1.Paused spec /\
  Provider.PauseAfterTrial c = V1alpha1.PauseAfterTrial spec /\
  Provider.SyncFrequency c = V1alpha1.SyncFrequency spec /\
  Provider.DailySyncTime c = V1alpha1.DailySyncTime spec /\
  Provider.ScheduleType c = V1alpha1.ScheduleType spec /\
  Provider.NetworkingMethod c = V1alpha1.NetworkingMethod spec /\
  Provider.ProxyAgentID c = V1alpha1.ProxyAgentID spec /\
  Provider.PrivateLinkID c = V1alpha1.PrivateLinkID spec /\
  Provider.HybridDeploymentAgentID c = V1alpha1.HybridDeploymentAgentID spec /\
  Provider.DataDelaySensitivity c = V1alpha1.DataDelaySensitivity spec /\
  Provider.DataDelayThreshold c = V1alpha1.DataDelayThreshold spec.
Proof.
  unfold toFivetranConnector.
  repeat match goal with
         | |- context [match ?x with _ => _ end] =>
             lazymatch x with
             | context [match _ with _ => _ end] => fail
             | _ => destruct x eqn:?
             end
         end; try discriminate; intros [= <-]; cbn; repeat split; eauto.
Qed.

Lemma updateConnector_call connectorID resolvedConfig resolvedAuth env w c :
  toFivetranConnector (obj w) resolvedConfig resolvedAuth = inl c ->
  snd (updateConnector connectorID resolvedConfig resolvedAuth env w)
  = {| history := history w ++ [ConnectionUpdateDo (update_request connectorID c)];
       obj := obj w |}.
Proof.
  intros H. unfold updateConnector, UpdateConnection, call, bind, ret, get_obj.
  cbn. rewrite H.
  destruct (reply_ConnectionUpdate env (history w) (update_request connectorID c))
    as [resp e]. cbn. destruct (WrapFivetranError resp e); reflexivity.
Qed.

End UpdateFacts.

(** C5 (as stated, refuted).  The update of a connector whose spec leaves
    the daily sync time and other optional attributes empty sends a request
    that does not set every field. *)
Lemma update_request_omits_empty_fields :
  let req := Provider.update_request "conn_1" SetupTestScenario.provider_object in
  Controller.toFivetranConnector SetupTestScenario.connector
    SetupTestScenario.resolvedConfig None = inl SetupTestScenario.provider_object /\
  Provider.history
    (snd (Controller.updateConnector "conn_1" SetupTestScenario.resolvedConfig None
            SetupTestScenario.env SetupTestScenario.start))
  = [Provider.ConnectionUpdateDo req] /\
  Provider.u_dailySyncTime req = None /\
  UpdateSpec.sets_every_field req = false.
Proof.
  cbv zeta. split; [vm_compute; reflexivity|].
  split; [vm_compute; reflexivity|]. split; reflexivity.
Qed.

(** C5 (amended).  For a resolved spec that converts to a provider object,
    updateConnector makes one call, the update itself, whatever the remote
    state is (nothing is read from the provider first).  The request always
    sets the connection id, run_setup_tests=false, config and auth; it
    carries paused and pause_after_trial as the spec has them; and it sets
    each other attribute exactly when the spec's value is non-zero or
    non-empty.  On a remote that overwrites the fields a request sets,
    applying the request twice gives the same state as applying it once. *)
Theorem update_sends_what_the_spec_sets :
  forall (env : Provider.Env) (w : Provider.World) (connectorID : string)
         (resolvedConfig resolvedAuth : option V1alpha1.RawExtension)
         (c : Provider.Connector),
    Controller.toFivetranConnector (Provider.obj w) resolvedConfig resolvedAuth = inl c ->
    let spec := V1alpha1.spec_Connector (V1alpha1.Spec (Provider.obj w)) in
    let req := Provider.update_request connectorID c in
    snd (Controller.updateConnector connectorID resolvedConfig resolvedAuth env w)
    = {| Provider.history := Provider.history w ++ [Provider.ConnectionUpdateDo req];
         Provider.obj := Provider.obj w |} /\
    (Provider.u_connectionID req = Some connectorID /\
     Provider.u_runSetupTests req = Some false /\
     is_Some (Provider.u_config req) /\
     is_Some (Provider.u_auth req)) /\
    (Provider.u_paused req = V1alpha1.Paused spec /\
     Provider.u_pauseAfterTrial req = V1alpha1.PauseAfterTrial spec) /\
    ((Provider.u_syncFrequency req = None <-> V1alpha1.SyncFrequency spec = 0) /\
     (Provider.u_dailySyncTime req = None <-> V1alpha1.DailySyncTime spec = "") /\
     (Provider.u_scheduleType req = None <-> V1alpha1.ScheduleType spec = "") /\
     (Provider.u_networkingMethod req = None <-> V1alpha1.NetworkingMethod spec = "") /\
     (Provider.u_proxyAgentId req = None <-> V1alpha1.ProxyAgentID spec = "") /\
     (Provider.u_privateLinkId req = None <-> V1alpha1.PrivateLinkID spec = "") /\
     (Provider.u_hybridDeploymentAgentId req = None
      <-> V1alpha1.HybridDeploymentAgentID spec = "") /\
     (Provider.u_dataDelaySensitivity req = None
      <-> V1alpha1.DataDelaySensitivity spec = "") /\
     (Provider.u_dataDelayThreshold req = None
      <-> V1alpha1.DataDelayThreshold spec = 0)) /\
    (forall remote,
        UpdateSpec.apply_update req (UpdateSpec.apply_update req remote)
        = UpdateSpec.apply_update req remote).
Proof.
  intros env w connectorID resolvedConfig resolvedAuth c Hc spec req.
  destruct (toFivetranConnector_fields _ _ _ _ Hc)
    as (Hcfg & Hauth & Hp & Hpt & Hsf & Hds & Hst & Hnm & Hpa & Hpl & Hhd & Hdd & Hdt).
  fold spec in Hp, Hpt, Hsf, Hds, Hst, Hnm, Hpa, Hpl, Hhd, Hdd, Hdt.
  split; [now apply updateConnector_call|].
  split; [unfold req; cbn; auto|].
  split; [unfold req; cbn; auto|].
  split; [|intros remote; apply apply_update_idem].
  unfold req. cbn.
  rewrite !if_nonempty_None, !if_nonzero_None, Hsf, Hds, Hst, Hnm, Hpa, Hpl, Hhd, Hdd, Hdt.
  tauto.
Qed.

Lemma update_sends_what_the_spec_sets_witness :
  snd (Controller.updateConnector "conn_1" SetupTestScenario.resolvedConfig None
         SetupTestScenario.env SetupTestScenario.start)
  = {| Provider.history :=
         [Provider.ConnectionUpdateDo
            (Provider.update_request "conn_1" SetupTestScenario.provider_object)];
       Provider.obj := SetupTestScenario.connector |}.
Proof.
  refine (proj1 (update_sends_what_the_spec_sets SetupTestScenario.env
                   SetupTestScenario.start "conn_1" SetupTestScenario.resolvedConfig
                   None SetupTestScenario.provider_object _)).
  vm_compute. reflexivity.
Defined.

(* --------------------------------------------------------------------- *)
(** ** Adoption *)
(* --------------------------------------------------------------------- *)

Section AdoptionFacts.
Import V1alpha1 Provider Services Controller.

(** A remote connector of another service stops the adoption right after
    the fetch, whatever its other attributes are: an error comes back and
    neither the object nor the status is written. *)
Lemma adoption_rejects_other_service adoptConnectorID env w resp details :
  reply_ConnectionDetails env (history w) adoptConnectorID = (resp, details, None) ->
  V1alpha1.Service (spec_Connector (Spec (obj w))) <> d_Service details ->
  exists msg,
    handleExistingConnectorAdoption adoptConnectorID env w
    = (Some (GoError.New msg),
       {| history := history w ++ [ConnectionDetailsDo adoptConnectorID];
          obj := obj w |}).
Proof.
  intros Hreply Hne.
  unfold handleExistingConnectorAdoption, GetConnection, call, bind, ret, get_obj.
  cbn. rewrite Hreply. cbn.
  destruct (String.eqb_spec (V1alpha1.Service (spec_Connector (Spec (obj w))))
                            (d_Service details)); [contradiction|].
  cbn. eauto.
Qed.

(** The identity reaches the status only when the service and the group
    of the remote connector are those of the spec. *)
Lemma adoption_writes_identity_last adoptConnectorID env w r w' :
  handleExistingConnectorAdoption adoptConnectorID env w = (r, w') ->
  obj w' <> obj w ->
  let details := snd (fst (reply_ConnectionDetails env (history w) adoptConnectorID)) in
  let spec := spec_Connector (Spec (obj w)) in
  V1alpha1.Service spec = d_Service details /\
  V1alpha1.GroupID spec = d_GroupID details /\
  obj w' = with_connector_id (obj w) adoptConnectorID
                             (fivetranConnectorURL adoptConnectorID).
Proof.
  unfold handleExistingConnectorAdoption, updateConnectorIDStatus, StatusUpdate,
    GetConnection, call, set_obj, bind, ret, get_obj.
  cbn.
  destruct (reply_ConnectionDetails env (history w) adoptConnectorID)
    as [[resp details] e]. cbn.
  destruct (WrapFivetranError resp e); [intros [= <- <-] H; now elim H|].
  destruct (String.eqb_spec (V1alpha1.Service (spec_Connector (Spec (obj w))))
                            (d_Service details)) as [Hs|Hs]; cbn;
    [|intros [= <- <-] H; now elim H].
  destruct (String.eqb_spec (V1alpha1.GroupID (spec_Connector (Spec (obj w))))
                            (d_GroupID details)) as [Hg|Hg]; cbn;
    [|intros [= <- <-] H; now elim H].
  repeat (break_match; cbn; try (intros [= <- <-] H; now elim H));
    intros [= <- <-] _; auto.
Qed.

End AdoptionFacts.

(** C7 (the code at the failing input).  Adoption of a remote connector of
    another service is refused and the identity is not written, but the
    refusal is not terminal: the error is none of the classes that
    handleError answers without requeue, so the reconciliation sets the
    failure condition and returns the error itself to its caller, which
    retries a reconciliation that returned an error. *)
Theorem adoption_service_mismatch_is_returned :
  let r := Controller.reconcileSteps AdoptionScenario.env AdoptionScenario.start in
  fst (Controller.handleExistingConnectorAdoption "conn_9" AdoptionScenario.env
         AdoptionScenario.start) = Some AdoptionScenario.service_mismatch /\
  fst r = (Controller.Result_zero, Some AdoptionScenario.service_mismatch) /\
  GoError.Is AdoptionScenario.service_mismatch GoError.ErrConnectorValidationFailed
  = false /\
  V1alpha1.ConnectorID (V1alpha1.Status (Provider.obj (snd r))) = "" /\
  StatusSpec.condition_status Controller.conditionTypeConnectorReady
    (Provider.obj (snd r)) = Some V1alpha1.ConditionFalse /\
  Provider.history (snd r)
  = [Provider.ConnectionDetailsDo "conn_9";
     Provider.K8sStatusUpdate (Provider.obj (snd r))].
Proof. vm_compute. repeat split; reflexivity. Qed.

(* --------------------------------------------------------------------- *)
(** ** Vault references *)
(* --------------------------------------------------------------------- *)

Section ReferenceFacts.
Import GoStrings.

Lemma append_cons (c : ascii) (p x : string) : String c p +:+ x = String c (p +:+ x).
Proof. reflexivity. Qed.

Lemma HasPrefix_split (s p : string) :
  HasPrefix s p = true -> s = p +:+ drop (String.length p) s.
Proof.
  revert s. induction p as [|c p IH]; intros s H; [reflexivity|].
  destruct s as [|d s]; simpl in H; [discriminate|].
  destruct (Ascii.eqb_spec c d) as [->|]; [|discriminate].
  rewrite append_cons. simpl drop. f_equal. now apply IH.
Qed.



Lemma cut_Some (sep : ascii) (s a b : string) :
  cut sep s = Some (a, b) ->
  s = a +:+ String sep b /\ ~ In sep (list_ascii_of_string a).
Proof.
  revert a. induction s as [|c s IH]; intros a; simpl; [discriminate|].
  destruct (Ascii.eqb_spec c sep) as [->|Hne].
  - intros [= <- <-]. split; [reflexivity|intros []].
  - destruct (cut sep s) as [[a' b']|]; [|discriminate].
    intros [= <- <-]. destruct (IH a' eq_refl) as [-> Hnin].
    split; [reflexivity|]. simpl. intros [E|E]; [now apply Hne|now apply Hnin].
Qed.


Lemma length_zero (s : string) : (String.length s =? 0)%nat = true <-> s = "".
Proof. destruct s; simpl; split; congruence. Qed.

Lemma parseVaultReference_Some value path key :
  VaultOps.parseVaultReference value = inl (path, key) ->
  TrimPrefix value "vault:" = path +:+ String ResolverSpec.hash key /\
  path <> "" /\ key <> "" /\ ~ In ResolverSpec.hash (list_ascii_of_string path).
Proof.
  unfold VaultOps.parseVaultReference, SplitN2.
  destruct (cut "#" (TrimPrefix value "vault:")) as [[a b]|] eqn:Hc; [|discriminate].
  destruct a as [|c a]; [discriminate|]. destruct b as [|d b]; [discriminate|].
  cbn. intros [= <- <-]. destruct (cut_Some _ _ _ _ Hc) as [-> Hnin].
  repeat split; try discriminate. exact Hnin.
Qed.

Lemma parseVaultReference_reference value path key :
  HasPrefix value "vault:" = true ->
  VaultOps.parseVaultReference value = inl (path, key) ->
  value = "vault:" +:+ path +:+ "#" +:+ key.
Proof.
  intros Hp Hparse. destruct (parseVaultReference_Some _ _ _ Hparse) as (Ht & _).
  rewrite (HasPrefix_split _ _ Hp). unfold TrimPrefix in Ht. rewrite Hp in Ht.
  cbn [String.length] in *. now rewrite Ht.
Qed.

End ReferenceFacts.



(* --------------------------------------------------------------------- *)
(** ** Secret resolver: documents without references, and errors *)
(* --------------------------------------------------------------------- *)

Section ResolverFacts.
Import GoJSON VaultOps VaultSpec ResolverSpec.

Lemma map_set_fresh {V} (k : string) (v : V) (m : list (string * V)) :
  ~ In k (map fst m) -> SchemaCompare.map_set k v m = m ++ [(k, v)].
Proof.
  induction m as [|[k' v'] m IH]; simpl; intros Hnin; [reflexivity|].
  destruct (String.eqb_spec k k') as [->|Hne]; [elim Hnin; now left|].
  rewrite IH; [reflexivity|]. intros H. apply Hnin. now right.
Qed.

Lemma map_set_keys {V} (k : string) (v : V) (m : list (string * V)) :
  map fst (SchemaCompare.map_set k v m)
  = if existsb (String.eqb k) (map fst m) then map fst m else map fst m ++ [k].
Proof.
  induction m as [|[k' v'] m IH]; simpl; [reflexivity|].
  destruct (String.eqb_spec k k') as [->|Hne]; simpl; [reflexivity|].
  rewrite IH. now destruct (existsb (String.eqb k) (map fst m)).
Qed.

Lemma map_set_NoDup {V} (k : string) (v : V) (m : list (string * V)) :
  List.NoDup (map fst m) -> List.NoDup (map fst (SchemaCompare.map_set k v m)).
Proof.
  intros Hnd. rewrite map_set_keys.
  destruct (existsb (String.eqb k) (map fst m)) eqn:E; [exact Hnd|].
  apply List.NoDup_app; [exact Hnd|repeat constructor; intros []|].
  intros x Hx [<-|[]].
  assert (existsb (String.eqb k) (map fst m) = true); [|congruence].
  apply existsb_exists. exists k. split; [exact Hx|apply String.eqb_refl].
Qed.

Lemma map_set_In {V} (k : string) (v : V) (m : list (string * V)) (e : string * V) :
  In e (SchemaCompare.map_set k v m) -> e = (k, v) \/ In e m.
Proof.
  induction m as [|[k' v'] m IH]; simpl.
  - intros [<-|[]]. now left.
  - destruct (String.eqb k k'); simpl.
    + intros [<-|H]; [now left|right; now right].
    + intros [<-|H]; [right; now left|]. destruct (IH H); [now left|right; now right].
Qed.

(** The members of a decoded object: no key twice, every value decoded
    from a member of the text. *)
Lemma decode_members (members : list (string * json)) (acc : list (string * json)) :
  List.NoDup (map fst acc) ->
  let D := fold_left (fun acc kv => SchemaCompare.map_set (fst kv) (decode (snd kv)) acc)
                     members acc in
  List.NoDup (map fst D) /\
  forall e, In e D -> In e acc \/ exists kv, In kv members /\ snd e = decode (snd kv).
Proof.
  revert acc. induction members as [|kv members IH]; intros acc Hnd; simpl.
  - split; [exact Hnd|]. intros e He. now left.
  - destruct (IH _ (map_set_NoDup (fst kv) (decode (snd kv)) acc Hnd)) as [Hnd' Hin].
    split; [exact Hnd'|]. intros e He. destruct (Hin e He) as [H|(kv' & Hkv' & Heq)].
    + destruct (map_set_In _ _ _ _ H) as [->|H']; [|now left].
      right. exists kv. split; [now left|reflexivity].
    + right. exists kv'. split; [now right|exact Heq].
Qed.

Lemma resolveMap_id resolve keyPath entries :
  forall result st,
    List.NoDup (map fst (result ++ entries)) ->
    (forall e, In e entries -> forall kp st0, resolve (snd e) kp st0 = (inl (snd e), st0)) ->
    resolveMap resolve keyPath entries result st = (inl (JObject (result ++ entries)), st).
Proof.
  induction entries as [|[key value] rest IH]; intros result st Hnd Hid; simpl.
  - now rewrite app_nil_r.
  - rewrite (Hid (key, value) (or_introl eq_refl)). simpl.
    rewrite map_set_fresh.
    + rewrite IH.
      * now rewrite <- app_assoc.
      * now rewrite <- app_assoc.
      * intros e He. apply Hid. now right.
    + rewrite map_app in Hnd. apply List.NoDup_remove_2 in Hnd.
      intros H. apply Hnd. apply in_or_app. now left.
Qed.

Lemma resolveSlice_id resolve keyPath items :
  forall i result st,
    (forall x, In x items -> forall kp st0, resolve x kp st0 = (inl x, st0)) ->
    resolveSlice resolve keyPath items i result st = (inl (JArray (result ++ items)), st).
Proof.
  induction items as [|item rest IH]; intros i result st Hid; simpl.
  - now rewrite app_nil_r.
  - rewrite (Hid item (or_introl eq_refl)). rewrite IH.
    + now rewrite <- app_assoc.
    + intros x Hx. apply Hid. now right.
Qed.

Lemma strings_member (members : list (string * json)) (e : string * json) (s : string) :
  In e members -> In s (strings (snd e)) -> In s (strings (JObject members)).
Proof.
  intros He Hs. cbn [strings]. apply in_flat_map. exists e. now split.
Qed.

Lemma strings_item (items : list json) (x : json) (s : string) :
  In x items -> In s (strings x) -> In s (strings (JArray items)).
Proof.
  intros Hx Hs. cbn [strings]. apply in_flat_map. exists x. now split.
Qed.

Lemma resolveValue_reference_free (store : Store) (doc : json) :
  reference_free (decode doc) ->
  forall keyPath st, resolveValue store (decode doc) keyPath st = (inl (decode doc), st).
Proof.
  induction doc as [ | b | l | s | items IH | members IH ] using json_induction;
    intros Hfree keyPath st; try reflexivity.
  - cbn [decode resolveValue]. unfold resolveString.
    rewrite (Hfree s (or_introl eq_refl)). reflexivity.
  - cbn [decode resolveValue].
    rewrite (resolveSlice_id _ _ (map decode items) O [] st); [reflexivity|].
    intros x Hx kp st0. apply in_map_iff in Hx. destruct Hx as (y & <- & Hy).
    rewrite List.Forall_forall in IH. apply (IH y Hy).
    intros s Hs. apply Hfree. cbn [decode]. apply (strings_item _ (decode y)); [|exact Hs].
    now apply in_map.
  - cbn [decode resolveValue].
    destruct (decode_members members [] (List.NoDup_nil _)) as [Hnd Hin].
    rewrite (resolveMap_id _ _ _ [] st); [reflexivity|exact Hnd|].
    intros e He kp st0. destruct (Hin e He) as [[]|(kv & Hkv & Heq)].
    rewrite Heq. rewrite List.Forall_forall in IH. apply (IH kv Hkv).
    intros s Hs. apply Hfree. cbn [decode]. apply (strings_member _ e); [exact He|].
    now rewrite Heq.
Qed.

Lemma blames_member store members e0 e r ref :
  In e0 members -> blames store (snd e0) e r ref -> blames store (JObject members) e r ref.
Proof.
  intros Hin (err & kp & He & Hs & Hrest). exists err, kp.
  split; [exact He|]. split; [|exact Hrest]. now apply (strings_member _ e0).
Qed.

Lemma blames_item store items x e r ref :
  In x items -> blames store x e r ref -> blames store (JArray items) e r ref.
Proof.
  intros Hin (err & kp & He & Hs & Hrest). exists err, kp.
  split; [exact He|]. split; [|exact Hrest]. now apply (strings_item _ x).
Qed.

Lemma resolveString_blames store s keyPath st e st' :
  resolveString store s keyPath st = (inr e, st') ->
  exists r, blames store (JString s) e r s.
Proof.
  unfold resolveString.
  destruct (GoStrings.HasPrefix s "vault:") eqn:Hp; simpl negb; cbv iota; [|discriminate].
  destruct (parseVaultReference s) as [[path key]|e0] eqn:Hparse.
  2:{ intros [= <- <-]. exists false. eexists _, _. split; [reflexivity|].
      split; [now left|]. split; [exact Hp|]. split; [discriminate|reflexivity]. }
  unfold getPathData. destruct (cache st !! path) as [data|].
  - destruct (lookup_entry key data); [discriminate|].
    intros [= <- <-]. exists false. eexists _, _.
    split; [unfold NewKeyNotFoundError;
            now rewrite <- (parseVaultReference_reference s path key Hp Hparse)|].
    split; [now left|]. split; [exact Hp|]. split; [discriminate|reflexivity].
  - destruct (store (fetches st) path) as [e0|raw] eqn:Hst.
    + intros [= <- <-]. exists true. eexists _, _. split; [reflexivity|].
      split; [now left|]. split; [exact Hp|]. split; [|discriminate].
      intros _. exists (fetches st), path, key, e0. auto.
    + destruct (extractSecretData raw) as [data|e0].
      * destruct (lookup_entry key data); [discriminate|].
        intros [= <- <-]. exists false. eexists _, _.
        split; [unfold NewKeyNotFoundError;
                now rewrite <- (parseVaultReference_reference s path key Hp Hparse)|].
        split; [now left|]. split; [exact Hp|]. split; [discriminate|reflexivity].
      * destruct (GoError.Is e0 GoError.ErrSecretDataNil);
          intros [= <- <-]; exists false; eexists _, _; (split; [reflexivity|]);
          (split; [now left|]); (split; [exact Hp|]); (split; [discriminate|reflexivity]).
Qed.

Lemma resolveMap_blames store resolve keyPath entries :
  Forall (fun kv => forall kp st e st',
              resolve (snd kv) kp st = (inr e, st') ->
              exists r ref, blames store (snd kv) e r ref) entries ->
  forall result st e st',
    resolveMap resolve keyPath entries result st = (inr e, st') ->
    exists r ref, blames store (JObject entries) e r ref.
Proof.
  induction 1 as [|[key value] rest Hv Hrest IH]; intros result st e st'; simpl;
    [discriminate|].
  destruct (resolve value (buildKeyPath keyPath key) st) as [[resolved|e0] st1] eqn:Hr.
  - intros Hloop. destruct (IH _ _ _ _ Hloop) as (r & ref & err & kp & He & Hs & Hrest').
    exists r, ref, err, kp. split; [exact He|]. split; [|exact Hrest'].
    cbn [strings flat_map] in *. apply in_or_app. now right.
  - intros [= <- <-]. destruct (Hv _ _ _ _ Hr) as (r & ref & Hb).
    exists r, ref. apply (blames_member _ _ (key, value)); [now left|exact Hb].
Qed.

Lemma resolveSlice_blames store resolve keyPath items :
  Forall (fun x => forall kp st e st',
              resolve x kp st = (inr e, st') ->
              exists r ref, blames store x e r ref) items ->
  forall i result st e st',
    resolveSlice resolve keyPath items i result st = (inr e, st') ->
    exists r ref, blames store (JArray items) e r ref.
Proof.
  induction 1 as [|item rest Hv Hrest IH]; intros i result st e st'; simpl;
    [discriminate|].
  match goal with
  | |- context [resolve item ?kp st] =>
      destruct (resolve item kp st) as [[resolved|e0] st1] eqn:Hr
  end.
  - intros Hloop. destruct (IH _ _ _ _ _ Hloop) as (r & ref & err & kp & He & Hs & Hrest').
    exists r, ref, err, kp. split; [exact He|]. split; [|exact Hrest'].
    cbn [strings flat_map] in *. apply in_or_app. now right.
  - intros [= <- <-]. destruct (Hv _ _ _ _ Hr) as (r & ref & Hb).
    exists r, ref. apply (blames_item _ _ item); [now left|exact Hb].
Qed.

Lemma resolveValue_blames store data :
  forall keyPath st e st',
    resolveValue store data keyPath st = (inr e, st') ->
    exists r ref, blames store data e r ref.
Proof.
  induction data as [ | b | l | s | items IH | members IH ] using json_induction;
    intros keyPath st e st'; try discriminate.
  - cbn [resolveValue]. intros H. destruct (resolveString_blames _ _ _ _ _ _ H) as [r Hb].
    now exists r, s.
  - cbn [resolveValue]. apply resolveSlice_blames. exact IH.
  - cbn [resolveValue]. apply resolveMap_blames. exact IH.
Qed.

End ResolverFacts.

(** X2.  A JSON document none of whose string values starts with vault:
    is resolved without a single read of the store and without error, and
    comes back as the encoder writes its decoded form: every object with
    its keys in ascending order. *)
Theorem reference_free_document_needs_no_store :
  forall (store : VaultOps.Store) (doc : GoJSON.json),
    ResolverSpec.reference_free (VaultOps.decode doc) ->
    VaultOps.ResolveSecrets store (VaultSpec.raw_document doc)
    = (VaultSpec.raw_document (VaultOps.canonical (VaultOps.decode doc)), None,
       VaultOps.initial).
Proof.
  intros store doc Hfree. unfold VaultOps.ResolveSecrets, VaultSpec.raw_document.
  cbn [V1alpha1.Raw]. now rewrite (resolveValue_reference_free store doc Hfree).
Qed.

Lemma reference_free_document_needs_no_store_witness :
  VaultOps.ResolveSecrets VaultScenario.store
    (VaultSpec.raw_document (GoJSON.JObject FingerprintScenario.members_ba))
  = (VaultSpec.raw_document (GoJSON.JObject FingerprintScenario.members_ab), None,
     VaultOps.initial).
Proof.
  apply (reference_free_document_needs_no_store VaultScenario.store
           (GoJSON.JObject FingerprintScenario.members_ba)).
  intros s. vm_compute. intros [<-|[]]. reflexivity.
Defined.

(** X3.  Whenever the resolution of a JSON document fails, the error is a
    vault error that carries, as its reference, one of the document's own
    string values, a value that starts with vault:.  The error is marked
    retryable exactly when a read of the store failed at the path of that
    reference (the error then wraps the store's error); otherwise it is one
    of the four terminal kinds (invalid reference, key not found, secret not
    found, secret data nil).  IsRetryableError answers with that mark. *)
Theorem resolver_error_names_the_reference :
  forall (store : VaultOps.Store) (doc : GoJSON.json) (e : GoError.error),
    snd (fst (VaultOps.ResolveSecrets store (VaultSpec.raw_document doc))) = Some e ->
    exists (retryable : bool) (ref : string),
      ResolverSpec.blames store (VaultOps.decode doc) e retryable ref /\
      GoError.AsVaultError e = Some retryable /\
      VaultErrors.IsRetryableError e = retryable.
Proof.
  intros store doc e. unfold VaultOps.ResolveSecrets, VaultSpec.raw_document.
  cbn [V1alpha1.Raw].
  destruct (VaultOps.resolveValue store (VaultOps.decode doc) "" VaultOps.initial)
    as [[d|e'] st] eqn:Hr; cbn [fst snd]; [discriminate|].
  intros [= <-]. destruct (resolveValue_blames _ _ _ _ _ _ Hr) as (r & ref & Hb).
  exists r, ref. split; [exact Hb|].
  destruct Hb as (err & kp & -> & _). split; reflexivity.
Qed.

Lemma resolver_error_names_the_reference_witness :
  exists (retryable : bool) (ref : string),
    ResolverSpec.blames VaultScenario.store (VaultOps.decode VaultScenario.mixed)
      (VaultOps.NewVaultAPIError "token" "vault:missing/path#token"
         (GoError.New "secret not found"))
      retryable ref.
Proof.
  destruct (resolver_error_names_the_reference VaultScenario.store VaultScenario.mixed
              (VaultOps.NewVaultAPIError "token" "vault:missing/path#token"
                 (GoError.New "secret not found")))
    as (r & ref & H & _).
  - vm_compute. reflexivity.
  - now exists r, ref.
Defined.

(* --------------------------------------------------------------------- *)
(** ** Structural schema comparator: what it decides and what it ignores *)
(* --------------------------------------------------------------------- *)

Section CompareMore.
Import V1alpha1 SchemaCompare CompareSpec.

Lemma tableIssues_nil liveT crT : tableIssues liveT crT = [] <-> table_agrees liveT crT.
Proof.
  unfold tableIssues, table_agrees.
  destruct (tr_Enabled liveT) as [e|];
    [destruct (Bool.eqb_spec e (tbl_Enabled crT)) as [He|He]|];
    (destruct (String.eqb_spec (tbl_SyncMode crT) "") as [Hs|Hs];
     [|destruct (tr_SyncMode liveT) as [m|];
       [destruct (String.eqb_spec m (tbl_SyncMode crT)) as [Hm|Hm]|]]);
    cbn; split; try discriminate; try tauto;
    try (intros _; split; [intros ? [= <-]; assumption|]; intros; congruence);
    try (intros _; split; [intros ? [=]|]; intros; congruence);
    try (intros [H1 H2]; exfalso; first [now apply He, H1|apply H2 in Hs; congruence]).
Qed.

Lemma compareTable_step_nil ft acc name crT :
  compareTable_step ft acc (name, crT) = [] <->
  acc = [] /\ exists l, ft !! name = Some l /\ table_agrees l crT.
Proof.
  unfold compareTable_step. destruct (ft !! name) as [l|].
  - destruct (Z.ltb_spec 0 (Z.of_nat (length (tableIssues l crT)))) as [Hlt|Hge].
    + split.
      * intros H. apply app_eq_nil in H. destruct H as [_ H]. discriminate.
      * intros (_ & l' & [= <-] & Ha). apply tableIssues_nil in Ha. rewrite Ha in Hlt.
        simpl in Hlt. lia.
    + assert (Hnil : tableIssues l crT = []).
      { destruct (tableIssues l crT); [reflexivity|simpl in Hge; lia]. }
      split.
      * intros ->. split; [reflexivity|]. exists l. split; [reflexivity|].
        now apply tableIssues_nil.
      * now intros [-> _].
  - split.
    + intros H. apply app_eq_nil in H. destruct H as [_ H]. discriminate.
    + intros (_ & l & [=] & _).
Qed.

Lemma compareTables_fold_nil ft crTables acc :
  fold_left (compareTable_step ft) crTables acc = [] <->
  acc = [] /\ tables_agree ft crTables.
Proof.
  revert acc. induction crTables as [|[name crT] rest IH]; intros acc; cbn [fold_left].
  - split; [intros ->; split; [reflexivity|intros ? ? []]|now intros [-> _]].
  - rewrite IH, compareTable_step_nil. unfold tables_agree. split.
    + intros ((-> & l & Hl & Ha) & Hrest). split; [reflexivity|].
      intros n t [[= <- <-]|Hin]; [eauto|now apply Hrest].
    + intros (-> & H). split; [split; [reflexivity|]|].
      * apply H. now left.
      * intros n t Hin. apply H. now right.
Qed.

Lemma compareTables_nil ft crTables :
  compareTablesWithFivetran ft crTables = [] <-> tables_agree ft crTables.
Proof.
  unfold compareTablesWithFivetran. rewrite compareTables_fold_nil. tauto.
Qed.

Lemma compareSchema_step_ok fs m name crS :
  HasMismatch (compareSchema_step fs m (name, crS)) = false <->
  HasMismatch m = false /\ exists l, fs !! name = Some l /\ schema_agrees l crS.
Proof.
  unfold compareSchema_step, schema_agrees. destruct (fs !! name) as [l|]; cbn.
  2:{ split; [discriminate|intros (_ & l & [=] & _)]. }
  destruct (Z.ltb_spec 0 (Z.of_nat (length (compareTablesWithFivetran (sr_Tables l)
                                                                       (sch_Tables crS)))))
    as [Hlt|Hge]; cbn.
  - split; [discriminate|]. intros (_ & l' & [= <-] & _ & Hag).
    apply compareTables_nil in Hag. rewrite Hag in Hlt. simpl in Hlt. lia.
  - assert (Hag : tables_agree (sr_Tables l) (sch_Tables crS)).
    { apply compareTables_nil.
      destruct (compareTablesWithFivetran _ _); [reflexivity|simpl in Hge; lia]. }
    destruct (sr_Enabled l) as [e|] eqn:Hen;
      [destruct (Bool.eqb_spec e (sch_Enabled crS)) as [He|He]|]; cbn.
    + split.
      * intros H. split; [exact H|]. exists l. split; [reflexivity|].
        split; [rewrite Hen; intros ? [= <-]; assumption|exact Hag].
      * now intros [H _].
    + split; [discriminate|]. intros (_ & l' & [= <-] & He' & _). elim He.
      apply He'. exact Hen.
    + split.
      * intros H. split; [exact H|]. exists l. split; [reflexivity|].
        split; [rewrite Hen; intros ? [=]|exact Hag].
      * now intros [H _].
Qed.

Lemma compareSchema_fold_ok fs crSchemas m :
  HasMismatch (fold_left (compareSchema_step fs) crSchemas m) = false <->
  HasMismatch m = false /\
  forall name s, In (name, s) crSchemas ->
    exists l, fs !! name = Some l /\ schema_agrees l s.
Proof.
  revert m. induction crSchemas as [|[name crS] rest IH]; intros m; cbn [fold_left].
  - split; [intros H; split; [exact H|intros ? ? []]|now intros [H _]].
  - rewrite IH, compareSchema_step_ok. split.
    + intros ((Hm & l & Hl & Ha) & Hrest). split; [exact Hm|].
      intros n s [[= <- <-]|Hin]; [eauto|now apply Hrest].
    + intros (Hm & H). split; [split; [exact Hm|]|].
      * apply H. now left.
      * intros n s Hin. apply H. now right.
Qed.

Lemma fold_left_ext_in {A B} (f g : A -> B -> A) (l : list B) (a : A) :
  (forall acc x, In x l -> f acc x = g acc x) -> fold_left f l a = fold_left g l a.
Proof.
  revert a. induction l as [|x l IH]; intros a H; simpl; [reflexivity|].
  rewrite (H a x (or_introl eq_refl)). apply IH. intros acc y Hy. apply H. now right.
Qed.

Lemma fold_left_map {A B C} (f : A -> C -> A) (g : B -> C) (l : list B) (a : A) :
  fold_left f (map g l) a = fold_left (fun acc x => f acc (g x)) l a.
Proof. revert a. induction l as [|x l IH]; intros a; simpl; [reflexivity|apply IH]. Qed.

Lemma compareTables_without_columns ft crTables :
  compareTablesWithFivetran ft
    (map (fun e => (fst e, table_without_columns (snd e))) crTables)
  = compareTablesWithFivetran ft crTables.
Proof.
  unfold compareTablesWithFivetran. rewrite fold_left_map.
  apply fold_left_ext_in. intros acc [n t] _. reflexivity.
Qed.

Lemma compareSchema_step_without_columns fs m name crS :
  compareSchema_step fs m (name, schema_without_columns crS)
  = compareSchema_step fs m (name, crS).
Proof.
  unfold compareSchema_step. destruct (fs !! name) as [l|]; [|reflexivity].
  cbn [schema_without_columns sch_Tables sch_Enabled].
  now rewrite compareTables_without_columns.
Qed.

Lemma compareTables_same_on_declared ft1 ft2 crTables :
  (forall name, In name (map fst crTables) -> ft1 !! name = ft2 !! name) ->
  compareTablesWithFivetran ft1 crTables = compareTablesWithFivetran ft2 crTables.
Proof.
  intros H. unfold compareTablesWithFivetran. apply fold_left_ext_in.
  intros acc [n t] Hin. unfold compareTable_step.
  rewrite (H n); [reflexivity|]. apply in_map_iff. now exists (n, t).
Qed.

Lemma compareSchema_step_same_on_declared fs1 fs2 m name crS :
  same_schema_on_declared (fs1 !! name) (fs2 !! name) crS ->
  compareSchema_step fs1 m (name, crS) = compareSchema_step fs2 m (name, crS).
Proof.
  unfold compareSchema_step, same_schema_on_declared.
  destruct (fs1 !! name) as [a|], (fs2 !! name) as [b|]; try tauto.
  intros [He Ht]. now rewrite He, (compareTables_same_on_declared _ _ _ Ht).
Qed.

(** Steps never take a reported fact back. *)
Lemma compareSchema_step_keeps fs m e name :
  HasMismatch m = true /\ In name (MissingSchemas m) ->
  HasMismatch (compareSchema_step fs m e) = true /\
  In name (MissingSchemas (compareSchema_step fs m e)).
Proof.
  intros [Hm Hin]. destruct e as [n s]. unfold compareSchema_step.
  destruct (fs !! n) as [l|]; cbn.
  - repeat (break_match; cbn); auto.
  - split; [reflexivity|]. apply in_or_app. now left.
Qed.

Lemma compareSchema_fold_keeps fs crSchemas m name :
  HasMismatch m = true /\ In name (MissingSchemas m) ->
  HasMismatch (fold_left (compareSchema_step fs) crSchemas m) = true /\
  In name (MissingSchemas (fold_left (compareSchema_step fs) crSchemas m)).
Proof.
  revert m. induction crSchemas as [|e rest IH]; intros m H; simpl; [exact H|].
  apply IH. now apply compareSchema_step_keeps.
Qed.

Lemma compareSchema_fold_missing fs crSchemas m name s :
  In (name, s) crSchemas -> fs !! name = None ->
  HasMismatch (fold_left (compareSchema_step fs) crSchemas m) = true /\
  In name (MissingSchemas (fold_left (compareSchema_step fs) crSchemas m)).
Proof.
  revert m. induction crSchemas as [|e rest IH]; intros m Hin Hl; [destruct Hin|].
  destruct Hin as [->|Hin]; simpl.
  - apply compareSchema_fold_keeps. unfold compareSchema_step. rewrite Hl. cbn.
    split; [reflexivity|]. apply in_or_app. right. now left.
  - now apply IH.
Qed.

Lemma fold_keeps {A} (g : list string -> A -> list string) (l : list A)
      (parts : list string) (x : string) :
  (forall p a, In x p -> In x (g p a)) -> In x parts -> In x (fold_left g l parts).
Proof.
  intros Hg. revert parts. induction l as [|a l IH]; intros parts H; simpl; [exact H|].
  apply IH, Hg, H.
Qed.

Lemma HasPrefix_refl (s : string) : GoStrings.HasPrefix s s = true.
Proof. induction s as [|c s IH]; simpl; [reflexivity|]. now rewrite Ascii.eqb_refl. Qed.

Lemma String_names_missing (sm : SchemaMismatch) name :
  HasMismatch sm = true -> In name (MissingSchemas sm) ->
  GoStrings.Contains (SchemaMismatch_String sm)
                     ("Missing Schemas: " +:+ GoStrings.Join (MissingSchemas sm) ", ")
  = true /\
  GoStrings.Contains (SchemaMismatch_String sm) name = true.
Proof.
  intros Hm Hin. unfold SchemaMismatch_String. rewrite Hm. cbn [negb].
  destruct (Z.ltb_spec 0 (Z.of_nat (length (MissingSchemas sm)))) as [_|Hlen].
  2:{ destruct (MissingSchemas sm); [destruct Hin|simpl in Hlen; lia]. }
  set (line := "Missing Schemas: " +:+ GoStrings.Join (MissingSchemas sm) ", ").
  match goal with
  | |- context [GoStrings.Join ?parts "; "] =>
      assert (Hline : In line parts)
  end.
  { apply fold_keeps; [intros p [a b] H; apply in_or_app; now left|].
    apply fold_keeps; [intros p [a b] H; apply in_or_app; now left|].
    apply in_or_app. right. now left. }
  split.
  - eapply Contains_Join; [exact Hline|]. apply Contains_here, HasPrefix_refl.
  - eapply Contains_Join; [exact Hline|]. unfold line. apply Contains_app_r.
    eapply Contains_Join; [exact Hin|]. apply Contains_here, HasPrefix_refl.
Qed.

End CompareMore.

(** X4.  CompareSchemaWithCR reports a match exactly when the declared
    configuration agrees with the live schema: the declared change handling,
    if any, is the live one; every declared schema exists live with the
    declared enabled flag (or with none reported); every declared table
    exists in it with the declared enabled flag (or none reported) and, when
    a sync mode is declared, with that sync mode.  Without a declared
    configuration it always reports a match.  Its first result is always
    the negation of the report's HasMismatch. *)
Theorem comparator_matches_iff_declared_agrees :
  forall (live : SchemaCompare.ConnectionSchemaDetailsResponse),
    (forall cr : V1alpha1.ConnectorSchemaConfig,
        fst (SchemaCompare.CompareSchemaWithCR live (Some cr)) = true
        <-> CompareSpec.agrees live cr) /\
    SchemaCompare.CompareSchemaWithCR live None = (true, SchemaCompare.no_mismatch) /\
    (forall cr : option V1alpha1.ConnectorSchemaConfig,
        fst (SchemaCompare.CompareSchemaWithCR live cr)
        = negb (SchemaCompare.HasMismatch
                  (snd (SchemaCompare.CompareSchemaWithCR live cr)))).
Proof.
  intros live. split; [|split; [reflexivity|intros [cr|]; reflexivity]].
  intros cr. unfold SchemaCompare.CompareSchemaWithCR, CompareSpec.agrees. cbn [fst].
  rewrite negb_true_iff, compareSchema_fold_ok.
  destruct (String.eqb_spec (V1alpha1.SchemaChangeHandling cr) "") as [E|E];
    [|destruct (String.eqb_spec (SchemaCompare.data_SchemaChangeHandling live)
                                (V1alpha1.SchemaChangeHandling cr)) as [E'|E']];
    cbn; split; intros [H1 H2]; (split; [|exact H2]);
    try reflexivity; try congruence; try tauto.
Qed.

(** X5.  The comparator never looks at columns: a declared configuration
    and the same configuration with every column entry removed get the same
    verdict and the same report, so two declared configurations that differ
    in their columns only are not told apart. *)
Theorem comparator_ignores_columns :
  forall (live : SchemaCompare.ConnectionSchemaDetailsResponse),
    (forall cr : V1alpha1.ConnectorSchemaConfig,
        SchemaCompare.CompareSchemaWithCR live (Some (CompareSpec.without_columns cr))
        = SchemaCompare.CompareSchemaWithCR live (Some cr)) /\
    (forall cr1 cr2 : V1alpha1.ConnectorSchemaConfig,
        CompareSpec.without_columns cr1 = CompareSpec.without_columns cr2 ->
        SchemaCompare.CompareSchemaWithCR live (Some cr1)
        = SchemaCompare.CompareSchemaWithCR live (Some cr2)).
Proof.
  intros live.
  assert (H : forall cr,
             SchemaCompare.CompareSchemaWithCR live (Some (CompareSpec.without_columns cr))
             = SchemaCompare.CompareSchemaWithCR live (Some cr)).
  { intros cr. unfold SchemaCompare.CompareSchemaWithCR.
    cbn [CompareSpec.without_columns V1alpha1.Schemas V1alpha1.SchemaChangeHandling].
    rewrite fold_left_map.
    rewrite (fold_left_ext_in _ (SchemaCompare.compareSchema_step
                                   (SchemaCompare.data_Schemas live)));
      [reflexivity|].
    intros acc [n s] _. apply compareSchema_step_without_columns. }
  split; [exact H|]. intros cr1 cr2 E. now rewrite <- (H cr1), <- (H cr2), E.
Qed.

(** X6.  What the provider reports beyond the declaration does not count:
    two live schemas with the same change handling that agree, for every
    declared schema, on its presence, its enabled flag and its declared
    tables get the same verdict and report. *)
Theorem comparator_ignores_undeclared :
  forall (live1 live2 : SchemaCompare.ConnectionSchemaDetailsResponse)
         (cr : V1alpha1.ConnectorSchemaConfig),
    CompareSpec.same_on_declared live1 live2 cr ->
    SchemaCompare.CompareSchemaWithCR live1 (Some cr)
    = SchemaCompare.CompareSchemaWithCR live2 (Some cr).
Proof.
  intros live1 live2 cr [Hh Hs]. unfold SchemaCompare.CompareSchemaWithCR. rewrite Hh.
  rewrite (fold_left_ext_in _ (SchemaCompare.compareSchema_step
                                 (SchemaCompare.data_Schemas live2)));
    [reflexivity|].
  intros acc [n s] Hin. apply compareSchema_step_same_on_declared. now apply Hs.
Qed.

Lemma comparator_ignores_undeclared_witness :
  SchemaCompare.CompareSchemaWithCR
    (CompareSpec.with_live_schema CompareScenario.live "audit"
       {| SchemaCompare.sr_Enabled := Some false; SchemaCompare.sr_Tables := empty |})
    (Some CompareScenario.declared)
  = SchemaCompare.CompareSchemaWithCR CompareScenario.live (Some CompareScenario.declared).
Proof.
  apply comparator_ignores_undeclared. split; [reflexivity|].
  intros name s [[= <- <-]|[]]. vm_compute. split; reflexivity.
Defined.

(** X7.  A declared schema that the live schema lacks makes the verdict a
    mismatch, is listed among the missing schemas, and is named in the text
    of the report, on its "Missing Schemas: " line. *)
Theorem missing_schema_is_reported_by_name :
  forall (live : SchemaCompare.ConnectionSchemaDetailsResponse)
         (cr : V1alpha1.ConnectorSchemaConfig) (name : string) (s : V1alpha1.SchemaObject),
    In (name, s) (V1alpha1.Schemas cr) ->
    SchemaCompare.data_Schemas live !! name = None ->
    let r := SchemaCompare.CompareSchemaWithCR live (Some cr) in
    fst r = false /\
    In name (SchemaCompare.MissingSchemas (snd r)) /\
    GoStrings.Contains (SchemaCompare.SchemaMismatch_String (snd r))
      ("Missing Schemas: "
         +:+ GoStrings.Join (SchemaCompare.MissingSchemas (snd r)) ", ") = true /\
    GoStrings.Contains (SchemaCompare.SchemaMismatch_String (snd r)) name = true.
Proof.
  intros live cr name s Hin Hl r. subst r. unfold SchemaCompare.CompareSchemaWithCR.
  cbn [fst snd].
  match goal with
  | |- context [fold_left ?f ?l ?m0] =>
      destruct (compareSchema_fold_missing (SchemaCompare.data_Schemas live) l m0
                  name s Hin Hl) as [Hm Hmiss];
      set (m := fold_left f l m0) in *
  end.
  rewrite Hm. split; [reflexivity|]. split; [exact Hmiss|].
  now apply String_names_missing.
Qed.

Lemma missing_schema_is_reported_by_name_witness :
  GoStrings.Contains
    (SchemaCompare.SchemaMismatch_String
       (snd (SchemaCompare.CompareSchemaWithCR DriftScenario.live
               (Some CompareScenario.declared))))
    "test_schema" = true.
Proof.
  refine (proj2 (proj2 (proj2 (missing_schema_is_reported_by_name DriftScenario.live
            CompareScenario.declared "test_schema" _ _ _)))).
  - left. reflexivity.
  - reflexivity.
Defined.

(* --------------------------------------------------------------------- *)
(** ** Schema builder: errors, locality, and the request of a declaration *)
(* --------------------------------------------------------------------- *)

Section BuilderMore.
Import V1alpha1 Builder BuilderSpec.

Lemma apply_sticky b op e : err b = Some e -> apply b op = b.
Proof.
  intros H. destruct op; cbn;
    unfold WithSchemaChangeHandling, AddSchema, AddTable, AddColumn; now rewrite H.
Qed.

Lemma run_sticky ops b e : err b = Some e -> run ops b = b.
Proof.
  intros H. induction ops as [|op ops IH]; [reflexivity|].
  unfold run in *. cbn [fold_left]. now rewrite (apply_sticky _ _ _ H).
Qed.

Lemma with_schemas_id b : with_schemas b (schemas b) = b.
Proof. now destruct b. Qed.

Lemma Table_Table s table t1 t2 : Table (Table s table t1) table t2 = Table s table t2.
Proof. unfold Table. cbn. now rewrite insert_insert_eq. Qed.

Lemma AddColumn_ok b schema table column enabled hashed pk s0 :
  err b = None -> schemas b !! schema = Some s0 ->
  schema <> "" -> table <> "" -> column <> "" ->
  AddColumn b schema table column enabled hashed pk
  = with_schemas b
      (<[schema := Table s0 table
                     (Column empty_table column
                        {| cc_enabled := Some enabled; cc_hashed := Some hashed;
                           cc_isPrimaryKey := Some pk |})]> (schemas b)).
Proof.
  intros He Hs H1 H2 H3. unfold AddColumn. rewrite He.
  destruct (String.eqb_spec schema ""); [contradiction|].
  destruct (String.eqb_spec table ""); [contradiction|].
  destruct (String.eqb_spec column ""); [contradiction|]. cbn. now rewrite Hs.
Qed.

Lemma AddTable_ok b schema table enabled syncMode s0 :
  err b = None -> schemas b !! schema = Some s0 -> schema <> "" -> table <> "" ->
  AddTable b schema table enabled syncMode
  = with_schemas b
      (<[schema := Table s0 table
                     {| tc_enabled := Some enabled;
                        tc_syncMode := Provider.if_nonempty syncMode;
                        tc_columns := empty |}]> (schemas b)).
Proof.
  intros He Hs H1 H2. unfold AddTable. rewrite He.
  destruct (String.eqb_spec schema ""); [contradiction|].
  destruct (String.eqb_spec table ""); [contradiction|]. cbn. now rewrite Hs.
Qed.

Lemma AddSchema_ok b name enabled :
  err b = None -> name <> "" ->
  AddSchema b name enabled
  = with_schemas b (<[name := {| sc_enabled := Some enabled; sc_tables := empty |}]>
                      (schemas b)).
Proof.
  intros He H1. unfold AddSchema. rewrite He.
  destruct (String.eqb_spec name ""); [contradiction|reflexivity].
Qed.

Lemma nonempty_true s : nonempty s = true <-> s <> "".
Proof. unfold nonempty. destruct (String.eqb_spec s ""); cbn; split; congruence. Qed.

Lemma last_entry_None {V} (l : list (string * V)) : last_entry l = None -> l = [].
Proof.
  induction l as [|e [|e' l] IH]; [reflexivity|discriminate|].
  intros H. apply IH in H. discriminate.
Qed.

Lemma processTableColumns_ok columns :
  forall b schema table s0,
    err b = None -> schemas b !! schema = Some s0 -> schema <> "" -> table <> "" ->
    forallb (fun c : string * ColumnObject => nonempty (fst c)) columns = true ->
    Controller.processTableColumns b schema table columns
    = match last_entry columns with
      | None => b
      | Some (name, c) =>
          with_schemas b
            (<[schema := Table s0 table (Column empty_table name (sent_column c))]>
               (schemas b))
      end.
Proof.
  induction columns as [|[cn c] rest IH]; intros b schema table s0 He Hs H1 H2 Hwn;
    [reflexivity|].
  cbn [forallb fst] in Hwn. apply andb_true_iff in Hwn. destruct Hwn as [Hc Hrest].
  apply nonempty_true in Hc.
  unfold Controller.processTableColumns in *. cbn [fold_left fst snd].
  rewrite (AddColumn_ok _ _ _ _ _ _ _ s0 He Hs H1 H2 Hc).
  rewrite (IH _ schema table
              (Table s0 table (Column empty_table cn (sent_column c))));
    try assumption; try reflexivity.
  - destruct rest as [|x rest']; [reflexivity|].
    change (last_entry ((cn, c) :: x :: rest')) with (last_entry (x :: rest')).
    destruct (last_entry (x :: rest')) as [[name c']|] eqn:El;
      [|now apply last_entry_None in El].
    cbn. now rewrite insert_insert_eq, Table_Table.
  - cbn. apply lookup_insert_eq.
Qed.

Lemma processSchemaTable_ok tables :
  forall b schema s0,
    err b = None -> schemas b !! schema = Some s0 -> schema <> "" ->
    forallb table_well_named tables = true ->
    Controller.processSchemaTable b schema tables
    = with_schemas b
        (<[schema := {| sc_enabled := sc_enabled s0;
                        sc_tables := sent_tables tables (sc_tables s0) |}]> (schemas b)).
Proof.
  induction tables as [|[tn t] rest IH]; intros b schema s0 He Hs H1 Hwn.
  - cbn. destruct s0 as [en tbls]. cbn. rewrite insert_id by exact Hs.
    symmetry. apply with_schemas_id.
  - cbn [forallb] in Hwn. apply andb_true_iff in Hwn. destruct Hwn as [Ht Hrest].
    unfold table_well_named in Ht. cbn [fst snd] in Ht.
    apply andb_true_iff in Ht. destruct Ht as [Htn Hcols]. apply nonempty_true in Htn.
    unfold Controller.processSchemaTable in *. cbn [fold_left fst snd].
    rewrite (AddTable_ok _ _ _ _ _ s0 He Hs H1 Htn).
    set (T := {| tc_enabled := Some (tbl_Enabled t);
                 tc_syncMode := Provider.if_nonempty (tbl_SyncMode t);
                 tc_columns := empty |}).
    rewrite (processTableColumns_ok _ _ schema tn (Table s0 tn T));
      try assumption; try reflexivity; [|cbn; apply lookup_insert_eq].
    assert (Hstep :
              match last_entry (tbl_Columns t) with
              | None => with_schemas b (<[schema := Table s0 tn T]> (schemas b))
              | Some (name, c) =>
                  with_schemas (with_schemas b (<[schema := Table s0 tn T]> (schemas b)))
                    (<[schema := Table (Table s0 tn T) tn
                                   (Column empty_table name (sent_column c))]>
                       (schemas (with_schemas b (<[schema := Table s0 tn T]> (schemas b)))))
              end
              = with_schemas b (<[schema := Table s0 tn (sent_table t)]> (schemas b))).
    { unfold sent_table. destruct (last_entry (tbl_Columns t)) as [[name c]|];
        [|reflexivity].
      cbn. now rewrite insert_insert_eq, Table_Table. }
    rewrite Hstep.
    rewrite (IH _ schema (Table s0 tn (sent_table t)));
      try assumption; try reflexivity; [|cbn; apply lookup_insert_eq].
    cbn. now rewrite insert_insert_eq.
Qed.

Lemma convert_fold_ok l :
  forall b,
    err b = None -> forallb schema_well_named l = true ->
    fold_left (fun b e => Controller.processSchemaTable
                            (AddSchema b (fst e) (sch_Enabled (snd e)))
                            (fst e) (sch_Tables (snd e))) l b
    = with_schemas b (sent_schemas l (schemas b)).
Proof.
  induction l as [|[n s] rest IH]; intros b He Hwn.
  - cbn. symmetry. apply with_schemas_id.
  - cbn [forallb] in Hwn. apply andb_true_iff in Hwn. destruct Hwn as [Hs Hrest].
    unfold schema_well_named in Hs. cbn [fst snd] in Hs.
    apply andb_true_iff in Hs. destruct Hs as [Hn Htabs]. apply nonempty_true in Hn.
    cbn [fold_left fst snd].
    rewrite (AddSchema_ok _ _ _ He Hn).
    rewrite (processSchemaTable_ok _ _ n
               {| sc_enabled := Some (sch_Enabled s); sc_tables := empty |});
      try assumption; try reflexivity; [|cbn; apply lookup_insert_eq].
    cbn [sc_enabled sc_tables schemas with_schemas]. rewrite insert_insert_eq.
    fold (sent_schema s).
    rewrite IH; [|exact He|exact Hrest]. reflexivity.
Qed.

(** Lookups in a map built by inserting the entries of a list whose keys
    are distinct. *)
Lemma fold_insert_lookup {A B} (f : A -> B) (l : list (string * A)) :
  forall m : gmap string B,
    List.NoDup (map fst l) ->
    let m' := fold_left (fun m e => <[fst e := f (snd e)]> m) l m in
    (forall k v, In (k, v) l -> m' !! k = Some (f v)) /\
    (forall k, ~ In k (map fst l) -> m' !! k = m !! k).
Proof.
  induction l as [|[k0 v0] rest IH]; intros m Hnd; cbn [fold_left fst snd].
  - split; [intros ? ? []|reflexivity].
  - inversion Hnd as [|? ? Hnin Hnd']; subst.
    destruct (IH (<[k0 := f v0]> m) Hnd') as [Hin Hout]. split.
    + intros k v [[= <- <-]|H]; [|now apply Hin].
      rewrite Hout by exact Hnin. apply lookup_insert_eq.
    + intros k Hk. rewrite Hout; [|intros H; apply Hk; now right].
      apply lookup_insert_ne. intros ->. apply Hk. now left.
Qed.

(** Errors: what a failing conversion says about the declaration. *)
Lemma AddColumn_err_None b schema table column enabled hashed pk :
  err (AddColumn b schema table column enabled hashed pk) = None ->
  err b = None /\ column <> "".
Proof.
  unfold AddColumn. destruct (err b) eqn:He; [congruence|].
  destruct (String.eqb_spec schema ""); [discriminate|].
  destruct (String.eqb_spec table ""); [discriminate|].
  destruct (String.eqb_spec column ""); [discriminate|]. auto.
Qed.

Lemma AddTable_err_None b schema table enabled syncMode :
  err (AddTable b schema table enabled syncMode) = None -> err b = None /\ table <> "".
Proof.
  unfold AddTable. destruct (err b) eqn:He; [congruence|].
  destruct (String.eqb_spec schema ""); [discriminate|].
  destruct (String.eqb_spec table ""); [discriminate|]. auto.
Qed.

Lemma AddSchema_err_None b name enabled :
  err (AddSchema b name enabled) = None -> err b = None /\ name <> "".
Proof.
  unfold AddSchema. destruct (err b) eqn:He; [congruence|].
  destruct (String.eqb_spec name ""); [discriminate|]. auto.
Qed.

Lemma processTableColumns_err_None columns :
  forall b schema table,
    err (Controller.processTableColumns b schema table columns) = None ->
    err b = None /\ forallb (fun c : string * ColumnObject => nonempty (fst c)) columns = true.
Proof.
  induction columns as [|[cn c] rest IH]; intros b schema table H; [now split|].
  unfold Controller.processTableColumns in *. cbn [fold_left fst snd] in H.
  destruct (IH _ _ _ H) as [H1 H2]. destruct (AddColumn_err_None _ _ _ _ _ _ _ H1) as [H3 H4].
  split; [exact H3|]. cbn [forallb fst]. rewrite H2. apply nonempty_true in H4. now rewrite H4.
Qed.

Lemma processSchemaTable_err_None tables :
  forall b schema,
    err (Controller.processSchemaTable b schema tables) = None ->
    err b = None /\ forallb table_well_named tables = true.
Proof.
  induction tables as [|[tn t] rest IH]; intros b schema H; [now split|].
  unfold Controller.processSchemaTable in *. cbn [fold_left fst snd] in H.
  destruct (IH _ _ H) as [H1 H2].
  destruct (processTableColumns_err_None _ _ _ _ H1) as [H3 H4].
  destruct (AddTable_err_None _ _ _ _ _ H3) as [H5 H6].
  split; [exact H5|]. cbn [forallb]. rewrite H2. unfold table_well_named. cbn [fst snd].
  apply nonempty_true in H6. now rewrite H6, H4.
Qed.

Lemma convert_fold_err_None l :
  forall b,
    err (fold_left (fun b e => Controller.processSchemaTable
                                 (AddSchema b (fst e) (sch_Enabled (snd e)))
                                 (fst e) (sch_Tables (snd e))) l b) = None ->
    err b = None /\ forallb schema_well_named l = true.
Proof.
  induction l as [|[n s] rest IH]; intros b H; [now split|].
  cbn [fold_left fst snd] in H. destruct (IH _ H) as [H1 H2].
  destruct (processSchemaTable_err_None _ _ _ H1) as [H3 H4].
  destruct (AddSchema_err_None _ _ _ H3) as [H5 H6].
  split; [exact H5|]. cbn [forallb]. rewrite H2. unfold schema_well_named. cbn [fst snd].
  apply nonempty_true in H6. now rewrite H6, H4.
Qed.

Lemma convertSchema_ok cr :
  well_named cr = true ->
  Controller.convertSchema (Some cr)
  = Some {| schemas := sent_schemas (Schemas cr) empty;
            schemaChangeHandling := SchemaChangeHandling cr;
            err := None |}.
Proof.
  intros Hwn. unfold Controller.convertSchema. f_equal.
  destruct (String.eqb_spec (SchemaChangeHandling cr) "") as [E|E]; cbn [negb].
  - rewrite convert_fold_ok; [|reflexivity|exact Hwn]. cbn. now rewrite E.
  - rewrite convert_fold_ok; [|reflexivity|exact Hwn]. reflexivity.
Qed.

Lemma convertSchema_err cr b :
  Controller.convertSchema (Some cr) = Some b -> err b = None -> well_named cr = true.
Proof.
  unfold Controller.convertSchema. intros [= <-] H.
  now destruct (convert_fold_err_None _ _ H).
Qed.

End BuilderMore.

Section BuilderErrors.
Import V1alpha1 Builder BuilderSpec.

Lemma AddColumn_okay b schema table column enabled hashed pk :
  okay b schema -> okay (AddColumn b schema table column enabled hashed pk) schema.
Proof.
  unfold okay, AddColumn. destruct (err b) eqn:He; [now rewrite He|].
  intros [s Hs]. repeat (break_match; cbn; try rewrite He); cbn; auto;
    try congruence; try (rewrite lookup_insert_eq; eauto).
Qed.

Lemma AddTable_okay b schema table enabled syncMode :
  okay b schema -> okay (AddTable b schema table enabled syncMode) schema.
Proof.
  unfold okay, AddTable. destruct (err b) eqn:He; [now rewrite He|].
  intros [s Hs]. repeat (break_match; cbn; try rewrite He); cbn; auto;
    try congruence; try (rewrite lookup_insert_eq; eauto).
Qed.

Lemma processTableColumns_okay columns :
  forall b schema table,
    okay b schema -> okay (Controller.processTableColumns b schema table columns) schema.
Proof.
  induction columns as [|[cn c] rest IH]; intros b schema table H; [exact H|].
  unfold Controller.processTableColumns in *. cbn [fold_left]. apply IH.
  now apply AddColumn_okay.
Qed.

Lemma processSchemaTable_okay tables :
  forall b schema,
    okay b schema -> okay (Controller.processSchemaTable b schema tables) schema.
Proof.
  induction tables as [|[tn t] rest IH]; intros b schema H; [exact H|].
  unfold Controller.processSchemaTable in *. cbn [fold_left]. apply IH.
  now apply processTableColumns_okay, AddTable_okay.
Qed.

Lemma convert_fold_errors l :
  forall b,
    match err b with None => True | Some e => In e empty_name_errors end ->
    match err (fold_left (fun b e => Controller.processSchemaTable
                                       (AddSchema b (fst e) (sch_Enabled (snd e)))
                                       (fst e) (sch_Tables (snd e))) l b) with
    | None => True
    | Some e => In e empty_name_errors
    end.
Proof.
  induction l as [|[n s] rest IH]; intros b H; [exact H|].
  cbn [fold_left fst snd]. apply IH.
  assert (Hk : okay (AddSchema b n (sch_Enabled s)) n).
  { unfold okay, AddSchema. destruct (err b) eqn:He; [now rewrite He|].
    destruct (String.eqb n ""); cbn; [auto|]. rewrite He, lookup_insert_eq. eauto. }
  apply (processSchemaTable_okay (sch_Tables s)) in Hk. unfold okay in Hk.
  revert Hk. destruct (err (Controller.processSchemaTable _ _ _)); auto.
Qed.

Lemma convertSchema_errors cr b e :
  Controller.convertSchema (Some cr) = Some b -> err b = Some e ->
  In e empty_name_errors.
Proof.
  unfold Controller.convertSchema. intros [= <-] H.
  match type of H with
  | err (fold_left ?f ?l ?b0) = _ =>
      pose proof (convert_fold_errors l b0) as Hc; cbv beta in Hc; rewrite H in Hc
  end.
  apply Hc. destruct (negb _); exact I.
Qed.

End BuilderErrors.

(** X8.  The first error of a builder wins: once a call has failed, every
    later call (of any kind, in any number) leaves the builder as it is, and
    Build returns that error with no schemas and no change handling. *)
Theorem builder_first_error_wins :
  (forall (b : Builder.SchemaBuilder) (e : GoError.error) (ops : list BuilderSpec.Op),
      Builder.err b = Some e ->
      BuilderSpec.run ops b = b /\
      Builder.Build (BuilderSpec.run ops b) = (empty, "", Some e)) /\
  (forall (b : Builder.SchemaBuilder) (op : BuilderSpec.Op) (e : GoError.error)
          (ops : list BuilderSpec.Op),
      Builder.err (BuilderSpec.apply b op) = Some e ->
      Builder.Build (BuilderSpec.run (op :: ops) b) = (empty, "", Some e)).
Proof.
  assert (H : forall b e ops, Builder.err b = Some e ->
                BuilderSpec.run ops b = b /\
                Builder.Build (BuilderSpec.run ops b) = (empty, "", Some e)).
  { intros b e ops He. rewrite (run_sticky ops b e He). split; [reflexivity|].
    unfold Builder.Build. now rewrite He. }
  split; [exact H|]. intros b op e ops He.
  change (BuilderSpec.run (op :: ops) b) with (BuilderSpec.run ops (BuilderSpec.apply b op)).
  now apply H.
Qed.

Lemma builder_first_error_wins_witness :
  Builder.Build
    (BuilderSpec.run
       [BuilderSpec.OpSchema "" true; BuilderSpec.OpSchema "sales" true;
        BuilderSpec.OpTable "sales" "orders" true "HISTORY"]
       Builder.NewSchemaBuilder)
  = (empty, "", Some (GoError.New "schema name cannot be empty")).
Proof.
  apply (proj2 builder_first_error_wins Builder.NewSchemaBuilder
           (BuilderSpec.OpSchema "" true)).
  reflexivity.
Defined.

(** X9.  On a builder without error: AddSchema fails exactly on the empty
    name; AddTable fails exactly when the schema or table name is empty or
    the schema was never added; AddColumn fails exactly when one of the
    three names is empty or the schema was never added (the table need not
    exist); WithSchemaChangeHandling never fails, whatever the policy. *)
Theorem builder_fails_on_empty_or_unknown_names :
  forall b : Builder.SchemaBuilder,
    Builder.err b = None ->
    (forall name enabled,
        Builder.err (Builder.AddSchema b name enabled) = None <-> name <> "") /\
    (forall schema table enabled syncMode,
        Builder.err (Builder.AddTable b schema table enabled syncMode) = None
        <-> schema <> "" /\ table <> "" /\ is_Some (Builder.schemas b !! schema)) /\
    (forall schema table column enabled hashed isPrimaryKey,
        Builder.err (Builder.AddColumn b schema table column enabled hashed isPrimaryKey)
        = None
        <-> schema <> "" /\ table <> "" /\ column <> ""
            /\ is_Some (Builder.schemas b !! schema)) /\
    (forall handling,
        Builder.err (Builder.WithSchemaChangeHandling b handling) = None).
Proof.
  intros b He. split; [|split; [|split]].
  - intros name enabled. unfold Builder.AddSchema. rewrite He.
    destruct (String.eqb_spec name ""); cbn; [split; congruence|].
    split; [auto|intros _; exact He].
  - intros schema table enabled syncMode. unfold Builder.AddTable. rewrite He.
    destruct (String.eqb_spec schema ""), (String.eqb_spec table ""); cbn;
      try (split; [discriminate|tauto]).
    destruct (Builder.schemas b !! schema) as [s|]; cbn.
    + split; [eauto|intros _; exact He].
    + split; [discriminate|]. intros (_ & _ & [s Hs]). discriminate.
  - intros schema table column enabled hashed pk. unfold Builder.AddColumn. rewrite He.
    destruct (String.eqb_spec schema ""), (String.eqb_spec table ""),
      (String.eqb_spec column ""); cbn; try (split; [discriminate|tauto]).
    destruct (Builder.schemas b !! schema) as [s|]; cbn.
    + split; [eauto|intros _; exact He].
    + split; [discriminate|]. intros (_ & _ & _ & [s Hs]). discriminate.
  - intros handling. unfold Builder.WithSchemaChangeHandling. now rewrite He.
Qed.

Lemma builder_fails_on_empty_or_unknown_names_witness :
  Builder.err (Builder.AddTable Builder.NewSchemaBuilder "sales" "orders" true "") = None
  <-> "sales" <> "" /\ "orders" <> ""
      /\ is_Some (Builder.schemas Builder.NewSchemaBuilder !! "sales").
Proof.
  exact (proj1 (proj2 (builder_fails_on_empty_or_unknown_names Builder.NewSchemaBuilder
                         eq_refl)) "sales" "orders" true "").
Defined.

(** X10.  A successful call changes only the entry it names.  AddSchema
    installs a schema with the given flag and no table, replacing whatever
    the name held, and leaves every other schema alone.  AddTable and
    AddColumn leave every other schema alone and, in their schema, keep the
    enabled flag and every other table.  None of them changes the change
    handling, and WithSchemaChangeHandling changes nothing else. *)
Theorem builder_calls_are_local :
  forall b : Builder.SchemaBuilder,
    Builder.err b = None ->
    (forall name enabled,
        name <> "" ->
        let b' := Builder.AddSchema b name enabled in
        Builder.schemas b' !! name
        = Some {| Builder.sc_enabled := Some enabled; Builder.sc_tables := empty |} /\
        (forall other, other <> name ->
                       Builder.schemas b' !! other = Builder.schemas b !! other) /\
        Builder.schemaChangeHandling b' = Builder.schemaChangeHandling b) /\
    (forall schema table s,
        schema <> "" -> table <> "" -> Builder.schemas b !! schema = Some s ->
        forall b',
          (exists enabled syncMode, b' = Builder.AddTable b schema table enabled syncMode) \/
          (exists column enabled hashed isPrimaryKey,
              column <> "" /\
              b' = Builder.AddColumn b schema table column enabled hashed isPrimaryKey) ->
          (forall other, other <> schema ->
                         Builder.schemas b' !! other = Builder.schemas b !! other) /\
          (exists s', Builder.schemas b' !! schema = Some s' /\
                      Builder.sc_enabled s' = Builder.sc_enabled s /\
                      forall t, t <> table ->
                                Builder.sc_tables s' !! t = Builder.sc_tables s !! t) /\
          Builder.schemaChangeHandling b' = Builder.schemaChangeHandling b) /\
    (forall handling,
        Builder.WithSchemaChangeHandling b handling
        = {| Builder.schemas := Builder.schemas b;
             Builder.schemaChangeHandling := handling;
             Builder.err := None |}).
Proof.
  intros b He. split; [|split].
  - intros name enabled Hn b'. subst b'. rewrite (AddSchema_ok _ _ _ He Hn). cbn.
    split; [apply lookup_insert_eq|]. split; [|reflexivity].
    intros other Ho. now apply lookup_insert_ne.
  - intros schema table s Hs0 Ht0 Hs b' Hb'.
    assert (Hshape : exists T, b' = Builder.with_schemas b
                                      (<[schema := Builder.Table s table T]>
                                         (Builder.schemas b))).
    { destruct Hb' as [(enabled & syncMode & ->)|(column & enabled & hashed & pk & Hc & ->)].
      - eexists. now apply AddTable_ok.
      - eexists. now apply AddColumn_ok. }
    destruct Hshape as [T ->]. cbn. split; [|split; [|reflexivity]].
    + intros other Ho. now apply lookup_insert_ne.
    + eexists. split; [apply lookup_insert_eq|]. cbn. split; [reflexivity|].
      intros t Ht. now apply lookup_insert_ne.
  - intros handling. unfold Builder.WithSchemaChangeHandling. now rewrite He.
Qed.

Lemma builder_calls_are_local_witness :
  Builder.schemas (Builder.AddSchema BuilderScenario.base "sales" false) !! "sales"
  = Some {| Builder.sc_enabled := Some false; Builder.sc_tables := empty |}.
Proof.
  refine (proj1 (proj1 (builder_calls_are_local BuilderScenario.base _)
                   "sales" false _)).
  - reflexivity.
  - discriminate.
Defined.

(** X11.  For a declaration whose schema, table and column names are all
    non-empty and in which no schema name and, within a schema, no table
    name occurs twice, convertSchema gives a builder that builds without
    error: the change handling is the declared one; the request holds
    exactly the declared schemas, each with its declared flag and exactly
    its declared tables; a table that declares no column is sent with its
    flag and its sync mode (none when empty), while a table that declares
    columns is sent without flag and sync mode and with the one column that
    was visited last.  applySchema sends exactly this request first. *)
Theorem declared_schema_request :
  forall cr : V1alpha1.ConnectorSchemaConfig,
    BuilderSpec.well_named cr = true ->
    KeyOrder.UniqueKeys (V1alpha1.Schemas cr) ->
    (forall n s, In (n, s) (V1alpha1.Schemas cr) ->
                 KeyOrder.UniqueKeys (V1alpha1.sch_Tables s)) ->
    exists b : Builder.SchemaBuilder,
      Controller.convertSchema (Some cr) = Some b /\
      snd (Builder.Build b) = None /\
      snd (fst (Builder.Build b)) = V1alpha1.SchemaChangeHandling cr /\
      (forall n, ~ In n (map fst (V1alpha1.Schemas cr)) ->
                 fst (fst (Builder.Build b)) !! n = None) /\
      (forall n s,
          In (n, s) (V1alpha1.Schemas cr) ->
          exists sc,
            fst (fst (Builder.Build b)) !! n = Some sc /\
            Builder.sc_enabled sc = Some (V1alpha1.sch_Enabled s) /\
            (forall tn, ~ In tn (map fst (V1alpha1.sch_Tables s)) ->
                        Builder.sc_tables sc !! tn = None) /\
            (forall tn t, In (tn, t) (V1alpha1.sch_Tables s) ->
                          Builder.sc_tables sc !! tn = Some (BuilderSpec.sent_table t))) /\
      (forall (env : Provider.Env) (w : Provider.World) (connectorID : string),
          V1alpha1.ConnectorSchemas (V1alpha1.Spec (Provider.obj w)) = Some cr ->
          exists rest,
            Provider.history (snd (Controller.applySchema connectorID env w))
            = Provider.history w
              ++ Provider.SchemaUpdateDo connectorID
                   (Provider.if_nonempty (V1alpha1.SchemaChangeHandling cr))
                   (fst (fst (Builder.Build b)))
                 :: rest).
Proof.
  intros cr Hwn Hu Hut. eexists. split; [apply (convertSchema_ok cr Hwn)|].
  cbn [Builder.Build Builder.err fst snd Builder.schemas Builder.schemaChangeHandling].
  split; [reflexivity|]. split; [reflexivity|].
  apply NoDup_ListNoDup in Hu.
  destruct (fold_insert_lookup BuilderSpec.sent_schema (V1alpha1.Schemas cr) empty Hu)
    as [Hin Hout].
  split; [|split].
  - intros n Hn. unfold BuilderSpec.sent_schemas. rewrite (Hout n Hn). apply lookup_empty.
  - intros n s Hs. exists (BuilderSpec.sent_schema s).
    split; [apply (Hin n s Hs)|]. split; [reflexivity|].
    specialize (Hut n s Hs). apply NoDup_ListNoDup in Hut.
    destruct (fold_insert_lookup BuilderSpec.sent_table (V1alpha1.sch_Tables s) empty Hut)
      as [Hin' Hout'].
    cbn [BuilderSpec.sent_schema Builder.sc_tables]. split.
    + intros tn Htn. unfold BuilderSpec.sent_tables. rewrite (Hout' tn Htn).
      apply lookup_empty.
    + intros tn t Ht. apply (Hin' tn t Ht).
  - intros env w connectorID Hcr.
    unfold Controller.applySchema, Controller.updateSchemaHash, Services.UpdateSchema,
      Controller.Update, Provider.call, Provider.set_obj, Provider.bind, Provider.ret,
      Provider.get_obj.
    cbn. rewrite Hcr, (convertSchema_ok cr Hwn). cbn.
    repeat (break_match; cbn); rewrite <- ?app_assoc; eauto.
Qed.

Lemma declared_schema_request_witness :
  exists b : Builder.SchemaBuilder,
    Controller.convertSchema (Some FingerprintScenario.schemas_1) = Some b /\
    snd (Builder.Build b) = None.
Proof.
  destruct (declared_schema_request FingerprintScenario.schemas_1) as (b & H1 & H2 & _).
  - reflexivity.
  - unfold KeyOrder.UniqueKeys. simpl. repeat constructor;
      rewrite ?list_elem_of_In; simpl; intuition discriminate.
  - intros n s [[= <- <-]|[[= <- <-]|[]]]; unfold KeyOrder.UniqueKeys; simpl;
      repeat constructor; rewrite ?list_elem_of_In; simpl; intuition discriminate.
  - now exists b.
Defined.

(** X12.  A declaration with an empty schema, table or column name is never
    sent: applySchema makes no call at all (neither to the provider nor to
    the API server), leaves the object as it is, and returns the builder's
    error about the empty name, wrapped.  Conversely a declaration without
    empty names always converts to a builder without error. *)
Theorem badly_named_schema_is_not_sent :
  (forall (env : Provider.Env) (w : Provider.World) (connectorID : string)
          (cr : V1alpha1.ConnectorSchemaConfig),
      V1alpha1.ConnectorSchemas (V1alpha1.Spec (Provider.obj w)) = Some cr ->
      BuilderSpec.well_named cr = false ->
      exists e,
        In e BuilderSpec.empty_name_errors /\
        Controller.applySchema connectorID env w
        = (Some (GoError.Wrap "applySchema: "
                   (GoError.Wrap "failed to build schema config: " e "") ""),
           w)) /\
  (forall (cr : V1alpha1.ConnectorSchemaConfig) (b : Builder.SchemaBuilder),
      Controller.convertSchema (Some cr) = Some b ->
      (Builder.err b = None <-> BuilderSpec.well_named cr = true)).
Proof.
  split.
  - intros env w connectorID cr Hcr Hwn.
    destruct (Controller.convertSchema (Some cr)) as [b|] eqn:Hb; [|discriminate].
    destruct (Builder.err b) as [e|] eqn:He.
    2:{ rewrite (convertSchema_err cr b Hb He) in Hwn. discriminate. }
    exists e. split; [exact (convertSchema_errors cr b e Hb He)|].
    unfold Controller.applySchema, Services.UpdateSchema, Provider.bind, Provider.ret,
      Provider.get_obj.
    cbn. rewrite Hcr, Hb. unfold Builder.Build. rewrite He. destruct w. reflexivity.
  - intros cr b Hb. split; [apply (convertSchema_err cr b Hb)|].
    intros Hwn. rewrite (convertSchema_ok cr Hwn) in Hb. now injection Hb as <-.
Qed.

Lemma badly_named_schema_is_not_sent_witness :
  exists e,
    In e BuilderSpec.empty_name_errors /\
    Controller.applySchema "conn_1" DriftScenario.env
      {| Provider.history := [];
         Provider.obj :=
           KeyOrder.connector_with_schemas
             {| V1alpha1.Schemas :=
                  [("sales", {| V1alpha1.sch_Enabled := true;
                                V1alpha1.sch_Tables :=
                                  [("", FingerprintScenario.table [])] |})];
                V1alpha1.SchemaChangeHandling := "" |} |}
    = (Some (GoError.Wrap "applySchema: "
               (GoError.Wrap "failed to build schema config: " e "") ""),
       {| Provider.history := [];
          Provider.obj :=
            KeyOrder.connector_with_schemas
              {| V1alpha1.Schemas :=
                   [("sales", {| V1alpha1.sch_Enabled := true;
                                 V1alpha1.sch_Tables :=
                                   [("", FingerprintScenario.table [])] |})];
                 V1alpha1.SchemaChangeHandling := "" |} |}).
Proof.
  apply (proj1 badly_named_schema_is_not_sent DriftScenario.env _ "conn_1"
           {| V1alpha1.Schemas :=
                [("sales", {| V1alpha1.sch_Enabled := true;
                              V1alpha1.sch_Tables :=
                                [("", FingerprintScenario.table [])] |})];
              V1alpha1.SchemaChangeHandling := "" |}).
  - reflexivity.
  - reflexivity.
Defined.

(* --------------------------------------------------------------------- *)
(** ** Deletion and the finalizer *)
(* --------------------------------------------------------------------- *)

Section LifecycleFacts.
Import V1alpha1 Provider Lifecycle.

Lemma ContainsFinalizer_In o f : ContainsFinalizer o f = true <-> In f (Finalizers o).
Proof.
  unfold ContainsFinalizer. rewrite existsb_exists. split.
  - intros (x & Hx & E). apply String.eqb_eq in E. now subst.
  - intros H. exists f. split; [exact H|apply String.eqb_refl].
Qed.

Lemma RemoveFinalizer_In o f g :
  In g (Finalizers (RemoveFinalizer o f)) <-> In g (Finalizers o) /\ g <> f.
Proof.
  unfold RemoveFinalizer. cbn. rewrite filter_In.
  destruct (String.eqb_spec g f); cbn; intuition congruence.
Qed.

Lemma RemoveFinalizer_gone o f : ContainsFinalizer (RemoveFinalizer o f) f = false.
Proof.
  destruct (ContainsFinalizer (RemoveFinalizer o f) f) eqn:E; [|reflexivity].
  apply ContainsFinalizer_In, RemoveFinalizer_In in E. now destruct E.
Qed.

Lemma filter_all {A} (p : A -> bool) (l : list A) :
  (forall x, In x l -> p x = true) -> List.filter p l = l.
Proof.
  induction l as [|x l IH]; intros H; cbn; [reflexivity|].
  rewrite (H x (or_introl eq_refl)), IH; [reflexivity|]. intros y Hy. apply H. now right.
Qed.

Lemma Remove_Add o f :
  ContainsFinalizer o f = false -> RemoveFinalizer (AddFinalizer o f) f = o.
Proof.
  intros H. unfold AddFinalizer. rewrite H. unfold RemoveFinalizer, with_finalizers. cbn.
  rewrite List.filter_app. cbn. rewrite String.eqb_refl. cbn. rewrite app_nil_r.
  rewrite filter_all; [now destruct o|].
  intros x Hx. destruct (String.eqb_spec x f) as [->|]; [|reflexivity].
  apply ContainsFinalizer_In in Hx. congruence.
Qed.

End LifecycleFacts.

(** X13.  handleDeletion gives the finalizer up only when nothing is left
    at the provider.  Without the operator's finalizer it does nothing.
    With it and a known connector, the first call deletes the connector at
    the provider; if that fails, the error comes back, nothing is written
    and the finalizer stays.  Only after a successful deletion, or when no
    connector is known, the object is written once, without the operator's
    finalizer and with every other finalizer kept, and the result is the
    outcome of that write. *)
Theorem finalizer_outlives_the_remote_connector :
  forall (env : Lifecycle.Env) (w : Lifecycle.World),
    let o := Lifecycle.obj w in
    let id := V1alpha1.ConnectorID (V1alpha1.Status (Lifecycle.resource o)) in
    let released := Lifecycle.RemoveFinalizer o Lifecycle.fivetranFinalizer in
    (Lifecycle.ContainsFinalizer o Lifecycle.fivetranFinalizer = false ->
     Lifecycle.handleDeletion env w = (None, w)) /\
    (Lifecycle.ContainsFinalizer o Lifecycle.fivetranFinalizer = true ->
     id <> "" ->
     forall resp sdk,
       Lifecycle.reply_ConnectionDelete env (Lifecycle.history w) id = (resp, Some sdk) ->
       Lifecycle.handleDeletion env w
       = (Some (GoError.API (ApiErrors.of_response resp sdk)),
          {| Lifecycle.history := Lifecycle.history w ++ [Lifecycle.ConnectionDeleteDo id];
             Lifecycle.obj := o |})) /\
    (Lifecycle.ContainsFinalizer o Lifecycle.fivetranFinalizer = true ->
     id <> "" ->
     forall resp,
       Lifecycle.reply_ConnectionDelete env (Lifecycle.history w) id = (resp, None) ->
       Lifecycle.handleDeletion env w
       = (Lifecycle.reply_K8sUpdate env
            (Lifecycle.history w ++ [Lifecycle.ConnectionDeleteDo id]) released,
          {| Lifecycle.history :=
               Lifecycle.history w
               ++ [Lifecycle.ConnectionDeleteDo id; Lifecycle.K8sUpdate released];
             Lifecycle.obj := released |})) /\
    (Lifecycle.ContainsFinalizer o Lifecycle.fivetranFinalizer = true ->
     id = "" ->
     Lifecycle.handleDeletion env w
     = (Lifecycle.reply_K8sUpdate env (Lifecycle.history w) released,
        {| Lifecycle.history := Lifecycle.history w ++ [Lifecycle.K8sUpdate released];
           Lifecycle.obj := released |})) /\
    Lifecycle.ContainsFinalizer released Lifecycle.fivetranFinalizer = false /\
    (forall g, In g (Lifecycle.Finalizers released)
               <-> In g (Lifecycle.Finalizers o) /\ g <> Lifecycle.fivetranFinalizer).
Proof.
  intros env w o id released. unfold Lifecycle.handleDeletion.
  fold o. fold id. split; [|split; [|split; [|split; [|split]]]].
  - intros ->. reflexivity.
  - intros -> Hid resp sdk Hr. cbn [negb].
    destruct (String.eqb_spec id ""); [contradiction|]. cbn [negb].
    unfold Lifecycle.DeleteConnection. now rewrite Hr.
  - intros -> Hid resp Hr. cbn [negb].
    destruct (String.eqb_spec id ""); [contradiction|]. cbn [negb].
    unfold Lifecycle.DeleteConnection. rewrite Hr. cbn.
    unfold Lifecycle.Update, Lifecycle.with_obj. cbn. fold o. fold released.
    now rewrite <- app_assoc.
  - intros -> Hid. cbn [negb]. rewrite Hid. cbn.
    unfold Lifecycle.Update, Lifecycle.with_obj. cbn. reflexivity.
  - apply RemoveFinalizer_gone.
  - intros g. apply RemoveFinalizer_In.
Qed.

(** X14.  ensureFinalizer is idempotent.  On an object that has the
    operator's finalizer it makes no call; on one that lacks it, it writes
    the object once with the finalizer appended to the others.  Either way
    the object in memory has the finalizer afterwards, so a second call does
    nothing; and removing the finalizer that was just added gives the
    original object back. *)
Theorem ensure_finalizer_is_idempotent :
  forall (env : Lifecycle.Env) (w : Lifecycle.World),
    let o := Lifecycle.obj w in
    let r := Lifecycle.ensureFinalizer env w in
    (Lifecycle.ContainsFinalizer o Lifecycle.fivetranFinalizer = true -> r = (None, w)) /\
    (Lifecycle.ContainsFinalizer o Lifecycle.fivetranFinalizer = false ->
     let o' := Lifecycle.with_finalizers o
                 (Lifecycle.Finalizers o ++ [Lifecycle.fivetranFinalizer]) in
     r = (Lifecycle.reply_K8sUpdate env (Lifecycle.history w) o',
          {| Lifecycle.history := Lifecycle.history w ++ [Lifecycle.K8sUpdate o'];
             Lifecycle.obj := o' |}) /\
     Lifecycle.RemoveFinalizer o' Lifecycle.fivetranFinalizer = o) /\
    Lifecycle.ContainsFinalizer (Lifecycle.obj (snd r)) Lifecycle.fivetranFinalizer
    = true /\
    (forall env' : Lifecycle.Env,
        Lifecycle.ensureFinalizer env' (snd r) = (None, snd r)).
Proof.
  intros env w o r.
  assert (Hhas : Lifecycle.ContainsFinalizer (Lifecycle.obj (snd r))
                   Lifecycle.fivetranFinalizer = true).
  { subst r. unfold Lifecycle.ensureFinalizer. fold o.
    destruct (Lifecycle.ContainsFinalizer o Lifecycle.fivetranFinalizer) eqn:E;
      cbn; [exact E|].
    unfold Lifecycle.AddFinalizer. fold o. rewrite E.
    apply ContainsFinalizer_In. cbn. apply in_or_app. right. now left. }
  split; [|split; [|split]].
  - intros E. subst r. unfold Lifecycle.ensureFinalizer. fold o. now rewrite E.
  - intros E o'. split.
    + subst r. unfold Lifecycle.ensureFinalizer. fold o. rewrite E. cbn [negb].
      unfold Lifecycle.Update, Lifecycle.with_obj, Lifecycle.AddFinalizer. fold o.
      rewrite E. reflexivity.
    + pose proof (Remove_Add o Lifecycle.fivetranFinalizer E) as H.
      unfold Lifecycle.AddFinalizer in H. now rewrite E in H.
  - exact Hhas.
  - intros env'. unfold Lifecycle.ensureFinalizer at 1. now rewrite Hhas.
Qed.

(** X15.  A reconciliation either deletes or keeps alive, never both: on
    an object with a deletion timestamp only the deletion is handled and no
    finalizer is ever added; on an object without one (nil or the zero time)
    nothing is deleted at the provider, whatever the status holds. *)
Theorem deletion_and_finalizer_exclude_each_other :
  forall (env : Lifecycle.Env) (w : Lifecycle.World),
    let r := Lifecycle.lifecycle env w in
    (Lifecycle.IsZero (Lifecycle.DeletionTimestamp (Lifecycle.obj w)) = false ->
     (exists err, fst r = Lifecycle.Deleting err) /\
     forall g, In g (Lifecycle.Finalizers (Lifecycle.obj (snd r))) ->
               In g (Lifecycle.Finalizers (Lifecycle.obj w))) /\
    (Lifecycle.IsZero (Lifecycle.DeletionTimestamp (Lifecycle.obj w)) = true ->
     (exists err, fst r = Lifecycle.Living err) /\
     forall c, In c (Lifecycle.history (snd r)) ->
               In c (Lifecycle.history w) \/ exists o, c = Lifecycle.K8sUpdate o).
Proof.
  intros env w r. subst r. unfold Lifecycle.lifecycle. split; intros ->; cbn [negb].
  - destruct (Lifecycle.handleDeletion env w) as [err w1] eqn:H. cbn.
    split; [eauto|]. revert H. unfold Lifecycle.handleDeletion.
    destruct (Lifecycle.ContainsFinalizer _ _); cbn [negb]; [|now intros [= <- <-]].
    destruct (negb _).
    + unfold Lifecycle.DeleteConnection.
      destruct (Lifecycle.reply_ConnectionDelete _ _ _) as [resp e].
      destruct (Provider.WrapFivetranError resp e); cbn; intros [= <- <-]; cbn; [tauto|].
      intros g Hg. now apply RemoveFinalizer_In in Hg.
    + cbn. intros [= <- <-]. cbn. intros g Hg. now apply RemoveFinalizer_In in Hg.
  - destruct (Lifecycle.ensureFinalizer env w) as [err w1] eqn:H. cbn.
    split; [eauto|]. revert H. unfold Lifecycle.ensureFinalizer.
    destruct (Lifecycle.ContainsFinalizer _ _); cbn [negb]; intros [= <- <-]; cbn;
      [tauto|].
    intros c Hc. apply in_app_or in Hc. destruct Hc as [Hc|[<-|[]]]; eauto.
Qed.

(* --------------------------------------------------------------------- *)
(** ** The configuration of the Vault client *)
(* --------------------------------------------------------------------- *)


(* --------------------------------------------------------------------- *)
(** ** Labels and annotations *)
(* --------------------------------------------------------------------- *)

(** X17.  Annotations and labels behave as maps with the empty string for
    a missing key: what SetAnnotation (SetLabel) stores, GetAnnotation
    (GetLabel) returns and HasAnnotation (HasLabel) sees; RemoveAnnotation
    (RemoveLabel) makes the key absent, which reads as the empty string;
    every other key, the labels (annotations), the spec and the status are
    left as they were.  A key that holds the empty string is present, though
    it reads like a missing one. *)
Theorem metadata_round_trips :
  forall (o : V1alpha1.FivetranConnector) (key value : string),
    (Controller.GetAnnotation (Controller.SetAnnotation o key value) key = value /\
     Controller.HasAnnotation (Controller.SetAnnotation o key value) key = true /\
     Controller.HasAnnotation (Controller.RemoveAnnotation o key) key = false /\
     Controller.GetAnnotation (Controller.RemoveAnnotation o key) key = "" /\
     (forall other, other <> key ->
        Controller.GetAnnotation (Controller.SetAnnotation o key value) other
        = Controller.GetAnnotation o other /\
        Controller.HasAnnotation (Controller.RemoveAnnotation o key) other
        = Controller.HasAnnotation o other) /\
     V1alpha1.Labels (Controller.SetAnnotation o key value) = V1alpha1.Labels o /\
     V1alpha1.Labels (Controller.RemoveAnnotation o key) = V1alpha1.Labels o) /\
    (Kubeutils.GetLabel (Kubeutils.SetLabel o key value) key = value /\
     Controller.HasLabel (Kubeutils.SetLabel o key value) key = true /\
     Controller.HasLabel (Controller.RemoveLabel o key) key = false /\
     Kubeutils.GetLabel (Controller.RemoveLabel o key) key = "" /\
     (forall other, other <> key ->
        Kubeutils.GetLabel (Kubeutils.SetLabel o key value) other
        = Kubeutils.GetLabel o other /\
        Controller.HasLabel (Controller.RemoveLabel o key) other
        = Controller.HasLabel o other) /\
     V1alpha1.Annotations (Kubeutils.SetLabel o key value) = V1alpha1.Annotations o /\
     V1alpha1.Annotations (Controller.RemoveLabel o key) = V1alpha1.Annotations o) /\
    (Controller.HasAnnotation (Controller.SetAnnotation o key "") key = true /\
     Controller.GetAnnotation (Controller.SetAnnotation o key "") key
     = Controller.GetAnnotation (Controller.RemoveAnnotation o key) key) /\
    (forall o', o' = Controller.SetAnnotation o key value \/
                o' = Controller.RemoveAnnotation o key \/
                o' = Kubeutils.SetLabel o key value \/
                o' = Controller.RemoveLabel o key ->
                V1alpha1.Spec o' = V1alpha1.Spec o /\
                V1alpha1.Status o' = V1alpha1.Status o).
Proof.
  intros o key value.
  unfold Controller.GetAnnotation, Controller.SetAnnotation, Controller.HasAnnotation,
    Controller.RemoveAnnotation, Controller.HasLabel, Controller.RemoveLabel,
    Kubeutils.GetLabel, Kubeutils.SetLabel, Controller.with_annotations,
    Controller.with_labels.
  cbn. rewrite !lookup_insert_eq, !lookup_delete_eq.
  repeat split; try reflexivity;
    try (intros; rewrite ?lookup_insert_ne, ?lookup_delete_ne by congruence; reflexivity);
    try (destruct H as [ -> | [ -> | [ -> | -> ] ] ]; reflexivity).
Qed.

(** X18.  The label predicate lets an update event through exactly when
    both objects are there, the old one lacks the label and the new one has
    it.  So the operator's own removal of the label at the end of a
    reconciliation does not pass it, and neither does a change of the
    label's value. *)
Theorem label_predicate_passes_additions_only :
  forall (LabelKey : string),
    (forall e : Kubeutils.UpdateEvent,
        Kubeutils.CustomLabelKeyChangedPredicate_Update LabelKey e = true
        <-> exists old new,
            Kubeutils.ObjectOld e = Some old /\ Kubeutils.ObjectNew e = Some new /\
            Controller.HasLabel old LabelKey = false /\
            Controller.HasLabel new LabelKey = true) /\
    (forall o : V1alpha1.FivetranConnector,
        Kubeutils.CustomLabelKeyChangedPredicate_Update LabelKey
          {| Kubeutils.ObjectOld := Some o;
             Kubeutils.ObjectNew := Some (Controller.RemoveLabel o LabelKey) |} = false) /\
    (forall (o : V1alpha1.FivetranConnector) (v v' : string),
        Kubeutils.CustomLabelKeyChangedPredicate_Update LabelKey
          {| Kubeutils.ObjectOld := Some (Kubeutils.SetLabel o LabelKey v);
             Kubeutils.ObjectNew := Some (Kubeutils.SetLabel o LabelKey v') |} = false) /\
    (forall (o : V1alpha1.FivetranConnector) (v : string),
        Controller.HasLabel o LabelKey = false ->
        Kubeutils.CustomLabelKeyChangedPredicate_Update LabelKey
          {| Kubeutils.ObjectOld := Some o;
             Kubeutils.ObjectNew := Some (Kubeutils.SetLabel o LabelKey v) |} = true).
Proof.
  intros LabelKey. split; [|split; [|split]].
  - intros [[old|] [new|]]; unfold Kubeutils.CustomLabelKeyChangedPredicate_Update,
      Controller.HasLabel; cbn;
      try (split; [discriminate|intros (? & ? & ? & ? & _); discriminate]).
    destruct (V1alpha1.Labels old !! LabelKey) eqn:Eo,
      (V1alpha1.Labels new !! LabelKey) eqn:En; cbn;
      split; try discriminate;
      try (intros (o1 & n1 & [= <-] & [= <-] & H1 & H2); rewrite ?Eo, ?En in *;
           discriminate).
    + intros _. exists old, new. rewrite Eo, En. auto.
    + reflexivity.
  - intros o. unfold Kubeutils.CustomLabelKeyChangedPredicate_Update,
      Controller.RemoveLabel, Controller.with_labels. cbn.
    rewrite lookup_delete_eq. now destruct (V1alpha1.Labels o !! LabelKey).
  - intros o v v'. unfold Kubeutils.CustomLabelKeyChangedPredicate_Update,
      Kubeutils.SetLabel, Controller.with_labels. cbn.
    now rewrite !lookup_insert_eq.
  - intros o v. unfold Kubeutils.CustomLabelKeyChangedPredicate_Update,
      Kubeutils.SetLabel, Controller.HasLabel, Controller.with_labels. cbn.
    rewrite lookup_insert_eq. now destruct (V1alpha1.Labels o !! LabelKey).
Qed.

(* --------------------------------------------------------------------- *)
(** ** How failures are answered *)
(* --------------------------------------------------------------------- *)

Section ErrorFacts.
Import V1alpha1 Provider Controller ErrorSpec ReconcileSpec.

Lemma Wraps_Is inner e s : Wraps inner e -> GoError.Is e s = GoError.Is inner s.
Proof. induction 1; cbn; auto. Qed.

Lemma Wraps_AsVaultError inner e :
  Wraps inner e -> GoError.AsVaultError e = GoError.AsVaultError inner.
Proof. induction 1; cbn; auto. Qed.

Lemma Wraps_AsAPIError inner e :
  Wraps inner e -> GoError.AsAPIError e = GoError.AsAPIError inner.
Proof. induction 1; cbn; auto. Qed.

(** [handleError] on an error that is none of the three terminal ones and
    holds no vault error but an API error. *)
Lemma handleError_api conditionType reason e a env w :
  GoError.Is e GoError.ErrSchemaMismatchAfterRetry = false ->
  GoError.Is e GoError.ErrSetupTestsFailed = false ->
  GoError.Is e GoError.ErrConnectorValidationFailed = false ->
  GoError.AsVaultError e = None ->
  GoError.AsAPIError e = Some a ->
  let written := setCondition conditionType ConditionFalse reason
                              (FivetranErrors.APIError_Error a) env w in
  handleError conditionType reason e env w
  = ((if FivetranErrors.IsRetryable a then retry_later else Result_zero, fst written),
     snd written).
Proof.
  intros H1 H2 H3 H4 H5 written. unfold handleError. rewrite H1, H2, H3, H4, H5.
  unfold bind, ret. subst written.
  destruct (setCondition conditionType ConditionFalse reason _ env w) as [r w'].
  now destruct (FivetranErrors.IsRetryable a).
Qed.

(** [handleError] on an error that is none of the three terminal ones and
    holds a vault error. *)
Lemma handleError_vault conditionType reason e retryable env w :
  GoError.Is e GoError.ErrSchemaMismatchAfterRetry = false ->
  GoError.Is e GoError.ErrSetupTestsFailed = false ->
  GoError.Is e GoError.ErrConnectorValidationFailed = false ->
  GoError.AsVaultError e = Some retryable ->
  let written := setCondition conditionType ConditionFalse reason
                              (GoError.Error e) env w in
  handleError conditionType reason e env w
  = ((if retryable then retry_later else Result_zero, fst written), snd written).
Proof.
  intros H1 H2 H3 H4 written. unfold handleError. rewrite H1, H2, H3, H4.
  unfold bind, ret. subst written.
  destruct (setCondition conditionType ConditionFalse reason _ env w) as [r w'].
  now destruct retryable.
Qed.

End ErrorFacts.

(** X19.  A failure of the provider's SDK reaches handleError as an API
    error under any number of wrapping layers, and is answered by its status
    alone: the condition is set to false with the text "fivetran api error
    (status N): CODE - MESSAGE" (the wrapping text is dropped), the result
    asks for another reconciliation in five minutes when the status is
    retryable and for none otherwise, and the error returned is only the
    outcome of writing the condition.  An SDK error whose text carries no
    status counts as status 0 and is retryable.  IsRetryableError gives the
    same answer. *)
Theorem provider_failure_is_answered_by_status :
  forall (resp : Provider.CommonResponse) (sdk : Provider.SDKError),
    let a := ApiErrors.of_response resp sdk in
    Provider.WrapFivetranError resp (Some sdk) = Some (GoError.API a) /\
    (Provider.sdk_status sdk = None -> FivetranErrors.IsRetryable a = true) /\
    (forall (e : GoError.error) (conditionType reason : string)
            (env : Provider.Env) (w : Provider.World),
        ErrorSpec.Wraps (GoError.API a) e ->
        let written :=
          Controller.setCondition conditionType V1alpha1.ConditionFalse reason
            ("fivetran api error (status "
               +:+ GoStrings.fmt_int (FivetranErrors.StatusCode a) +:+ "): "
               +:+ Provider.cr_Code resp +:+ " - " +:+ Provider.cr_Message resp)
            env w in
        Controller.handleError conditionType reason e env w
        = ((if FivetranErrors.IsRetryable a then ReconcileSpec.retry_later
            else Controller.Result_zero, fst written), snd written) /\
        ApiErrors.IsRetryableError e = FivetranErrors.IsRetryable a).
Proof.
  intros resp sdk a. split; [reflexivity|]. split.
  - intros Hs. unfold a, ApiErrors.of_response, FivetranErrors.IsRetryable. cbn.
    now rewrite Hs.
  - intros e conditionType reason env w Hw. split.
    + apply handleError_api;
        rewrite ?(Wraps_Is _ _ _ Hw), ?(Wraps_AsVaultError _ _ Hw),
          ?(Wraps_AsAPIError _ _ Hw); reflexivity.
    + unfold ApiErrors.IsRetryableError. now rewrite (Wraps_AsAPIError _ _ Hw).
Qed.

Lemma provider_failure_is_answered_by_status_witness :
  fst (fst (Controller.handleError Controller.conditionTypeConnectorReady
              Controller.ConnectorReasonReconciliationFailed
              (GoError.Wrap "reconcileSetupTests: "
                 (GoError.API
                    (ApiErrors.of_response
                       {| Provider.cr_Code := "NotFound"; Provider.cr_Message := "gone" |}
                       {| Provider.sdk_text := "status code: 404; expected: 200";
                          Provider.sdk_status := Some 404 |})) "")
              DriftScenario.env DriftScenario.start))
  = Controller.Result_zero.
Proof.
  refine (f_equal (fun r => fst (fst r))
            (proj1 (proj2 (proj2 (provider_failure_is_answered_by_status
               {| Provider.cr_Code := "NotFound"; Provider.cr_Message := "gone" |}
               {| Provider.sdk_text := "status code: 404; expected: 200";
                  Provider.sdk_status := Some 404 |}))
               _ Controller.conditionTypeConnectorReady
               Controller.ConnectorReasonReconciliationFailed
               DriftScenario.env DriftScenario.start _))).
  apply ErrorSpec.wraps_layer, ErrorSpec.wraps_here.
Defined.

Section SecretFacts.
Import V1alpha1 Provider Controller ReconcileSpec.

(** No error of [ResolveSecrets] is or wraps a package-level error. *)
Lemma ResolveSecrets_error_Is store rawConfig e s :
  snd (fst (VaultOps.ResolveSecrets store rawConfig)) = Some e -> GoError.Is e s = false.
Proof.
  unfold VaultOps.ResolveSecrets.
  destruct rawConfig as [[[[|doc]|]]|]; cbn; try discriminate.
  - now intros [= <-].
  - destruct (VaultOps.resolveValue store (VaultOps.decode doc) "" VaultOps.initial)
      as [[d|e'] st] eqn:Hr; cbn; [discriminate|].
    intros [= <-]. destruct (resolveValue_blames _ _ _ _ _ _ Hr) as (r & ref & Hb).
    now destruct Hb as (err & kp & -> & _).
Qed.

End SecretFacts.

(** X20.  The controller resolves both documents even when the first one
    fails: the error it returns joins the error of the config document
    (first) with the error of the auth document, if that fails too, and no
    resolved document is returned.  When the config document fails with a
    vault error, handleError takes the retry decision from that error alone:
    five minutes when it is retryable, no requeue when it is terminal,
    whatever the failure of the auth document is. *)
Theorem config_secrets_decide_the_retry :
  forall (env : Provider.Env) (w : Provider.World) (e1 : GoError.error) (r1 : bool),
    let c := V1alpha1.spec_Connector (V1alpha1.Spec (Provider.obj w)) in
    snd (fst (VaultOps.ResolveSecrets (Provider.vault env) (V1alpha1.Config c)))
    = Some e1 ->
    GoError.AsVaultError e1 = Some r1 ->
    let rest :=
      match snd (fst (VaultOps.ResolveSecrets (Provider.vault env) (V1alpha1.Auth c))) with
      | Some e2 => [GoError.Wrap "resolveSecrets: auth secrets: " e2 ""]
      | None => []
      end in
    let e := GoError.Joined (GoError.Wrap "resolveSecrets: config secrets: " e1 "" :: rest) in
    Controller.resolveSecrets env w = ((None, None, Some e), w) /\
    (forall (conditionType reason : string) (env' : Provider.Env) (w' : Provider.World),
        let written :=
          Controller.setCondition conditionType V1alpha1.ConditionFalse reason
            (GoError.Error e) env' w' in
        Controller.handleError conditionType reason e env' w'
        = ((if r1 then ReconcileSpec.retry_later else Controller.Result_zero,
            fst written), snd written)).
Proof.
  intros env w e1 r1 c H1 Hv rest e. split.
  - unfold Controller.resolveSecrets. fold c.
    destruct (V1alpha1.Config c) as [cfg|] eqn:Hc; [|discriminate].
    destruct (VaultOps.ResolveSecrets (Provider.vault env) (Some cfg))
      as [[c1 o1] s1]. cbn [fst snd] in H1. subst o1.
    subst e rest.
    destruct (V1alpha1.Auth c) as [auth|] eqn:Ha.
    + destruct (VaultOps.ResolveSecrets (Provider.vault env) (Some auth))
        as [[c2 [e2|]] s2]; reflexivity.
    + reflexivity.
  - intros conditionType reason env' w' written.
    assert (Hrest : forall s, existsb (fun x => GoError.Is x s) rest = false).
    { intros s. subst rest.
      destruct (snd (fst (VaultOps.ResolveSecrets (Provider.vault env) (V1alpha1.Auth c))))
        as [e2|] eqn:H2; [|reflexivity].
      cbn. now rewrite (ResolveSecrets_error_Is _ _ _ s H2). }
    apply handleError_vault; subst e; cbn [GoError.Is GoError.AsVaultError existsb];
      rewrite ?(ResolveSecrets_error_Is _ _ _ _ H1), ?Hrest, ?Hv; reflexivity.
Qed.

Lemma config_secrets_decide_the_retry_witness :
  fst (Controller.resolveSecrets DriftScenario.env
         {| Provider.history := [];
            Provider.obj := KeyOrder.connector_with_config VaultScenario.mixed |})
  = (None, None,
     Some (GoError.Joined
             [GoError.Wrap "resolveSecrets: config secrets: "
                (VaultOps.NewVaultAPIError "token" "vault:missing/path#token"
                   (GoError.New "secret not found")) ""])).
Proof.
  refine (f_equal fst
            (proj1 (config_secrets_decide_the_retry DriftScenario.env
                      {| Provider.history := [];
                         Provider.obj := KeyOrder.connector_with_config VaultScenario.mixed |}
                      (VaultOps.NewVaultAPIError "token" "vault:missing/path#token"
                         (GoError.New "secret not found"))
                      true _ _))).
  - vm_compute. reflexivity.
  - reflexivity.
Defined.

(* --------------------------------------------------------------------- *)
(** ** Fingerprints and the decision to reconcile *)
(* --------------------------------------------------------------------- *)

Section NeedsFacts.
Import V1alpha1 Provider Controller.

Local Arguments MD5.hexdigest : simpl never.

Lemma Sum_length msg : length (MD5.Sum msg) = 16%nat.
Proof.
  unfold MD5.Sum. destruct (fold_left MD5.block _ MD5.init) as [[[a b] c] d].
  rewrite !length_app. reflexivity.
Qed.

Lemma hex_length bs : String.length (MD5.hex bs) = (2 * length bs)%nat.
Proof. induction bs as [|b bs IH]; cbn [MD5.hex String.length length]; lia. Qed.

Lemma hexdigest_length s : String.length (MD5.hexdigest s) = 32%nat.
Proof. unfold MD5.hexdigest. now rewrite hex_length, Sum_length. Qed.

Lemma hexdigest_nonempty s : MD5.hexdigest s <> "".
Proof. intros H. pose proof (hexdigest_length s) as L. rewrite H in L. discriminate. Qed.

Lemma calculateConnectorHash_SetAnnotation o key value :
  Fingerprint.calculateConnectorHash (SetAnnotation o key value)
  = Fingerprint.calculateConnectorHash o.
Proof. reflexivity. Qed.

Lemma calculateSchemaHash_SetAnnotation o key value :
  Fingerprint.calculateSchemaHash (SetAnnotation o key value)
  = Fingerprint.calculateSchemaHash o.
Proof. reflexivity. Qed.

Lemma GetAnnotation_SetAnnotation o key value :
  GetAnnotation (SetAnnotation o key value) key = value.
Proof. unfold GetAnnotation, SetAnnotation. cbn. now rewrite lookup_insert_eq. Qed.

Lemma updateConnectorHash_None env w w' :
  updateConnectorHash env w = (None, w') ->
  exists hash,
    Fingerprint.calculateConnectorHash (obj w) = (hash, None) /\
    obj w' = SetAnnotation (obj w) annotationConnectorHash hash /\
    history w' = history w ++ [K8sUpdate (obj w')].
Proof.
  unfold updateConnectorHash, Update, call, set_obj, bind, ret, get_obj.
  destruct (Fingerprint.calculateConnectorHash (obj w)) as [hash [e|]]; cbn;
    [discriminate|].
  intros [= _ <-]. exists hash. auto.
Qed.

Lemma updateSchemaHash_None env w w' :
  updateSchemaHash env w = (None, w') ->
  exists hash,
    Fingerprint.calculateSchemaHash (obj w) = (hash, None) /\
    obj w' = SetAnnotation (obj w) annotationSchemaHash hash /\
    history w' = history w ++ [K8sUpdate (obj w')].
Proof.
  unfold updateSchemaHash, Update, call, set_obj, bind, ret, get_obj.
  destruct (Fingerprint.calculateSchemaHash (obj w)) as [hash [e|]]; cbn;
    [discriminate|].
  intros [= _ <-]. exists hash. auto.
Qed.

End NeedsFacts.

(** X21.  A fingerprint is always 32 characters long, so never empty.
    After updateConnectorHash has succeeded, hasConnectorHashChanged answers
    no for the object in memory, whose spec and status are untouched; after
    updateSchemaHash has succeeded on a resource with a known connector,
    hasSchemaHashChanged answers no.  A resource that carries no connector
    fingerprint yet always counts as changed (or its connector subtree
    cannot be serialized, which is an error). *)
Theorem stored_fingerprints_are_current :
  (forall s : string, String.length (MD5.hexdigest s) = 32%nat) /\
  (forall (env : Provider.Env) (w w' : Provider.World),
      Controller.updateConnectorHash env w = (None, w') ->
      Controller.hasConnectorHashChanged (Provider.obj w') = (false, None) /\
      V1alpha1.Spec (Provider.obj w') = V1alpha1.Spec (Provider.obj w) /\
      V1alpha1.Status (Provider.obj w') = V1alpha1.Status (Provider.obj w)) /\
  (forall (env : Provider.Env) (w w' : Provider.World),
      Controller.updateSchemaHash env w = (None, w') ->
      V1alpha1.ConnectorID (V1alpha1.Status (Provider.obj w)) <> "" ->
      Controller.hasSchemaHashChanged (Provider.obj w') = (false, None)) /\
  (forall o : V1alpha1.FivetranConnector,
      Controller.GetAnnotation o Controller.annotationConnectorHash = "" ->
      Controller.hasConnectorHashChanged o = (true, None) \/
      exists e, Controller.hasConnectorHashChanged o = (false, Some e)).
Proof.
  split; [exact hexdigest_length|]. split; [|split].
  - intros env w w' H. destruct (updateConnectorHash_None _ _ _ H) as (hash & Hh & -> & _).
    split; [|split; reflexivity].
    unfold Controller.hasConnectorHashChanged.
    rewrite calculateConnectorHash_SetAnnotation, Hh, GetAnnotation_SetAnnotation.
    now rewrite String.eqb_refl.
  - intros env w w' H Hid. destruct (updateSchemaHash_None _ _ _ H) as (hash & Hh & -> & _).
    unfold Controller.hasSchemaHashChanged.
    destruct (Controller.hasSchemaConfig _); cbn [negb]; [|reflexivity].
    change (V1alpha1.ConnectorID
              (V1alpha1.Status
                 (Controller.SetAnnotation (Provider.obj w)
                    Controller.annotationSchemaHash hash)))
      with (V1alpha1.ConnectorID (V1alpha1.Status (Provider.obj w))).
    destruct (String.eqb_spec (V1alpha1.ConnectorID (V1alpha1.Status (Provider.obj w))) "");
      [contradiction|].
    rewrite calculateSchemaHash_SetAnnotation, Hh, GetAnnotation_SetAnnotation.
    now rewrite String.eqb_refl.
  - intros o Hg. unfold Controller.hasConnectorHashChanged, Fingerprint.calculateConnectorHash.
    destruct (V1alpha1.marshal_Connector _) as [bytes|]; [left|right; eauto].
    rewrite Hg. destruct (String.eqb_spec (MD5.hexdigest bytes) "") as [E|E]; [|reflexivity].
    now apply hexdigest_nonempty in E.
Qed.

Lemma stored_fingerprints_are_current_witness :
  Controller.hasConnectorHashChanged
    (Provider.obj (snd (Controller.updateConnectorHash DriftScenario.env
                          DriftScenario.start)))
  = (false, None).
Proof.
  refine (proj1 (proj1 (proj2 stored_fingerprints_are_current) DriftScenario.env
                   DriftScenario.start _ _)).
  vm_compute. reflexivity.
Defined.

Section SteadyFacts.
Import V1alpha1 Provider Controller.

Local Arguments Fingerprint.calculateConnectorHash : simpl never.
Local Arguments Fingerprint.calculateSchemaHash : simpl never.



End SteadyFacts.



(* --------------------------------------------------------------------- *)
(** ** What a reconciliation leaves alone *)
(* --------------------------------------------------------------------- *)

Section InvariantFacts.
Import V1alpha1 Provider Controller ReconcileSpec InvariantSpec.

Local Arguments Fingerprint.calculateConnectorHash : simpl never.
Local Arguments Fingerprint.calculateSchemaHash : simpl never.

Lemma Stable_refl o : Stable o o.
Proof. constructor; auto. Qed.

Lemma Stable_trans o1 o2 o3 : Stable o1 o2 -> Stable o2 o3 -> Stable o1 o3.
Proof.
  intros [s1 i1 l1 a1 k1 t1 n1] [s2 i2 l2 a2 k2 t2 n2]. constructor.
  - congruence.
  - intros H. destruct (i1 H) as [E1 U1]. rewrite <- E1 in H.
    destruct (i2 H) as [E2 U2]. split; congruence.
  - intros k Hk. now rewrite l2, l1.
  - intros k Hk. now rewrite a2, a1.
  - auto.
  - intros t Ht. destruct (t2 t Ht) as [H|H]; auto.
  - auto.
Qed.

Lemma upsert_types_In c cs t :
  In t (map cond_Type (upsert c cs)) <-> In t (map cond_Type cs) \/ t = cond_Type c.
Proof.
  induction cs as [|x cs IH]; cbn [upsert map In].
  - split; [intros [ <- | [] ]; auto | intros [ [] | -> ]; auto].
  - destruct (String.eqb_spec (cond_Type x) (cond_Type c)) as [E|E]; cbn [map In].
    + rewrite E. split; [intros [ <- | H ]; auto | intros [ [ <- | H ] | -> ]; auto].
    + rewrite IH. split; [intros [H|[H|H]]; auto | intros [[H|H]|H]; auto].
Qed.

Lemma upsert_types_NoDup c cs :
  List.NoDup (map cond_Type cs) -> List.NoDup (map cond_Type (upsert c cs)).
Proof.
  induction cs as [|x cs IH]; cbn [upsert map]; intros H.
  - constructor; [intros []|constructor].
  - inversion_clear H as [|? ? Hx Hcs].
    destruct (String.eqb_spec (cond_Type x) (cond_Type c)) as [E|E]; cbn [map].
    + rewrite <- E. now constructor.
    + constructor; [|auto]. rewrite upsert_types_In. intros [H|H]; auto.
Qed.

Lemma Stable_upsert o c :
  In (cond_Type c) operator_conditions ->
  Stable o (with_conditions o (upsert c (Conditions (Status o)))).
Proof.
  intros Hin. constructor; cbn; auto; unfold condition_types; cbn.
  - intros t Ht. apply upsert_types_In. auto.
  - intros t Ht. apply upsert_types_In in Ht. destruct Ht as [H| ->]; auto.
  - apply upsert_types_NoDup.
Qed.

Lemma Stable_RemoveLabel o : Stable o (RemoveLabel o annotationForceReconcile).
Proof.
  constructor; cbn; auto. intros k Hk. now rewrite lookup_delete_ne.
Qed.

Lemma Stable_RemoveAnnotation o :
  Stable o (RemoveAnnotation o annotationAdoptExistingConnectorID).
Proof.
  constructor; cbn; auto. intros k Hk. rewrite lookup_delete_ne; [reflexivity|].
  intros <-. apply Hk. cbn. auto.
Qed.

Lemma Stable_SetAnnotation o key value :
  In key operator_annotations -> Stable o (SetAnnotation o key value).
Proof.
  intros Hin. constructor; cbn; auto. intros k Hk. rewrite lookup_insert_ne; [reflexivity|].
  intros <-. now apply Hk.
Qed.

Lemma Stable_fresh_id o id url :
  ConnectorID (Status o) = "" -> Stable o (with_connector_id o id url).
Proof. intros H. constructor; cbn; auto. intros Hn. contradiction. Qed.

Lemma allowed_back o1 o2 c : Stable o1 o2 -> allowed o2 c -> allowed o1 c.
Proof.
  intros S. destruct c; cbn; auto. intros (E & Hp & Ht). split; [|auto].
  destruct (string_dec (ConnectorID (Status o1)) "") as [H|H]; [exact H|].
  destruct (stable_id _ _ S H) as [E1 _]. congruence.
Qed.

Lemma Step_refl w : Step w w.
Proof.
  split; [apply Stable_refl|]. exists []. split; [now rewrite app_nil_r|constructor].
Qed.

Lemma Step_trans w1 w2 w3 : Step w1 w2 -> Step w2 w3 -> Step w1 w3.
Proof.
  intros [S1 (c1 & H1 & A1)] [S2 (c2 & H2 & A2)]. split.
  - eapply Stable_trans; eauto.
  - exists (c1 ++ c2). split; [now rewrite H2, H1, app_assoc|].
    apply Forall_app. split; [exact A1|].
    eapply List.Forall_impl; [|exact A2]. intros c. apply allowed_back, S1.
Qed.

Lemma Step_set w o : Stable (obj w) o -> Step w {| history := history w; obj := o |}.
Proof.
  intros S. split; [exact S|]. exists []. split; [cbn; now rewrite app_nil_r|constructor].
Qed.

Lemma Step_call w c :
  allowed (obj w) c -> Step w {| history := history w ++ [c]; obj := obj w |}.
Proof.
  intros H. split; [apply Stable_refl|]. exists [c]. split; [reflexivity|].
  constructor; [exact H|constructor].
Qed.

Lemma Keeps_ret {A} (a : A) : Keeps (ret a).
Proof. intros env w. apply Step_refl. Qed.

Lemma Keeps_get : Keeps get_obj.
Proof. intros env w. apply Step_refl. Qed.

Lemma Keeps_call {A} c (reply : Env -> list Call -> A) :
  (forall o, allowed o c) -> Keeps (call c reply).
Proof. intros H env w. apply Step_call, H. Qed.

Lemma Keeps_bind {A B} (m : M A) (k : A -> M B) :
  Keeps m -> (forall a, Keeps (k a)) -> Keeps (bind m k).
Proof.
  intros Hm Hk env w. unfold bind. specialize (Hm env w).
  destruct (m env w) as [a w1]. eapply Step_trans; [exact Hm|apply Hk].
Qed.

Lemma Keeps_at {A} (m : M A) env w : Keeps m -> Step w (snd (m env w)).
Proof. intros H. apply H. Qed.

Lemma Keeps_Update : Keeps Update.
Proof. intros env w. apply Step_call. exact I. Qed.

Lemma Keeps_StatusUpdate : Keeps StatusUpdate.
Proof. intros env w. apply Step_call. exact I. Qed.

(** Read the object, replace it by a stable one, go on. *)
Lemma Keeps_set {A} (f : FivetranConnector -> FivetranConnector) (k : M A) :
  (forall o, Stable o (f o)) -> Keeps k ->
  Keeps (bind get_obj (fun o => bind (set_obj (f o)) (fun _ => k))).
Proof.
  intros Hf Hk env w. eapply Step_trans; [apply (Step_set w (f (obj w))), Hf|].
  apply (Hk env {| history := history w; obj := f (obj w) |}).
Qed.

Lemma Keeps_setCondition conditionType status reason message :
  In conditionType operator_conditions ->
  Keeps (setCondition conditionType status reason message).
Proof.
  intros Hin. unfold setCondition.
  apply (Keeps_set (fun o => with_conditions o (upsert _ (Conditions (Status o))))).
  - intros o. now apply Stable_upsert.
  - apply Keeps_StatusUpdate.
Qed.

Lemma in_operator_conditions_1 : In conditionTypeConnectorReady operator_conditions.
Proof. cbn; auto. Qed.

Lemma in_operator_conditions_2 : In conditionTypeSetupTestReady operator_conditions.
Proof. cbn; auto. Qed.

Lemma in_operator_conditions_3 : In conditionTypeSchemaReady operator_conditions.
Proof. cbn; auto. Qed.

Ltac keeps_step :=
  first
    [ apply Keeps_ret | apply Keeps_get
    | apply Keeps_call; intros ?; first [exact I | reflexivity]
    | apply Keeps_Update | apply Keeps_StatusUpdate
    | apply Keeps_setCondition;
      first [ assumption | apply in_operator_conditions_1
            | apply in_operator_conditions_2 | apply in_operator_conditions_3 ]
    | assumption
    | apply Keeps_bind; [|intros ?]
    | match goal with
      | |- Keeps (match ?x with _ => _ end) => destruct x
      end ].

Ltac keeps := repeat keeps_step.

Lemma Keeps_handleError conditionType reason e :
  In conditionType operator_conditions ->
  Keeps (handleError conditionType reason e).
Proof. intros Hin. unfold handleError. keeps. Qed.

Lemma Keeps_updateSetupTestsCondition warnings :
  Keeps (updateSetupTestsCondition warnings).
Proof. unfold updateSetupTestsCondition. keeps. Qed.

Lemma Step_make w o calls :
  Stable (obj w) o -> Forall (allowed (obj w)) calls ->
  Step w {| history := history w ++ calls; obj := o |}.
Proof. intros S A. split; [exact S|]. now exists calls. Qed.

Lemma Keeps_cleanupAnnotationsAndLabels : Keeps cleanupAnnotationsAndLabels.
Proof.
  intros env w.
  unfold cleanupAnnotationsAndLabels, bind, get_obj, ret, set_obj, Update, call.
  destruct (HasLabel (obj w) annotationForceReconcile); cbn.
  - destruct (reply_K8sUpdate env (history w) _); cbn.
    { apply Step_make; [apply Stable_RemoveLabel|repeat constructor]. }
    destruct (HasAnnotation _ _); cbn.
    + rewrite <- app_assoc. apply Step_make; [|repeat constructor].
      eapply Stable_trans; [apply Stable_RemoveLabel|apply Stable_RemoveAnnotation].
    + apply Step_make; [apply Stable_RemoveLabel|repeat constructor].
  - destruct (HasAnnotation _ _); cbn; [|apply Step_refl].
    apply Step_make; [apply Stable_RemoveAnnotation|repeat constructor].
Qed.

Lemma resolveSecrets_world env w : snd (resolveSecrets env w) = w.
Proof.
  unfold resolveSecrets.
  repeat match goal with
         | |- context [match ?x with _ => _ end] => destruct x
         end; reflexivity.
Qed.

Lemma Keeps_resolveSecrets : Keeps resolveSecrets.
Proof. intros env w. rewrite resolveSecrets_world. apply Step_refl. Qed.

Lemma Keeps_updateConnectorHash : Keeps updateConnectorHash.
Proof.
  intros env w. unfold updateConnectorHash.
  unfold bind at 1. unfold get_obj at 1. cbv beta.
  destruct (Fingerprint.calculateConnectorHash (obj w)) as [hash [e|]];
    [apply Step_refl|].
  eapply Step_trans; [apply (Step_set w), (Stable_SetAnnotation _ annotationConnectorHash hash)|].
  - cbn; auto.
  - apply (Keeps_Update env {| history := history w; obj := SetAnnotation (obj w) _ _ |}).
Qed.

Lemma Keeps_updateSchemaHash : Keeps updateSchemaHash.
Proof.
  intros env w. unfold updateSchemaHash.
  unfold bind at 1. unfold get_obj at 1. cbv beta.
  destruct (Fingerprint.calculateSchemaHash (obj w)) as [hash [e|]];
    [apply Step_refl|].
  eapply Step_trans; [apply (Step_set w), (Stable_SetAnnotation _ annotationSchemaHash hash)|].
  - cbn; auto.
  - apply (Keeps_Update env {| history := history w; obj := SetAnnotation (obj w) _ _ |}).
Qed.

Lemma createConnector_fresh resolvedConfig resolvedAuth env w :
  ConnectorID (Status (obj w)) = "" ->
  Step w (snd (createConnector resolvedConfig resolvedAuth env w))
  /\ obj (snd (createConnector resolvedConfig resolvedAuth env w)) = obj w.
Proof.
  intros E.
  unfold createConnector, Services.CreateConnection, bind, get_obj, ret, call.
  destruct (toFivetranConnector _ _ _) as [c|e]; [|split; [apply Step_refl|reflexivity]].
  destruct (reply_ConnectionCreate _ _ _) as [[resp id] e].
  assert (S : Step w {| history := history w
                          ++ [ConnectionCreateDo (create_request (with_paused c (Some true)))];
                        obj := obj w |}).
  { apply Step_call. cbn. auto. }
  now destruct (WrapFivetranError resp e).
Qed.

Lemma Keeps_updateConnector connectorID resolvedConfig resolvedAuth :
  Keeps (updateConnector connectorID resolvedConfig resolvedAuth).
Proof. unfold updateConnector, Services.UpdateConnection. keeps. Qed.

Lemma updateConnectorIDStatus_fresh connectorID env w :
  ConnectorID (Status (obj w)) = "" ->
  Step w (snd (updateConnectorIDStatus connectorID env w)).
Proof.
  intros H. unfold updateConnectorIDStatus.
  eapply Step_trans; [apply (Step_set w), (Stable_fresh_id _ connectorID
                                              (fivetranConnectorURL connectorID)), H|].
  apply (Keeps_StatusUpdate env {| history := history w; obj := with_connector_id _ _ _ |}).
Qed.

Lemma Keeps_reconcileConnector resolvedConfig resolvedAuth :
  Keeps (reconcileConnector resolvedConfig resolvedAuth).
Proof.
  intros env w. unfold reconcileConnector.
  unfold bind at 1. unfold get_obj at 1. cbv beta zeta.
  destruct (String.eqb_spec (ConnectorID (Status (obj w))) "") as [E|E].
  - unfold bind at 1.
    destruct (createConnector_fresh resolvedConfig resolvedAuth env w E) as [Hs Hc].
    destruct (createConnector resolvedConfig resolvedAuth env w) as [[id err] w1].
    cbn [snd] in Hs, Hc. eapply Step_trans; [exact Hs|]. rewrite <- Hc in E.
    destruct err as [e|]; [apply Step_refl|].
    unfold bind at 1.
    pose proof (updateConnectorIDStatus_fresh id env w1 E) as Hu.
    destruct (updateConnectorIDStatus id env w1) as [e1 w2]. cbn [snd] in Hu.
    eapply Step_trans; [exact Hu|].
    apply Keeps_at.
    destruct e1 as [e|]; [apply Keeps_ret|].
    apply Keeps_bind; [apply Keeps_updateConnectorHash|]. intros ?. keeps.
  - apply Keeps_at.
    apply Keeps_bind; [apply Keeps_updateConnector|]. intros [updated err].
    destruct err; [apply Keeps_ret|].
    apply Keeps_bind; [apply Keeps_updateConnectorHash|]. intros ?. keeps.
Qed.

Lemma adoption_Step adoptConnectorID env w :
  ConnectorID (Status (obj w)) = "" ->
  Step w (snd (handleExistingConnectorAdoption adoptConnectorID env w)).
Proof.
  intros E. unfold handleExistingConnectorAdoption, Services.GetConnection.
  unfold bind at 1. unfold get_obj at 1. cbv beta zeta.
  unfold bind at 1. unfold bind at 1. unfold call at 1.
  destruct (reply_ConnectionDetails env (history w) adoptConnectorID) as [[resp details] e].
  cbv beta iota. unfold ret at 1. cbv beta iota.
  assert (S : Step w {| history := history w ++ [ConnectionDetailsDo adoptConnectorID];
                        obj := obj w |}) by (apply Step_call; exact I).
  destruct (WrapFivetranError resp e); [exact S|].
  destruct (negb _); [exact S|].
  destruct (negb _); [exact S|].
  match goal with |- context [match ?x with Some e => ret (Some e) | None => _ end] =>
    destruct x end; [exact S|].
  eapply Step_trans; [exact S|].
  apply (updateConnectorIDStatus_fresh adoptConnectorID env
           {| history := history w ++ [ConnectionDetailsDo adoptConnectorID];
              obj := obj w |} E).
Qed.

Lemma Keeps_adoptionIfNeeded : Keeps handleExistingConnectorAdoptionIfNeeded.
Proof.
  intros env w. unfold handleExistingConnectorAdoptionIfNeeded.
  unfold bind at 1. unfold get_obj at 1. cbv beta zeta.
  destruct (String.eqb_spec (ConnectorID (Status (obj w))) "") as [E|E];
    [|apply Step_refl].
  destruct (negb _); [|apply Step_refl].
  unfold bind at 1.
  pose proof (adoption_Step
                (GetAnnotation (obj w) annotationAdoptExistingConnectorID) env w E) as H.
  destruct (handleExistingConnectorAdoption _ env w) as [err w1]. cbn [snd] in H.
  now destruct err.
Qed.

Lemma Keeps_reconcileSetupTests connectorID : Keeps (reconcileSetupTests connectorID).
Proof.
  unfold reconcileSetupTests, Services.RunSetupTests.
  apply Keeps_bind; [apply Keeps_get|]. intros o. cbv zeta.
  destruct (negb _).
  - apply Keeps_bind; [apply Keeps_updateSetupTestsCondition|]. intros ?. keeps.
  - apply Keeps_bind; [keeps|]. intros [tests err]. destruct err; [keeps|].
    destruct (fold_left classify_test tests ([], [])) as [warnings errors].
    destruct (0 <? _); [keeps|].
    apply Keeps_bind; [apply Keeps_updateSetupTestsCondition|]. intros ?. keeps.
Qed.

Lemma Keeps_reloadSchema connectorID : Keeps (reloadSchema connectorID).
Proof. unfold reloadSchema, Services.ReloadSchema. keeps. Qed.

Lemma Keeps_UpdateSchema connectorID builder :
  Keeps (Services.UpdateSchema connectorID builder).
Proof.
  unfold Services.UpdateSchema. destruct builder as [b|]; [|keeps].
  destruct (Builder.Build b) as [[schemas handling] [e|]]; keeps.
Qed.

Lemma Keeps_applySchema connectorID : Keeps (applySchema connectorID).
Proof.
  unfold applySchema.
  apply Keeps_bind; [apply Keeps_get|]. intros o. cbv zeta.
  apply Keeps_bind; [apply Keeps_UpdateSchema|]. intros [e|]; [keeps|].
  apply Keeps_updateSchemaHash.
Qed.

Lemma Keeps_GetSchemaDetails connectorID : Keeps (Services.GetSchemaDetails connectorID).
Proof. unfold Services.GetSchemaDetails. keeps. Qed.

Lemma Keeps_retryOnce connectorID : Keeps (retryOnce connectorID).
Proof.
  unfold retryOnce.
  apply Keeps_bind; [apply Keeps_reloadSchema|]. intros [e|]; [keeps|].
  apply Keeps_bind; [apply Keeps_applySchema|]. intros [e|]; [keeps|].
  apply Keeps_bind; [apply Keeps_GetSchemaDetails|]. intros [details [e|]]; [keeps|].
  apply Keeps_bind; [apply Keeps_get|]. intros o.
  destruct (SchemaCompare.CompareSchemaWithCR _ _) as [matches report].
  destruct (negb matches); keeps.
Qed.

Lemma Keeps_reconcileSchema connectorID : Keeps (reconcileSchema connectorID).
Proof.
  unfold reconcileSchema.
  apply Keeps_bind; [apply Keeps_GetSchemaDetails|]. intros [details err].
  apply Keeps_bind.
  { destruct err as [e0|]; [|keeps]. destruct (negb _); [keeps|].
    apply Keeps_bind; [apply Keeps_reloadSchema|]. intros [e|]; keeps. }
  intros [e|]; [keeps|].
  apply Keeps_bind; [apply Keeps_applySchema|]. intros [e|]; [keeps|].
  apply Keeps_bind; [apply Keeps_GetSchemaDetails|]. intros [details' [e|]]; [keeps|].
  apply Keeps_bind; [apply Keeps_get|]. intros o.
  destruct (SchemaCompare.CompareSchemaWithCR _ _) as [matches report].
  apply Keeps_bind.
  { destruct (negb matches); [apply Keeps_retryOnce|keeps]. }
  intros [e|]; keeps.
Qed.

Lemma Keeps_reconcileSteps : Keeps reconcileSteps.
Proof.
  unfold reconcileSteps.
  apply Keeps_bind; [apply Keeps_get|]. intros o0. cbv zeta.
  apply Keeps_bind; [apply Keeps_adoptionIfNeeded|]. intros [needRequeue err].
  destruct err; [apply Keeps_handleError, in_operator_conditions_1|].
  destruct needRequeue; [keeps|].
  apply Keeps_bind; [apply Keeps_get|]. intros o1.
  destruct (determineReconciliationNeeds o1 _) as [[needC needS] [e|]];
    [apply Keeps_handleError, in_operator_conditions_1|].
  destruct (negb needC && negb needS); [keeps|].
  apply Keeps_bind; [apply Keeps_resolveSecrets|]. intros [[resolvedConfig resolvedAuth] err].
  destruct err; [apply Keeps_handleError, in_operator_conditions_1|].
  apply Keeps_bind; [apply Keeps_get|]. intros o2.
  apply Keeps_bind.
  { destruct needC; [|keeps].
    apply Keeps_bind; [apply Keeps_reconcileConnector|]. intros [id [e|]].
    - apply Keeps_bind; [apply Keeps_handleError, in_operator_conditions_1|].
      intros ?. keeps.
    - apply Keeps_bind; [apply Keeps_reconcileSetupTests|]. intros [warnings [e|]].
      + apply Keeps_bind; [apply Keeps_handleError, in_operator_conditions_2|].
        intros ?. keeps.
      + keeps. }
  intros [connectorID [r|]]; [keeps|].
  apply Keeps_bind; [apply Keeps_get|]. intros o3.
  apply Keeps_bind.
  { destruct (needS && hasSchemaConfig o3).
    - apply Keeps_bind; [apply Keeps_reconcileSchema|]. intros [e|]; [|keeps].
      apply Keeps_bind; [apply Keeps_handleError, in_operator_conditions_3|].
      intros ?. keeps.
    - apply Keeps_bind; [keeps|]. intros [e|]; [|keeps].
      apply Keeps_bind; [apply Keeps_handleError, in_operator_conditions_3|].
      intros ?. keeps. }
  intros [r|]; [keeps|].
  apply Keeps_bind.
  { destruct needC; [|keeps].
    apply Keeps_bind; [apply Keeps_updateConnector|]. intros [u [e|]]; [|keeps].
    apply Keeps_bind; [apply Keeps_handleError, in_operator_conditions_1|].
    intros ?. keeps. }
  intros [r|]; [keeps|].
  apply Keeps_bind; [apply Keeps_cleanupAnnotationsAndLabels|]. intros [e|]; [|keeps].
  apply Keeps_handleError, in_operator_conditions_1.
Qed.

End InvariantFacts.

(** X23.  What a reconciliation never does to the resource, whatever the
    provider, the secret store and the API server answer.  It never changes
    the spec; it never replaces the identifier or the URL of a connector
    that is already known; it touches no label but the force-reconcile one
    and no annotation but the two fingerprints and the adoption request; it
    removes no condition, adds only conditions of its three types, and
    leaves at most one condition per type where there was at most one. *)
Theorem reconciliation_leaves_the_rest_alone :
  forall (env : Provider.Env) (w : Provider.World),
    InvariantSpec.Stable (Provider.obj w)
                         (Provider.obj (snd (Controller.reconcileSteps env w))).
Proof. intros env w. apply Keeps_reconcileSteps. Qed.

(** X24.  A reconciliation only adds calls to those made before it, and
    among the calls it makes: a connector is created only when the resource
    had no connector identifier at the start, and then paused and without
    setup tests; an update never asks for setup tests either.  So a
    resource whose connector is known never creates a second one. *)
Theorem known_connector_is_never_created_again :
  forall (env : Provider.Env) (w : Provider.World),
  exists calls,
    Provider.history (snd (Controller.reconcileSteps env w))
    = Provider.history w ++ calls
    /\ (forall req, In (Provider.ConnectionCreateDo req) calls ->
          V1alpha1.ConnectorID (V1alpha1.Status (Provider.obj w)) = ""
          /\ Provider.c_paused req = Some true
          /\ Provider.c_runSetupTests req = Some false)
    /\ (forall req, In (Provider.ConnectionUpdateDo req) calls ->
          Provider.u_runSetupTests req = Some false).
Proof.
  intros env w. destruct (Keeps_reconcileSteps env w) as [_ (calls & H & A)].
  exists calls. split; [exact H|]. rewrite List.Forall_forall in A.
  split; intros req Hin; exact (A _ Hin).
Qed.

(* --------------------------------------------------------------------- *)
(** ** Convergence *)
(* --------------------------------------------------------------------- *)

(** Properties of the object that every step of a reconciliation keeps,
    given that the six ways in which the object is modified keep them. *)
Section Frame.
Import V1alpha1 Provider Controller ReconcileSpec ConvergenceSpec.

Variable P : FivetranConnector -> Prop.
Hypothesis framed : Framed P.

Lemma P_conditions o cs : P o -> P (with_conditions o cs).
Proof. apply framed. Qed.

Lemma P_id o id url : P o -> P (with_connector_id o id url).
Proof. apply framed. Qed.



Lemma P_connector_hash : Preserves P updateConnectorHash.
Proof. apply framed. Qed.

Lemma P_schema_hash : Preserves P updateSchemaHash.
Proof. apply framed. Qed.

Lemma Pres_ret {A} (a : A) : Preserves P (ret a).
Proof. intros env w H. exact H. Qed.

Lemma Pres_get : Preserves P get_obj.
Proof. intros env w H. exact H. Qed.

Lemma Pres_call {A} c (reply : Env -> list Call -> A) : Preserves P (call c reply).
Proof. intros env w H. exact H. Qed.

Lemma Pres_bind {A B} (m : M A) (k : A -> M B) :
  Preserves P m -> (forall a, Preserves P (k a)) -> Preserves P (bind m k).
Proof.
  intros Hm Hk env w H. unfold bind. specialize (Hm env w H).
  destruct (m env w) as [a w1]. now apply Hk.
Qed.

Lemma Pres_Update : Preserves P Update.
Proof. intros env w H. exact H. Qed.

Lemma Pres_StatusUpdate : Preserves P StatusUpdate.
Proof. intros env w H. exact H. Qed.

Lemma Pres_set {A} (f : FivetranConnector -> FivetranConnector) (k : M A) :
  (forall o, P o -> P (f o)) -> Preserves P k ->
  Preserves P (bind get_obj (fun o => bind (set_obj (f o)) (fun _ => k))).
Proof.
  intros Hf Hk env w H.
  apply (Hk env {| history := history w; obj := f (obj w) |}), Hf, H.
Qed.

Lemma Pres_setCondition conditionType status reason message :
  Preserves P (setCondition conditionType status reason message).
Proof.
  unfold setCondition.
  apply (Pres_set (fun o => with_conditions o (upsert _ (Conditions (Status o))))).
  - intros o. apply P_conditions.
  - apply Pres_StatusUpdate.
Qed.

Lemma Pres_updateConnectorIDStatus connectorID :
  Preserves P (updateConnectorIDStatus connectorID).
Proof.
  unfold updateConnectorIDStatus.
  apply (Pres_set (fun o => with_connector_id o connectorID _)).
  - intros o. apply P_id.
  - apply Pres_StatusUpdate.
Qed.

Ltac pres_step :=
  first
    [ apply Pres_ret | apply Pres_get | apply Pres_call
    | apply Pres_Update | apply Pres_StatusUpdate
    | apply Pres_setCondition | apply Pres_updateConnectorIDStatus
    | apply P_connector_hash | apply P_schema_hash
    | assumption
    | apply Pres_bind; [|intros ?]
    | match goal with
      | |- Preserves P (match ?x with _ => _ end) => destruct x
      end ].

Ltac pres := repeat pres_step.

Lemma Pres_handleError conditionType reason e :
  Preserves P (handleError conditionType reason e).
Proof. unfold handleError. pres. Qed.



Lemma Pres_resolveSecrets : Preserves P resolveSecrets.
Proof. intros env w H. now rewrite resolveSecrets_world. Qed.





Lemma Pres_reloadSchema connectorID : Preserves P (reloadSchema connectorID).
Proof. unfold reloadSchema, Services.ReloadSchema. pres. Qed.

Lemma Pres_UpdateSchema connectorID builder :
  Preserves P (Services.UpdateSchema connectorID builder).
Proof.
  unfold Services.UpdateSchema. destruct builder as [b|]; [|pres].
  destruct (Builder.Build b) as [[schemas handling] [e|]]; pres.
Qed.

Lemma Pres_applySchema connectorID : Preserves P (applySchema connectorID).
Proof.
  unfold applySchema.
  apply Pres_bind; [apply Pres_get|]. intros o. cbv zeta.
  apply Pres_bind; [apply Pres_UpdateSchema|]. intros [e|]; pres.
Qed.

Lemma Pres_GetSchemaDetails connectorID :
  Preserves P (Services.GetSchemaDetails connectorID).
Proof. unfold Services.GetSchemaDetails. pres. Qed.

Lemma Pres_retryOnce connectorID : Preserves P (retryOnce connectorID).
Proof.
  unfold retryOnce.
  apply Pres_bind; [apply Pres_reloadSchema|]. intros [e|]; [pres|].
  apply Pres_bind; [apply Pres_applySchema|]. intros [e|]; [pres|].
  apply Pres_bind; [apply Pres_GetSchemaDetails|]. intros [details [e|]]; [pres|].
  apply Pres_bind; [apply Pres_get|]. intros o.
  destruct (SchemaCompare.CompareSchemaWithCR _ _) as [matches report].
  destruct (negb matches); pres.
Qed.

(** What [reconcileSchema] does after [applySchema] has succeeded. *)
Lemma Pres_verifySchema connectorID :
  Preserves P
    (bind (Services.GetSchemaDetails connectorID) (fun '(schemaDetails, err) =>
       match err with
       | Some e =>
           ret (Some (GoError.Wrap
                        "reconcileSchema: failed to get schema details after apply: "
                        e ""))
       | None =>
           bind get_obj (fun o =>
             let '(matches, mismatchDetails) :=
               SchemaCompare.CompareSchemaWithCR schemaDetails
                                                 (ConnectorSchemas (Spec o)) in
             bind (if negb matches then retryOnce connectorID else ret None) (fun e2 =>
               match e2 with
               | Some e => ret (Some e)
               | None =>
                   setCondition conditionTypeSchemaReady ConditionTrue
                                SchemaReasonReconciliationSuccess msgSchemaReady
               end))
       end)).
Proof.
  apply Pres_bind; [apply Pres_GetSchemaDetails|]. intros [details' [e|]]; [pres|].
  apply Pres_bind; [apply Pres_get|]. intros o.
  destruct (SchemaCompare.CompareSchemaWithCR _ _) as [matches report].
  apply Pres_bind.
  { destruct (negb matches); [apply Pres_retryOnce|pres]. }
  intros [e|]; pres.
Qed.


End Frame.

Section ConvergenceFacts.
Import V1alpha1 Provider Controller ReconcileSpec ConvergenceSpec.

Local Arguments Fingerprint.calculateConnectorHash : simpl never.
Local Arguments Fingerprint.calculateSchemaHash : simpl never.

Lemma GetAnnotation_SetAnnotation_ne o key key' value :
  key <> key' -> GetAnnotation (SetAnnotation o key value) key' = GetAnnotation o key'.
Proof. intros H. unfold GetAnnotation, SetAnnotation. cbn. now rewrite lookup_insert_ne. Qed.

Lemma GetAnnotation_RemoveAnnotation_ne o key key' :
  key <> key' -> GetAnnotation (RemoveAnnotation o key) key' = GetAnnotation o key'.
Proof. intros H. unfold GetAnnotation, RemoveAnnotation. cbn. now rewrite lookup_delete_ne. Qed.


Lemma updateSchemaHash_current env w :
  fst (updateSchemaHash env w) = None ->
  schema_hash_current (obj (snd (updateSchemaHash env w))).
Proof.
  destruct (updateSchemaHash env w) as [e w'] eqn:E. cbn. intros ->.
  destruct (updateSchemaHash_None _ _ _ E) as (hash & Hh & -> & _).
  right. now rewrite calculateSchemaHash_SetAnnotation, Hh, GetAnnotation_SetAnnotation.
Qed.

Lemma updateConnectorHash_obj env w :
  obj (snd (updateConnectorHash env w)) = obj w
  \/ exists hash, obj (snd (updateConnectorHash env w))
                  = SetAnnotation (obj w) annotationConnectorHash hash
                  /\ Fingerprint.calculateConnectorHash (obj w) = (hash, None).
Proof.
  unfold updateConnectorHash, bind, get_obj, ret, set_obj, Update, call.
  destruct (Fingerprint.calculateConnectorHash (obj w)) as [hash [e|]]; cbn; eauto.
Qed.

Lemma updateSchemaHash_obj env w :
  obj (snd (updateSchemaHash env w)) = obj w
  \/ exists hash, obj (snd (updateSchemaHash env w))
                  = SetAnnotation (obj w) annotationSchemaHash hash
                  /\ Fingerprint.calculateSchemaHash (obj w) = (hash, None).
Proof.
  unfold updateSchemaHash, bind, get_obj, ret, set_obj, Update, call.
  destruct (Fingerprint.calculateSchemaHash (obj w)) as [hash [e|]]; cbn; eauto.
Qed.


Lemma Framed_schema_hash_current : Framed schema_hash_current.
Proof.
  unfold Framed, schema_hash_current. repeat split; try (intros; assumption).
  - intros o H. change (Fingerprint.calculateSchemaHash
                          (RemoveAnnotation o annotationAdoptExistingConnectorID))
      with (Fingerprint.calculateSchemaHash o).
    change (hasSchemaConfig (RemoveAnnotation o annotationAdoptExistingConnectorID))
      with (hasSchemaConfig o).
    rewrite GetAnnotation_RemoveAnnotation_ne; [exact H|discriminate].
  - intros env w H. destruct (updateConnectorHash_obj env w) as [->|(hash & -> & Hh)].
    + exact H.
    + change (hasSchemaConfig (SetAnnotation (obj w) annotationConnectorHash hash))
        with (hasSchemaConfig (obj w)).
      rewrite calculateSchemaHash_SetAnnotation.
      rewrite GetAnnotation_SetAnnotation_ne; [exact H|discriminate].
  - intros env w H. destruct (updateSchemaHash_obj env w) as [->|(hash & -> & Hh)].
    + exact H.
    + right.
      now rewrite calculateSchemaHash_SetAnnotation, Hh, GetAnnotation_SetAnnotation.
Qed.

Lemma Framed_not_forced : Framed not_forced.
Proof.
  unfold Framed, not_forced. repeat split; try (intros; assumption).
  - intros o _. unfold HasLabel, RemoveLabel. cbn. now rewrite lookup_delete_eq.
  - intros env w H. destruct (updateConnectorHash_obj env w) as [->|(hash & -> & Hh)];
      exact H.
  - intros env w H. destruct (updateSchemaHash_obj env w) as [->|(hash & -> & Hh)];
      exact H.
Qed.





Lemma applySchema_current connectorID env w w' :
  applySchema connectorID env w = (None, w') -> schema_hash_current (obj w').
Proof.
  unfold applySchema.
  unfold bind at 1. unfold get_obj at 1. cbv beta zeta.
  unfold bind at 1.
  destruct (Services.UpdateSchema _ _ env w) as [[e|] wa]; [discriminate|].
  intros H. pose proof (updateSchemaHash_current env wa) as Hh.
  rewrite H in Hh. now apply Hh.
Qed.

Lemma reconcileSchema_current connectorID env w w' :
  reconcileSchema connectorID env w = (None, w') -> schema_hash_current (obj w').
Proof.
  unfold reconcileSchema.
  unfold bind at 1.
  destruct (Services.GetSchemaDetails connectorID env w) as [[details err] wa].
  unfold bind at 1.
  match goal with
  | |- context [let '(a, w1) := ?m env wa in _] => destruct (m env wa) as [[e|] wb]
  end; [discriminate|].
  unfold bind at 1.
  pose proof (applySchema_current connectorID env wb) as Ha.
  destruct (applySchema connectorID env wb) as [[e|] wc]; [discriminate|].
  specialize (Ha _ eq_refl).
  intros H.
  match type of H with
  | ?t = _ =>
      assert (H2 : schema_hash_current (obj (snd t)))
        by (apply (Pres_verifySchema _ Framed_schema_hash_current connectorID env wc Ha))
  end.
  now rewrite H in H2.
Qed.





End ConvergenceFacts.

Section SettleFacts.
Import V1alpha1 Provider Controller ReconcileSpec ConvergenceSpec.

Local Arguments Fingerprint.calculateConnectorHash : simpl never.
Local Arguments Fingerprint.calculateSchemaHash : simpl never.

(** Split the first step off a sequence that is run in a hypothesis-free
    goal [m env w = r -> _]. *)
Ltac first_step a w1 E :=
  unfold bind at 1;
  match goal with
  | |- match ?m ?env ?w with _ => _ end = _ -> _ => destruct (m env w) as [a w1] eqn:E
  end.




End SettleFacts.



(* --------------------------------------------------------------------- *)
(** ** The adoption pass *)
(* --------------------------------------------------------------------- *)

Section AdoptionPass.
Import V1alpha1 Provider Services Controller ReconcileSpec.




End AdoptionPass.



(* --------------------------------------------------------------------- *)
(** ** Setup tests *)
(* --------------------------------------------------------------------- *)

Section SetupTestFacts.
Import V1alpha1 Provider Services Controller StatusSpec ReconcileSpec SetupTestSpec.

(** The loop over the test results sorts them into warnings and failures,
    each in the order of the provider. *)
Lemma classify_fold tests ws es :
  fold_left classify_test tests (ws, es)
  = (ws ++ map warning_line (List.filter is_warning tests),
     es ++ map failure_error (List.filter is_failure tests)).
Proof.
  revert ws es. induction tests as [|t tests IH]; intros ws es; cbn [fold_left].
  - cbn. now rewrite !app_nil_r.
  - unfold classify_test at 2. cbn [List.filter]. unfold is_warning, is_failure.
    destruct (String.eqb (t_Status t) setupTestStatusWarning); cbn [negb andb].
    + rewrite IH. cbn [map]. now rewrite <- app_assoc.
    + destruct (negb (String.eqb (t_Status t) setupTestStatusPassed)
                && negb (String.eqb (t_Status t) setupTestStatusSkipped)).
      * rewrite IH. cbn [map]. now rewrite <- app_assoc.
      * now rewrite IH.
Qed.

Lemma ltb_length {A} (l : list A) :
  (0 <? Z.of_nat (length l)) = match l with [] => false | _ :: _ => true end.
Proof. now destruct l. Qed.

End SetupTestFacts.

(** X27.  What reconcileSetupTests does with the provider's answer.  When
    the spec disables setup tests, the provider is not called and the
    setup-test condition is set to true with reason Skipped.  Otherwise the
    tests are run once; every WARNING test gives one line
    [title: message] and every test that is neither WARNING, PASSED nor
    SKIPPED gives one failure, both in the provider's order.  Without
    failures the warnings are returned and the condition is set to true
    (with the warnings joined by "; " in its message, if there are any);
    with failures the setup-test error carrying all of them is returned,
    with the warnings, and nothing is written. *)
Theorem setup_tests_report_in_provider_order :
  forall (env : Provider.Env) (w : Provider.World) (connectorID : string),
    let connector := V1alpha1.spec_Connector (V1alpha1.Spec (Provider.obj w)) in
    let r := Controller.reconcileSetupTests connectorID env w in
    (V1alpha1.RunSetupTests connector = Some false ->
     let o' := SetupTestSpec.with_condition (Provider.obj w)
                 (ReconcileSpec.condition Controller.conditionTypeSetupTestReady
                    V1alpha1.ConditionTrue Controller.SetupTestsReasonSkipped
                    Controller.msgSetupTestsSkipped) in
     r = (([], Provider.reply_K8sStatusUpdate env (Provider.history w) o'),
          {| Provider.history := Provider.history w ++ [Provider.K8sStatusUpdate o'];
             Provider.obj := o' |}))
    /\ (forall resp tests,
           V1alpha1.RunSetupTests connector <> Some false ->
           Provider.reply_SetupTests env (Provider.history w) connectorID
             (StatusSpec.trust (V1alpha1.TrustCertificates connector))
             (StatusSpec.trust (V1alpha1.TrustFingerprints connector))
           = (resp, tests, None) ->
           let warnings :=
             map ReconcileSpec.warning_line (List.filter ReconcileSpec.is_warning tests) in
           let failures :=
             map SetupTestSpec.failure_error (List.filter StatusSpec.is_failure tests) in
           let called :=
             Provider.history w
               ++ [Provider.SetupTestsDo connectorID
                     (StatusSpec.trust (V1alpha1.TrustCertificates connector))
                     (StatusSpec.trust (V1alpha1.TrustFingerprints connector))] in
           match failures with
           | [] =>
               let o' := SetupTestSpec.with_condition (Provider.obj w)
                           (ReconcileSpec.condition Controller.conditionTypeSetupTestReady
                              V1alpha1.ConditionTrue
                              (fst (SetupTestSpec.outcome warnings))
                              (snd (SetupTestSpec.outcome warnings))) in
               r = ((warnings, Provider.reply_K8sStatusUpdate env called o'),
                    {| Provider.history := called ++ [Provider.K8sStatusUpdate o'];
                       Provider.obj := o' |})
           | _ :: _ =>
               r = ((warnings,
                     Some (StatusSpec.setup_tests_failed
                             (": " +:+ GoError.Error (GoError.Joined failures)))),
                    {| Provider.history := called; Provider.obj := Provider.obj w |})
           end).
Proof.
  intros env w connectorID connector r. subst r connector. split.
  - intros Hrun. cbv zeta.
    unfold Controller.reconcileSetupTests, Controller.updateSetupTestsCondition,
      Controller.setCondition, Controller.StatusUpdate, Provider.call, Provider.set_obj,
      Provider.bind, Provider.ret, Provider.get_obj.
    cbn. repeat (rewrite Hrun; cbn).
    now destruct (Provider.reply_K8sStatusUpdate env (Provider.history w) _).
  - intros resp tests Hrun Hreply. cbv zeta.
    unfold Controller.reconcileSetupTests, Controller.updateSetupTestsCondition,
      Services.RunSetupTests, Controller.setCondition, Controller.StatusUpdate,
      Provider.call, Provider.set_obj, Provider.bind, Provider.ret, Provider.get_obj.
    cbn.
    assert (Hr : match V1alpha1.RunSetupTests
                         (V1alpha1.spec_Connector (V1alpha1.Spec (Provider.obj w))) with
                 | Some b => b
                 | None => true
                 end = true).
    { destruct (V1alpha1.RunSetupTests _) as [[|]|]; auto; now elim Hrun. }
    rewrite Hr. cbn [negb].
    change (match V1alpha1.TrustCertificates _ with Some b => b | None => true end)
      with (StatusSpec.trust (V1alpha1.TrustCertificates
              (V1alpha1.spec_Connector (V1alpha1.Spec (Provider.obj w))))).
    change (match V1alpha1.TrustFingerprints _ with Some b => b | None => true end)
      with (StatusSpec.trust (V1alpha1.TrustFingerprints
              (V1alpha1.spec_Connector (V1alpha1.Spec (Provider.obj w))))).
    rewrite Hreply. cbn [Provider.WrapFivetranError].
    rewrite (classify_fold tests [] []). cbn [app].
    rewrite !ltb_length.
    destruct (map SetupTestSpec.failure_error _) as [|f fs]; [|reflexivity].
    cbn. rewrite Hr. cbn [negb].
    destruct (map ReconcileSpec.warning_line _) as [|x xs]; cbn;
      now destruct (Provider.reply_K8sStatusUpdate env _ _).
Qed.

Lemma setup_tests_report_in_provider_order_witness :
  fst (fst (Controller.reconcileSetupTests "conn_1" WarningScenario.env
              SetupTestScenario.start))
  = ["Validating certificate: self-signed"; "Checking permissions: read-only user"].
Proof.
  refine (f_equal (fun r => fst (fst r))
            (proj2 (setup_tests_report_in_provider_order WarningScenario.env
                      SetupTestScenario.start "conn_1")
                   DriftScenario.ok WarningScenario.tests _ _)).
  - vm_compute. discriminate.
  - reflexivity.
Defined.

(* --------------------------------------------------------------------- *)
(** ** The schema is marked ready only when verified *)
(* --------------------------------------------------------------------- *)

Section VerifiedFacts.
Import V1alpha1 Provider Services Controller StatusSpec ReconcileSpec InvariantSpec
       ConvergenceSpec VerifySpec.

Local Arguments SchemaCompare.CompareSchemaWithCR : simpl never.

Ltac first_step a w1 E :=
  unfold bind at 1;
  match goal with
  | |- match ?m ?env ?w with _ => _ end = _ -> _ => destruct (m env w) as [a w1] eqn:E
  end.

Lemma WrapFivetranError_None resp e : WrapFivetranError resp e = None -> e = None.
Proof. destruct e; [discriminate|reflexivity]. Qed.

Lemma GetSchemaDetails_eq connectorID env w :
  GetSchemaDetails connectorID env w
  = ((fst (reply_SchemaDetails env (history w) connectorID),
      WrapFivetranError
        (schema_CommonResponse (fst (reply_SchemaDetails env (history w) connectorID)))
        (snd (reply_SchemaDetails env (history w) connectorID))),
     {| history := history w ++ [SchemaDetailsDo connectorID]; obj := obj w |}).
Proof.
  unfold GetSchemaDetails, call, bind, ret.
  now destruct (reply_SchemaDetails env (history w) connectorID).
Qed.

(** A step keeps the spec and only adds calls. *)
Lemma Step_facts w w1 :
  Step w w1 -> Spec (obj w1) = Spec (obj w) /\ exists calls, history w1 = history w ++ calls.
Proof.
  intros [S (calls & H & _)]. split; [apply S|eauto].
Qed.

Lemma setCondition_history conditionType status reason message env w :
  history (snd (setCondition conditionType status reason message env w))
  = history w
      ++ [K8sStatusUpdate (obj (snd (setCondition conditionType status reason message
                                                  env w)))].
Proof. reflexivity. Qed.

Lemma retryOnce_verified connectorID env w w' :
  retryOnce connectorID env w = (None, w') ->
  exists calls,
    history w' = (history w ++ calls) ++ [SchemaDetailsDo connectorID]
    /\ verified_at env (history w ++ calls) connectorID (obj w).
Proof.
  unfold retryOnce.
  pose proof (Keeps_reloadSchema connectorID env w) as K1.
  first_step e1 w1 E1. cbn [snd] in K1. destruct e1 as [e|]; [discriminate|].
  pose proof (Keeps_applySchema connectorID env w1) as K2.
  first_step e2 w2 E2. cbn [snd] in K2. destruct e2 as [e|]; [discriminate|].
  unfold bind at 1. pose proof (GetSchemaDetails_eq connectorID env w2) as E3.
  destruct (GetSchemaDetails connectorID env w2) as [[details [e|]] w3];
    [discriminate|].
  unfold bind at 1. unfold get_obj at 1. cbv beta.
  destruct (SchemaCompare.CompareSchemaWithCR _ _) as [matches report] eqn:Ec.
  destruct matches; cbn [negb]; [|discriminate].
  intros [= <-].
  destruct (Step_facts _ _ (Step_trans _ _ _ K1 K2)) as [Hspec (calls & Hh)].
  injection E3 as Hd Hw Hw3. subst w3. cbn [obj history] in *.
  exists calls. rewrite <- Hh. split; [reflexivity|].
  split.
  - eapply WrapFivetranError_None. symmetry. exact Hw.
  - rewrite <- Hd, <- Hspec, Ec. reflexivity.
Qed.

Lemma reconcileSchema_verified connectorID env w w' :
  reconcileSchema connectorID env w = (None, w') ->
  exists calls,
    history w'
    = (history w ++ calls) ++ [SchemaDetailsDo connectorID; K8sStatusUpdate (obj w')]
    /\ verified_at env (history w ++ calls) connectorID (obj w)
    /\ condition_status conditionTypeSchemaReady (obj w') = Some ConditionTrue.
Proof.
  unfold reconcileSchema.
  pose proof (Keeps_GetSchemaDetails connectorID env w) as K0.
  first_step a wa E0. cbn [snd] in K0. destruct a as [details0 err0].
  first_step e0 wb E1.
  assert (K1 : Step wa wb).
  { destruct err0 as [e|]; [|injection E1 as _ <-; apply Step_refl].
    destruct (negb _); [injection E1 as _ <-; apply Step_refl|].
    pose proof (Keeps_reloadSchema connectorID env wa) as K.
    unfold bind at 1 in E1.
    destruct (reloadSchema connectorID env wa) as [[e'|] wr]; cbn [snd] in K;
      injection E1 as _ <-; exact K. }
  clear E1. destruct e0 as [e|]; [discriminate|].
  pose proof (Keeps_applySchema connectorID env wb) as K2.
  first_step e1 wc E2. cbn [snd] in K2. destruct e1 as [e|]; [discriminate|].
  unfold bind at 1. pose proof (GetSchemaDetails_eq connectorID env wc) as E3.
  destruct (GetSchemaDetails connectorID env wc) as [[details [e|]] wd];
    [discriminate|].
  injection E3 as Hd Hw Hwd.
  unfold bind at 1. unfold get_obj at 1. cbv beta.
  destruct (Step_facts _ _ (Step_trans _ _ _ K0 (Step_trans _ _ _ K1 K2)))
    as [Hspec (calls & Hh)].
  destruct (SchemaCompare.CompareSchemaWithCR _ _) as [matches report] eqn:Ec.
  destruct matches; cbn [negb].
  - unfold bind at 1. unfold ret at 1. cbv beta iota.
    intros H.
    assert (Hw' : w' = snd (setCondition conditionTypeSchemaReady ConditionTrue
                              SchemaReasonReconciliationSuccess msgSchemaReady env wd))
      by (now rewrite H).
    exists calls. split; [|split].
    + rewrite Hw' at 1. rewrite setCondition_history, <- Hw'. subst wd. cbn [history].
      rewrite Hh, <- !app_assoc. reflexivity.
    + rewrite <- Hh. split.
      * eapply WrapFivetranError_None. symmetry. exact Hw.
      * subst wd. cbn [obj] in Ec. rewrite <- Hd, <- Hspec, Ec. reflexivity.
    + rewrite Hw'. apply setCondition_sets.
  - pose proof (Keeps_retryOnce connectorID env wd) as K4.
    first_step e2 we E4. cbn [snd] in K4. destruct e2 as [e|]; [discriminate|].
    destruct (retryOnce_verified _ _ _ _ E4) as (calls2 & Hh2 & Hv).
    intros H.
    assert (Hw' : w' = snd (setCondition conditionTypeSchemaReady ConditionTrue
                              SchemaReasonReconciliationSuccess msgSchemaReady env we))
      by (now rewrite H).
    subst wd. cbn [history obj] in *.
    exists ((calls ++ [SchemaDetailsDo connectorID]) ++ calls2). split; [|split].
    + rewrite Hw' at 1. rewrite setCondition_history, <- Hw'.
      rewrite Hh2, Hh, <- !app_assoc. reflexivity.
    + destruct Hv as [Hv1 Hv2]. rewrite Hh in Hv1, Hv2.
      rewrite <- !app_assoc in Hv1, Hv2. rewrite <- !app_assoc.
      split; [exact Hv1|]. now rewrite <- Hspec.
    + rewrite Hw'. apply setCondition_sets.
Qed.

End VerifiedFacts.

(** X28.  The schema is marked ready only when it has been verified.  When
    reconcileSchema ends without error, its last two calls are a fetch of
    the provider's schema and the status write that sets the schema-ready
    condition to true; that fetch was answered without error, by a schema
    that the comparator finds to match the declared one; and the stored
    schema fingerprint is the current one. *)
Theorem schema_ready_means_verified :
  forall (env : Provider.Env) (w w' : Provider.World) (connectorID : string),
    Controller.reconcileSchema connectorID env w = (None, w') ->
    exists calls,
      Provider.history w'
      = (Provider.history w ++ calls)
          ++ [Provider.SchemaDetailsDo connectorID;
              Provider.K8sStatusUpdate (Provider.obj w')]
      /\ VerifySpec.verified_at env (Provider.history w ++ calls) connectorID
                                (Provider.obj w)
      /\ StatusSpec.condition_status Controller.conditionTypeSchemaReady (Provider.obj w')
         = Some V1alpha1.ConditionTrue
      /\ ConvergenceSpec.schema_hash_current (Provider.obj w').
Proof.
  intros env w w' connectorID H.
  destruct (reconcileSchema_verified _ _ _ _ H) as (calls & Hh & Hv & Hc).
  exists calls. repeat split; try assumption; try apply Hv.
  eapply reconcileSchema_current; exact H.
Qed.

Lemma schema_ready_means_verified_witness :
  StatusSpec.condition_status Controller.conditionTypeSchemaReady
    (Provider.obj (snd (Controller.reconcileSchema "conn_1" DriftScenario.env
                          VerifyScenario.start)))
  = Some V1alpha1.ConditionTrue.
Proof.
  destruct (schema_ready_means_verified DriftScenario.env VerifyScenario.start
              (snd (Controller.reconcileSchema "conn_1" DriftScenario.env
                      VerifyScenario.start)) "conn_1")
    as (calls & _ & _ & H & _).
  - vm_compute. reflexivity.
  - exact H.
Defined.
